(** * Walmarket AI oracle: trust and verification subsystem

    Shallow embedding of the Python oracle under [contracts/oracle]:
    [signature_generator.py], [walrus_uploader.py], [seal_encryptor.py],
    [openai_inference.py], [tee_reporter.py] and the constants of
    [config.py], together with the parts of the Python standard library
    ([json], [hashlib], [str.encode], [bytes.hex], [str.split],
    [str.strip]) and of the ECDSA primitive that these files call.

    Conventions.
    - A Python [str] is a list of Unicode code points ([pystr]); a [bytes]
      object is a list of integers in [0, 255].
    - A [dict] is an association list in insertion order, which is the
      order [json.dumps] walks when [sort_keys] is off.
    - A Python exception is a value of [exn], named after the class
      that is raised; a call that may raise returns a [result].
    - What a call reads from its environment (the clock, the random
      source, the output of the [walrus] command, the answer of the
      language model) is an argument of the model; [print] calls are
      left out, the subscripts they evaluate are not.
    - The limits of the interpreter (the recursion depth, the digit
      limit of the conversion between [int] and [str]) are hypotheses
      of the statements ([within_limits], [int_fits],
      [text_within_limits]), not errors of the functions. *)

From Bignums Require Import BigZ.
From Stdlib Require Import String Ascii.
From Stdlib Require Import ZArith List Lia Bool.
From Stdlib Require Import Permutation.
From Stdlib Require Import DecimalFacts DecimalPos DecimalZ.
Import ListNotations.
Open Scope Z_scope.
Open Scope list_scope.

(* ================================================================== *)
(** * Part I: definitions                                              *)
(* ================================================================== *)

(** ** Python strings, bytes and exceptions *)

Definition pystr := list Z.
Definition bytes := list Z.

(** The code points of an ASCII literal. *)
Definition py (s : string) : pystr :=
  map (fun a => Z.of_nat (nat_of_ascii a)) (list_ascii_of_string s).
Arguments py s%_string : simpl never.

Fixpoint str_eqb (a b : pystr) : bool :=
  match a, b with
  | [], [] => true
  | x :: a', y :: b' => (x =? y) && str_eqb a' b'
  | _, _ => false
  end.

(** [a.startswith(b)] read as "[b] is a prefix of [a]". *)
Fixpoint startswith (a b : pystr) {struct b} : bool :=
  match b, a with
  | [], _ => true
  | y :: b', x :: a' => (x =? y) && startswith a' b'
  | _ :: _, [] => false
  end.

(** [needle in hay] for two strings. *)
Fixpoint str_contains (hay needle : pystr) : bool :=
  startswith hay needle ||
  match hay with
  | [] => false
  | _ :: hay' => str_contains hay' needle
  end.

Inductive exn : Set :=
| ValueError
| TypeError
| KeyError
| AttributeError
| UnicodeEncodeError
| UnicodeDecodeError
| JSONDecodeError
| InvalidSignature.

Inductive result (A : Type) : Type :=
| Ok (a : A)
| Raise (e : exn).
Arguments Ok {A} a.
Arguments Raise {A} e.

Definition bind {A B} (r : result A) (k : A -> result B) : result B :=
  match r with
  | Ok a => k a
  | Raise e => Raise e
  end.

Notation "x <- r ;; k" := (bind r (fun x => k))
  (at level 61, r at next level, right associativity).

Definition of_option {A} (e : exn) (o : option A) : result A :=
  match o with
  | Some a => Ok a
  | None => Raise e
  end.

(** ** Python values that [json] serialises

    [JFloat r] is the binary64 value whose [float.__repr__] is [r]
    (["0.85"], ["1e-05"], ["-0.0"], ["inf"], ["nan"]): [repr] is
    injective on floats and [float(repr(x)) == x], so a float is
    identified by that text. *)

#[local] Unset Elimination Schemes.
Inductive json : Type :=
| JNull
| JBool (b : bool)
| JInt (z : Z)
| JFloat (repr : pystr)
| JStr (s : pystr)
| JList (l : list json)
| JDict (items : list (pystr * json)).
#[local] Set Elimination Schemes.

Definition dict := list (pystr * json).

(** [d.get(k)] as an option, [k in d], and [d.get(k, default)]. *)
Fixpoint dict_lookup (d : dict) (k : pystr) : option json :=
  match d with
  | [] => None
  | (k', v) :: d' => if str_eqb k' k then Some v else dict_lookup d' k
  end.

Definition dict_contains (d : dict) (k : pystr) : bool :=
  match dict_lookup d k with Some _ => true | None => false end.

Definition dict_get (d : dict) (k : pystr) (default : json) : json :=
  match dict_lookup d k with Some v => v | None => default end.

Definition keys (d : dict) : list pystr := map fst d.

(** ** Decimal text of integers: [str(int)] and [int(str)] *)

Fixpoint digits_of_uint (u : Decimal.uint) : pystr :=
  match u with
  | Decimal.Nil => []
  | Decimal.D0 r => 48 :: digits_of_uint r
  | Decimal.D1 r => 49 :: digits_of_uint r
  | Decimal.D2 r => 50 :: digits_of_uint r
  | Decimal.D3 r => 51 :: digits_of_uint r
  | Decimal.D4 r => 52 :: digits_of_uint r
  | Decimal.D5 r => 53 :: digits_of_uint r
  | Decimal.D6 r => 54 :: digits_of_uint r
  | Decimal.D7 r => 55 :: digits_of_uint r
  | Decimal.D8 r => 56 :: digits_of_uint r
  | Decimal.D9 r => 57 :: digits_of_uint r
  end.

Definition is_digit (c : Z) : bool := (48 <=? c) && (c <=? 57).

Fixpoint uint_of_digits (s : pystr) : Decimal.uint :=
  match s with
  | [] => Decimal.Nil
  | c :: r =>
      let u := uint_of_digits r in
      if c =? 48 then Decimal.D0 u else if c =? 49 then Decimal.D1 u
      else if c =? 50 then Decimal.D2 u else if c =? 51 then Decimal.D3 u
      else if c =? 52 then Decimal.D4 u else if c =? 53 then Decimal.D5 u
      else if c =? 54 then Decimal.D6 u else if c =? 55 then Decimal.D7 u
      else if c =? 56 then Decimal.D8 u else Decimal.D9 u
  end.

(** [str(z)] for an [int]. *)
Definition str_of_int (z : Z) : pystr :=
  match Z.to_int z with
  | Decimal.Pos u => digits_of_uint u
  | Decimal.Neg u => 45 :: digits_of_uint u
  end.

(** [int(s)] on a text made of an optional ['-'] and decimal digits. *)
Definition int_of_str (s : pystr) : Z :=
  match s with
  | c :: r => if c =? 45 then Z.of_int (Decimal.Neg (uint_of_digits r))
              else Z.of_int (Decimal.Pos (uint_of_digits s))
  | [] => 0
  end.

(** ** Number literals: the scanner's [NUMBER_RE]

    An integer part (an optional minus sign, then a single zero or a
    non-zero digit followed by digits), an optional fraction (a dot and
    one or more digits) and an optional exponent (e or E, an optional
    sign, one or more digits), matched at the head of the text; the
    result is the three groups and the remaining text. *)

Fixpoint span_digits (s : pystr) : pystr * pystr :=
  match s with
  | c :: r =>
      if is_digit c
      then let '(d, r') := span_digits r in (c :: d, r')
      else ([], s)
  | [] => ([], [])
  end.

Definition match_frac (s : pystr) : pystr * pystr :=
  match s with
  | c :: r =>
      if c =? 46 then
        match span_digits r with
        | ([], _) => ([], s)
        | (d, r') => (c :: d, r')
        end
      else ([], s)
  | [] => ([], s)
  end.

Definition match_exp (s : pystr) : pystr * pystr :=
  match s with
  | c :: r =>
      if (c =? 101) || (c =? 69) then
        let '(sg, r1) :=
          match r with
          | c1 :: r1 => if (c1 =? 45) || (c1 =? 43) then ([c1], r1) else ([], r)
          | [] => ([], r)
          end in
        match span_digits r1 with
        | ([], _) => ([], s)
        | (d, r') => (c :: sg ++ d, r')
        end
      else ([], s)
  | [] => ([], s)
  end.

Definition match_int (s : pystr) : option (pystr * pystr) :=
  let '(sg, s1) :=
    match s with
    | c :: r => if c =? 45 then ([c], r) else ([], s)
    | [] => ([], s)
    end in
  match s1 with
  | c :: r =>
      if c =? 48 then Some (sg ++ [c], r)
      else if is_digit c
           then let '(d, r') := span_digits r in Some (sg ++ c :: d, r')
           else None
  | [] => None
  end.

Definition match_number (s : pystr)
  : option (pystr * pystr * pystr * pystr) :=
  match match_int s with
  | Some (i, r) =>
      let '(f, r1) := match_frac r in
      let '(e, r2) := match_exp r1 in
      Some (i, f, e, r2)
  | None => None
  end.

(** ** Numeric comparison

    A finite number is [m * 10^e]; Python compares [int], [bool] and
    [float] by exact value. *)

Inductive num : Set :=
| Finite (m e : Z)
| PosInf
| NegInf
| NaN.

Definition exp_value (e : pystr) : Z :=
  match e with
  | _ :: c :: ds =>
      if c =? 45 then - int_of_str ds
      else if c =? 43 then int_of_str ds
      else int_of_str (c :: ds)
  | _ => 0
  end.

(** The number a float's [repr] denotes. *)
Definition float_number (r : pystr) : option num :=
  if str_eqb r (py "inf") then Some PosInf
  else if str_eqb r (py "-inf") then Some NegInf
  else if str_eqb r (py "nan") then Some NaN
  else
    match match_number r with
    | Some (i, f, e, []) =>
        Some (Finite (int_of_str (i ++ tl f))
                     (exp_value e - Z.of_nat (length (tl f))))
    | _ => None
    end.

Definition as_number (v : json) : option num :=
  match v with
  | JBool b => Some (Finite (if b then 1 else 0) 0)
  | JInt z => Some (Finite z 0)
  | JFloat r => float_number r
  | _ => None
  end.

Definition num_compare (a b : num) : option comparison :=
  match a, b with
  | NaN, _ | _, NaN => None
  | Finite m1 e1, Finite m2 e2 =>
      let e := Z.min e1 e2 in
      Some (Z.compare (m1 * 10 ^ (e1 - e)) (m2 * 10 ^ (e2 - e)))
  | PosInf, PosInf | NegInf, NegInf => Some Eq
  | NegInf, _ | _, PosInf => Some Lt
  | PosInf, _ | _, NegInf => Some Gt
  end.

(** [a <= b]; a non-numeric operand raises [TypeError]. *)
Definition py_le (a b : json) : result bool :=
  match as_number a, as_number b with
  | Some x, Some y =>
      Ok match num_compare x y with
         | Some Lt | Some Eq => true
         | _ => false
         end
  | _, _ => Raise TypeError
  end.

(** [v == k] for an [int] literal [k]; never raises. *)
Definition py_eq_int (v : json) (k : Z) : bool :=
  match as_number v with
  | Some x =>
      match num_compare x (Finite k 0) with
      | Some Eq => true
      | _ => false
      end
  | None => false
  end.

(** ** openai_inference.py: [GPT5Inference.validate_output] *)

Module GPT5Inference.

(** [key in container]: a [dict] tests its keys, a [list] its elements,
    a [str] its substrings; anything else is not iterable. *)
Definition str_in (key : pystr) (container : json) : result bool :=
  match container with
  | JDict d => Ok (dict_contains d key)
  | JList l =>
      Ok (existsb (fun x => match x with
                            | JStr s => str_eqb s key
                            | _ => false
                            end) l)
  | JStr s => Ok (str_contains s key)
  | _ => Raise TypeError
  end.

(** [container[key]] for a [str] key: a [list] or a [str] wants an
    integer index, the other values are not subscriptable. *)
Definition getitem (container : json) (key : pystr) : result json :=
  match container with
  | JDict d => of_option KeyError (dict_lookup d key)
  | _ => Raise TypeError
  end.

Definition required_fields : list pystr :=
  [py "resolution"; py "sources"; py "rationale"].

Definition validate_output (output : dict) : result bool :=
  if negb (forallb (dict_contains output) required_fields) then Ok false
  else
    resolution <- getitem (JDict output) (py "resolution") ;;
    has_value <- str_in (py "value") resolution ;;
    has_conf <- (if has_value then str_in (py "confidence") resolution
                 else Ok true) ;;
    if negb has_value || negb has_conf then Ok false
    else
      confidence <- getitem resolution (py "confidence") ;;
      lo <- py_le (JFloat (py "0.0")) confidence ;;
      hi <- (if lo then py_le confidence (JFloat (py "1.0")) else Ok false) ;;
      if negb (lo && hi) then Ok false
      else
        value <- getitem resolution (py "value") ;;
        if negb (py_eq_int value 0 || py_eq_int value 1) then Ok false
        else Ok true.

End GPT5Inference.

(** ** hashlib: SHA-256 (FIPS 180-4) on byte strings *)

Module hashlib.

Definition add32 (x y : Z) : Z := (x + y) mod 2 ^ 32.
Definition not32 (x : Z) : Z := Z.lxor x (2 ^ 32 - 1).
Definition rotr (n x : Z) : Z :=
  Z.lor (Z.shiftr x n) (Z.shiftl x (32 - n) mod 2 ^ 32).

Definition Ch (x y z : Z) : Z := Z.lxor (Z.land x y) (Z.land (not32 x) z).
Definition Maj (x y z : Z) : Z :=
  Z.lxor (Z.lxor (Z.land x y) (Z.land x z)) (Z.land y z).
Definition bsig0 (x : Z) : Z := Z.lxor (Z.lxor (rotr 2 x) (rotr 13 x)) (rotr 22 x).
Definition bsig1 (x : Z) : Z := Z.lxor (Z.lxor (rotr 6 x) (rotr 11 x)) (rotr 25 x).
Definition ssig0 (x : Z) : Z := Z.lxor (Z.lxor (rotr 7 x) (rotr 18 x)) (Z.shiftr x 3).
Definition ssig1 (x : Z) : Z := Z.lxor (Z.lxor (rotr 17 x) (rotr 19 x)) (Z.shiftr x 10).

Definition K256 : list Z :=
  [ 1116352408; 1899447441; 3049323471; 3921009573; 961987163; 1508970993;
    2453635748; 2870763221; 3624381080; 310598401; 607225278; 1426881987;
    1925078388; 2162078206; 2614888103; 3248222580; 3835390401; 4022224774;
    264347078; 604807628; 770255983; 1249150122; 1555081692; 1996064986;
    2554220882; 2821834349; 2952996808; 3210313671; 3336571891; 3584528711;
    113926993; 338241895; 666307205; 773529912; 1294757372; 1396182291;
    1695183700; 1986661051; 2177026350; 2456956037; 2730485921; 2820302411;
    3259730800; 3345764771; 3516065817; 3600352804; 4094571909; 275423344;
    430227734; 506948616; 659060556; 883997877; 958139571; 1322822218;
    1537002063; 1747873779; 1955562222; 2024104815; 2227730452; 2361852424;
    2428436474; 2756734187; 3204031479; 3329325298 ].

Definition H256 : list Z :=
  [ 1779033703; 3144134277; 1013904242; 2773480762;
    1359893119; 2600822924; 528734635; 1541459225 ].

(** Big-endian bytes of a non-negative integer, [n] of them. *)
Fixpoint be_bytes (n : nat) (x : Z) : bytes :=
  match n with
  | O => []
  | S n' => (Z.shiftr x (8 * Z.of_nat n')) mod 256 :: be_bytes n' x
  end.

Definition be_word (bs : bytes) : Z :=
  fold_left (fun acc b => acc * 256 + b) bs 0.

Definition pad (msg : bytes) : bytes :=
  let len := Z.of_nat (length msg) in
  msg ++ [128] ++ repeat 0 (Z.to_nat ((55 - len) mod 64))
      ++ be_bytes 8 (8 * len).

Fixpoint chunks (n : nat) (size : nat) (bs : bytes) : list bytes :=
  match n with
  | O => []
  | S n' => firstn size bs :: chunks n' size (skipn size bs)
  end.

(** The message schedule, most recent word first. *)
Fixpoint schedule (n : nat) (w : list Z) : list Z :=
  match n with
  | O => w
  | S n' =>
      let x := add32 (add32 (ssig1 (nth 1 w 0)) (nth 6 w 0))
                     (add32 (ssig0 (nth 14 w 0)) (nth 15 w 0)) in
      schedule n' (x :: w)
  end.

Definition round (st : list Z) (kw : Z * Z) : list Z :=
  match st with
  | [a; b; c; d; e; f; g; h] =>
      let t1 := add32 (add32 (add32 h (bsig1 e)) (add32 (Ch e f g) (fst kw)))
                      (snd kw) in
      let t2 := add32 (bsig0 a) (Maj a b c) in
      [add32 t1 t2; a; b; c; add32 d t1; e; f; g]
  | _ => st
  end.

Definition compress (h : list Z) (block : bytes) : list Z :=
  let w16 := map be_word (chunks 16 4 block) in
  let w := rev (schedule 48 (rev w16)) in
  let st := fold_left round (combine K256 w) h in
  map (fun p => add32 (fst p) (snd p)) (combine h st).

(** [hashlib.sha256(msg).digest()] *)
Definition sha256 (msg : bytes) : bytes :=
  let padded := pad msg in
  let blocks := chunks (length padded / 64) 64 padded in
  flat_map (be_bytes 4) (fold_left compress blocks H256).

End hashlib.

(** ** [bytes.hex()] and [bytes.fromhex()] *)

Definition hex_digit (n : Z) : Z := if n <? 10 then 48 + n else 87 + n.

(** The value of a hexadecimal digit, either case. *)
Definition hex_value (c : Z) : option Z :=
  if (48 <=? c) && (c <=? 57) then Some (c - 48)
  else if (97 <=? c) && (c <=? 102) then Some (c - 87)
  else if (65 <=? c) && (c <=? 70) then Some (c - 55)
  else None.

Definition hex (bs : bytes) : pystr :=
  flat_map (fun b => [hex_digit (b / 16); hex_digit (b mod 16)]) bs.

Definition is_space (c : Z) : bool :=
  (c =? 32) || ((9 <=? c) && (c <=? 13)).

(** [bytes.fromhex(s)]: pairs of hexadecimal digits, ASCII whitespace
    allowed between the pairs; anything else is a [ValueError]. *)
Fixpoint fromhex (s : pystr) : result bytes :=
  match s with
  | [] => Ok []
  | c :: r =>
      if is_space c then fromhex r
      else
        match r with
        | c' :: r' =>
            match hex_value c, hex_value c' with
            | Some hi, Some lo =>
                bs <- fromhex r' ;; Ok (hi * 16 + lo :: bs)
            | _, _ => Raise ValueError
            end
        | [] => Raise ValueError
        end
  end.

(** [hashlib.sha256(msg).hexdigest()] *)
Definition sha256_hex (msg : bytes) : pystr := hex (hashlib.sha256 msg).

(** ** [str.encode('utf-8')] and [bytes.decode('utf-8')] *)

Definition utf8_encode_cp (c : Z) : result bytes :=
  if (0 <=? c) && (c <? 128) then Ok [c]
  else if (128 <=? c) && (c <? 2048) then
    Ok [192 + c / 64; 128 + c mod 64]
  else if (2048 <=? c) && (c <? 65536) then
    if (55296 <=? c) && (c <=? 57343) then Raise UnicodeEncodeError
    else Ok [224 + c / 4096; 128 + (c / 64) mod 64; 128 + c mod 64]
  else if (65536 <=? c) && (c <? 1114112) then
    Ok [240 + c / 262144; 128 + (c / 4096) mod 64;
        128 + (c / 64) mod 64; 128 + c mod 64]
  else Raise UnicodeEncodeError.

Fixpoint utf8_encode (s : pystr) : result bytes :=
  match s with
  | [] => Ok []
  | c :: r =>
      b <- utf8_encode_cp c ;;
      bs <- utf8_encode r ;;
      Ok (b ++ bs)
  end.

Definition is_cont (b : Z) : bool := (128 <=? b) && (b <=? 191).

Fixpoint utf8_decode (bs : bytes) : result pystr :=
  match bs with
  | [] => Ok []
  | b1 :: r1 =>
      if (0 <=? b1) && (b1 <? 128) then
        s <- utf8_decode r1 ;; Ok (b1 :: s)
      else if (194 <=? b1) && (b1 <=? 223) then
        match r1 with
        | b2 :: r2 =>
            if is_cont b2 then
              s <- utf8_decode r2 ;;
              Ok ((b1 - 192) * 64 + (b2 - 128) :: s)
            else Raise UnicodeDecodeError
        | _ => Raise UnicodeDecodeError
        end
      else if (224 <=? b1) && (b1 <=? 239) then
        match r1 with
        | b2 :: b3 :: r3 =>
            if is_cont b2 && is_cont b3
               && negb ((b1 =? 224) && (b2 <? 160))
               && negb ((b1 =? 237) && (160 <=? b2)) then
              s <- utf8_decode r3 ;;
              Ok ((b1 - 224) * 4096 + (b2 - 128) * 64 + (b3 - 128) :: s)
            else Raise UnicodeDecodeError
        | _ => Raise UnicodeDecodeError
        end
      else if (240 <=? b1) && (b1 <=? 244) then
        match r1 with
        | b2 :: b3 :: b4 :: r4 =>
            if is_cont b2 && is_cont b3 && is_cont b4
               && negb ((b1 =? 240) && (b2 <? 144))
               && negb ((b1 =? 244) && (144 <=? b2)) then
              s <- utf8_decode r4 ;;
              Ok ((b1 - 240) * 262144 + (b2 - 128) * 4096
                  + (b3 - 128) * 64 + (b4 - 128) :: s)
            else Raise UnicodeDecodeError
        | _ => Raise UnicodeDecodeError
        end
      else Raise UnicodeDecodeError
  end.

(** ** json: the encoder behind [json.dumps] *)

Module Json.

Record options : Type := {
  sort_keys : bool;
  indent : option nat;
  item_separator : pystr;
  key_separator : pystr
}.

(** [json.dumps(obj, sort_keys=True)] *)
Definition opts_sorted : options :=
  {| sort_keys := true; indent := None;
     item_separator := py ", "; key_separator := py ": " |}.

(** [json.dumps(obj, sort_keys=True, separators=(',', ':'))] *)
Definition opts_sorted_compact : options :=
  {| sort_keys := true; indent := None;
     item_separator := py ","; key_separator := py ":" |}.

(** [json.dumps(obj, indent=2)]: with an indent the default item
    separator loses its trailing space. *)
Definition opts_indent2 : options :=
  {| sort_keys := false; indent := Some 2%nat;
     item_separator := py ","; key_separator := py ": " |}.

Definition hex4 (n : Z) : pystr :=
  [hex_digit (n / 4096); hex_digit ((n / 256) mod 16);
   hex_digit ((n / 16) mod 16); hex_digit (n mod 16)].

Definition u_escape (n : Z) : pystr := 92 :: 117 :: hex4 n.

(** One character under [ensure_ascii]: the short escapes, printable
    ASCII as it is, [\uXXXX] for the rest, a surrogate pair above the
    basic plane. *)
Definition escape_char (c : Z) : pystr :=
  if c =? 34 then [92; 34]
  else if c =? 92 then [92; 92]
  else if c =? 10 then [92; 110]
  else if c =? 13 then [92; 114]
  else if c =? 9 then [92; 116]
  else if c =? 8 then [92; 98]
  else if c =? 12 then [92; 102]
  else if (32 <=? c) && (c <=? 126) then [c]
  else if c <? 65536 then u_escape c
  else
    let n := c - 65536 in
    u_escape (55296 + (n / 1024) mod 1024) ++ u_escape (56320 + n mod 1024).

Definition encode_basestring_ascii (s : pystr) : pystr :=
  34 :: flat_map escape_char s ++ [34].

Definition floatstr (r : pystr) : pystr :=
  if str_eqb r (py "nan") then py "NaN"
  else if str_eqb r (py "inf") then py "Infinity"
  else if str_eqb r (py "-inf") then py "-Infinity"
  else r.

(** Lexicographic order on code points: [a <= b] on [str]. *)
Fixpoint str_leb (a b : pystr) : bool :=
  match a, b with
  | [], _ => true
  | _ :: _, [] => false
  | x :: a', y :: b' => (x <? y) || ((x =? y) && str_leb a' b')
  end.

(** [sorted(dct.items())]: a stable sort; the keys of a [dict] are
    distinct, so the tuple comparison is decided by the key. *)
Fixpoint insert_item {A} (x : pystr * A) (l : list (pystr * A))
  : list (pystr * A) :=
  match l with
  | [] => [x]
  | y :: l' =>
      if str_leb (fst x) (fst y) then x :: l else y :: insert_item x l'
  end.

Fixpoint sort_items {A} (l : list (pystr * A)) : list (pystr * A) :=
  match l with
  | [] => []
  | x :: l' => insert_item x (sort_items l')
  end.

Fixpoint join (sep : pystr) (parts : list pystr) : pystr :=
  match parts with
  | [] => []
  | [p] => p
  | p :: rest => p ++ sep ++ join sep rest
  end.

Definition newline_indent (o : options) (level : nat) : pystr :=
  match indent o with
  | Some n => 10 :: repeat 32 (n * level)
  | None => []
  end.

Definition container (o : options) (level : nat)
    (opening closing : Z) (parts : list pystr) : pystr :=
  match parts with
  | [] => [opening; closing]
  | _ =>
      opening :: newline_indent o (S level)
        ++ join (item_separator o ++ newline_indent o (S level)) parts
        ++ newline_indent o level ++ [closing]
  end.

(** The text of one value at nesting depth [level]. The members of a
    [dict] are rendered where they stand and then put in key order,
    which yields the text of rendering them in sorted order. *)
Fixpoint encode (o : options) (level : nat) (v : json) : pystr :=
  match v with
  | JNull => py "null"
  | JBool true => py "true"
  | JBool false => py "false"
  | JInt z => str_of_int z
  | JFloat r => floatstr r
  | JStr s => encode_basestring_ascii s
  | JList l => container o level 91 93 (map (encode o (S level)) l)
  | JDict items =>
      let rendered :=
        map (fun kv => match kv with
                       | (k, x) => (k, encode o (S level) x)
                       end) items in
      let ordered := if sort_keys o then sort_items rendered else rendered in
      container o level 123 125
        (map (fun kt => encode_basestring_ascii (fst kt)
                          ++ key_separator o ++ snd kt) ordered)
  end.

Definition dumps (o : options) (v : json) : pystr := encode o 0 v.

End Json.

(** ** json: the scanner behind [json.loads] *)

Module JsonDecoder.

Definition is_ws (c : Z) : bool :=
  (c =? 32) || (c =? 9) || (c =? 10) || (c =? 13).

Fixpoint skip_ws (s : pystr) : pystr :=
  match s with
  | c :: r => if is_ws c then skip_ws r else s
  | [] => []
  end.

Definition hex4_value (h1 h2 h3 h4 : Z) : option Z :=
  match hex_value h1, hex_value h2, hex_value h3, hex_value h4 with
  | Some a, Some b, Some c, Some d => Some (a * 4096 + b * 256 + c * 16 + d)
  | _, _, _, _ => None
  end.

Definition backslash (e : Z) : option Z :=
  if e =? 34 then Some 34
  else if e =? 92 then Some 92
  else if e =? 47 then Some 47
  else if e =? 98 then Some 8
  else if e =? 102 then Some 12
  else if e =? 110 then Some 10
  else if e =? 114 then Some 13
  else if e =? 116 then Some 9
  else None.

Definition is_high_surrogate (c : Z) : bool := (55296 <=? c) && (c <=? 56319).
Definition is_low_surrogate (c : Z) : bool := (56320 <=? c) && (c <=? 57343).

Definition cons_char (c : Z) (r : option (pystr * pystr))
  : option (pystr * pystr) :=
  match r with
  | Some (s, rest) => Some (c :: s, rest)
  | None => None
  end.

(** [scanstring] in strict mode, entered after the opening quote: the
    decoded text and what follows the closing quote. A high surrogate
    escape directly followed by a low surrogate escape is one character. *)
Fixpoint scanstring (s : pystr) : option (pystr * pystr) :=
  match s with
  | [] => None
  | c :: r =>
      if c =? 34 then Some ([], r)
      else if c =? 92 then
        match r with
        | [] => None
        | e :: r1 =>
            if e =? 117 then
              match r1 with
              | h1 :: h2 :: h3 :: h4 :: r2 =>
                  match hex4_value h1 h2 h3 h4 with
                  | None => None
                  | Some uni =>
                      match r2 with
                      | b :: u :: g1 :: g2 :: g3 :: g4 :: r3 =>
                          if is_high_surrogate uni && (b =? 92) && (u =? 117)
                          then
                            match hex4_value g1 g2 g3 g4 with
                            | None => None
                            | Some uni2 =>
                                if is_low_surrogate uni2 then
                                  cons_char
                                    (65536 + (uni - 55296) * 1024
                                     + (uni2 - 56320))
                                    (scanstring r3)
                                else cons_char uni (scanstring r2)
                            end
                          else cons_char uni (scanstring r2)
                      | _ => cons_char uni (scanstring r2)
                      end
                  end
              | _ => None
              end
            else
              match backslash e with
              | Some ch => cons_char ch (scanstring r1)
              | None => None
              end
        end
      else if (0 <=? c) && (c <? 32) then None
      else cons_char c (scanstring r)
  end.

(** Later pairs overwrite earlier ones with the same key, the key
    keeping its first position: what filling a [dict] does. *)
Fixpoint dict_set (d : dict) (k : pystr) (v : json) : dict :=
  match d with
  | [] => [(k, v)]
  | (k', v') :: d' =>
      if str_eqb k' k then (k', v) :: d' else (k', v') :: dict_set d' k v
  end.

Definition dict_of_pairs (ps : list (pystr * json)) : dict :=
  fold_left (fun d kv => dict_set d (fst kv) (snd kv)) ps [].

Definition scan_number (s : pystr) : option (json * pystr) :=
  match match_number s with
  | Some (i, f, e, rest) =>
      match f, e with
      | [], [] => Some (JInt (int_of_str i), rest)
      | _, _ => Some (JFloat (i ++ f ++ e), rest)
      end
  | None => None
  end.

Definition expect (c : Z) (s : pystr) : option pystr :=
  match s with
  | c' :: r => if c' =? c then Some r else None
  | [] => None
  end.

(** [scan_once] and the two member loops. [fuel] bounds the number of
    values and members still to be read; [None] is a [JSONDecodeError]. *)
Fixpoint scan_once (fuel : nat) (s : pystr) : option (json * pystr) :=
  match fuel with
  | O => None
  | S fuel' =>
      match s with
      | [] => None
      | c :: r =>
          if c =? 34 then
            match scanstring r with
            | Some (str, rest) => Some (JStr str, rest)
            | None => None
            end
          else if c =? 123 then
            let r1 := skip_ws r in
            match expect 125 r1 with
            | Some rest => Some (JDict [], rest)
            | None =>
                match object_loop fuel' r1 with
                | Some (ps, rest) => Some (JDict (dict_of_pairs ps), rest)
                | None => None
                end
            end
          else if c =? 91 then
            let r1 := skip_ws r in
            match expect 93 r1 with
            | Some rest => Some (JList [], rest)
            | None =>
                match array_loop fuel' r1 with
                | Some (vs, rest) => Some (JList vs, rest)
                | None => None
                end
            end
          else if startswith s (py "null") then Some (JNull, skipn 4 s)
          else if startswith s (py "true") then Some (JBool true, skipn 4 s)
          else if startswith s (py "false") then Some (JBool false, skipn 5 s)
          else if startswith s (py "NaN") then Some (JFloat (py "nan"), skipn 3 s)
          else if startswith s (py "Infinity")
               then Some (JFloat (py "inf"), skipn 8 s)
          else if startswith s (py "-Infinity")
               then Some (JFloat (py "-inf"), skipn 9 s)
          else scan_number s
      end
  end

with array_loop (fuel : nat) (s : pystr) : option (list json * pystr) :=
  match fuel with
  | O => None
  | S fuel' =>
      match scan_once fuel' s with
      | None => None
      | Some (v, r) =>
          let r1 := skip_ws r in
          match r1 with
          | [] => None
          | c :: r2 =>
              if c =? 93 then Some ([v], r2)
              else if c =? 44 then
                match array_loop fuel' (skip_ws r2) with
                | Some (vs, rest) => Some (v :: vs, rest)
                | None => None
                end
              else None
          end
      end
  end

with object_loop (fuel : nat) (s : pystr)
  : option (list (pystr * json) * pystr) :=
  match fuel with
  | O => None
  | S fuel' =>
      match expect 34 s with
      | None => None
      | Some s1 =>
          match scanstring s1 with
          | None => None
          | Some (k, r) =>
              match expect 58 (skip_ws r) with
              | None => None
              | Some r1 =>
                  match scan_once fuel' (skip_ws r1) with
                  | None => None
                  | Some (v, r2) =>
                      match skip_ws r2 with
                      | [] => None
                      | c :: r3 =>
                          if c =? 125 then Some ([(k, v)], r3)
                          else if c =? 44 then
                            match object_loop fuel' (skip_ws r3) with
                            | Some (ps, rest) => Some ((k, v) :: ps, rest)
                            | None => None
                            end
                          else None
                      end
                  end
              end
          end
      end
  end.

(** [json.loads(s)] for a [str]: one value between optional whitespace;
    a leading byte-order mark, a malformed value or trailing text raise
    [JSONDecodeError]. *)
Definition loads (s : pystr) : result json :=
  if startswith s [65279] then Raise JSONDecodeError
  else
    match scan_once (S (length s)) (skip_ws s) with
    | Some (v, rest) =>
        match skip_ws rest with
        | [] => Ok v
        | _ => Raise JSONDecodeError
        end
    | None => Raise JSONDecodeError
    end.

End JsonDecoder.

(** ** ECDSA over secp256r1 with a pre-hashed message

    What [private_key.sign(digest, ec.ECDSA(utils.Prehashed(SHA256())))]
    and [public_key.verify(sig, digest, ...)] compute (FIPS 186-4,
    section 6.4; SEC 1, section 4.1). Field and scalar arithmetic runs on
    machine-word integers ([bigZ]) so that a signature can be evaluated;
    the interface is in [Z] and [bytes]. *)

Module P256.

Local Open Scope bigZ_scope.

Definition p : bigZ :=
  115792089210356248762697446949407573530086143415290314195533631308867097853951.
Definition a : bigZ := p - 3.
Definition b : bigZ :=
  41058363725152142129326129780047268409114441015993725554835256314039467401291.
Definition Gx : bigZ :=
  48439561293906451759052585252797914202762949526041747995844080717082404635286.
Definition Gy : bigZ :=
  36134250956749795798585127919587881956611106672985015071877198253568414405109.
(** The order of the base point. *)
Definition n : bigZ :=
  115792089210356248762697446949407573529996955224135760342422259061068512044369.

Fixpoint powmod_pos (x : bigZ) (e : positive) (m : bigZ) : bigZ :=
  match e with
  | xH => x mod m
  | xO e' => let y := powmod_pos x e' m in (y * y) mod m
  | xI e' => let y := powmod_pos x e' m in (((y * y) mod m) * x) mod m
  end.

(** The inverse modulo a prime [m], by Fermat's little theorem. *)
Definition inv_mod (x m : bigZ) : bigZ :=
  match BigZ.to_Z (m - 2) with
  | Zpos e => powmod_pos x e m
  | _ => 0
  end.

(** A point in Jacobian coordinates; [Z = 0] is the point at infinity. *)
Definition point : Type := bigZ * bigZ * bigZ.

Definition infinity : point := (1, 1, 0).
Definition G : point := (Gx, Gy, 1).

Definition double (P : point) : point :=
  let '(X, Y, Z) := P in
  if (Z =? 0) || (Y =? 0) then infinity
  else
    let YY := (Y * Y) mod p in
    let S := (4 * X * YY) mod p in
    let ZZ := (Z * Z) mod p in
    let M := (3 * X * X + a * ((ZZ * ZZ) mod p)) mod p in
    let X' := (M * M - 2 * S) mod p in
    let Y' := (M * (S - X') - 8 * ((YY * YY) mod p)) mod p in
    (X', Y', (2 * Y * Z) mod p).

Definition add (P Q : point) : point :=
  let '(X1, Y1, Z1) := P in
  let '(X2, Y2, Z2) := Q in
  if Z1 =? 0 then Q
  else if Z2 =? 0 then P
  else
    let Z1Z1 := (Z1 * Z1) mod p in
    let Z2Z2 := (Z2 * Z2) mod p in
    let U1 := (X1 * Z2Z2) mod p in
    let U2 := (X2 * Z1Z1) mod p in
    let S1 := (Y1 * ((Z2 * Z2Z2) mod p)) mod p in
    let S2 := (Y2 * ((Z1 * Z1Z1) mod p)) mod p in
    if U1 =? U2 then
      if S1 =? S2 then double P else infinity
    else
      let H := (U2 - U1) mod p in
      let R := (S2 - S1) mod p in
      let HH := (H * H) mod p in
      let HHH := (H * HH) mod p in
      let V := (U1 * HH) mod p in
      let X3 := (R * R - HHH - 2 * V) mod p in
      let Y3 := (R * (V - X3) - S1 * HHH) mod p in
      (X3, Y3, (((H * Z1) mod p) * Z2) mod p).

Fixpoint mul_pos (k : positive) (P : point) : point :=
  match k with
  | xH => P
  | xO k' => double (mul_pos k' P)
  | xI k' => add (double (mul_pos k' P)) P
  end.

Definition mul (k : bigZ) (P : point) : point :=
  match BigZ.to_Z k with
  | Zpos k' => mul_pos k' P
  | _ => infinity
  end.

(** The affine abscissa, [None] at infinity. *)
Definition affine_x (P : point) : option bigZ :=
  let '(X, _, Z) := P in
  if Z =? 0 then None
  else let zi := inv_mod Z p in Some ((X * ((zi * zi) mod p)) mod p).

Definition public_of (d : Z) : point := mul (BigZ.of_Z d) G.

(** The pair [(r, s)] signed over the integer [z] with private key [d]
    and per-signature secret [k]. *)
Definition sign_rs (d k z : Z) : Z * Z :=
  match affine_x (mul (BigZ.of_Z k) G) with
  | Some x =>
      let r := x mod n in
      let s := (inv_mod (BigZ.of_Z k) n
                * ((BigZ.of_Z z + r * BigZ.of_Z d) mod n)) mod n in
      (BigZ.to_Z r, BigZ.to_Z s)
  | None => (0%Z, 0%Z)
  end.

Definition verify_rs (Q : point) (z r s : Z) : bool :=
  let r' := BigZ.of_Z r in
  let s' := BigZ.of_Z s in
  if (1 <=? r') && (r' <? n) && (1 <=? s') && (s' <? n) then
    let w := inv_mod s' n in
    let u1 := (BigZ.of_Z z * w) mod n in
    let u2 := (r' * w) mod n in
    match affine_x (add (mul u1 G) (mul u2 Q)) with
    | Some x => x mod n =? r'
    | None => false
    end
  else false.

Local Close Scope bigZ_scope.

(** DER: [SEQUENCE { INTEGER r, INTEGER s }] with short-form lengths. *)

(** The content of a DER INTEGER for a non-negative integer: its
    big-endian bytes without leading zero bytes, preceded by one zero
    byte when the top bit is set. *)
Definition der_int_content (x : Z) : bytes :=
  let bs := hashlib.be_bytes (Z.to_nat (Z.log2 x / 8 + 1)) x in
  match bs with
  | b0 :: _ => if 128 <=? b0 then 0 :: bs else bs
  | [] => [0]
  end.

Definition der_int (x : Z) : bytes :=
  let c := der_int_content x in 2 :: Z.of_nat (length c) :: c.

Definition der_encode (r s : Z) : bytes :=
  let c := der_int r ++ der_int s in 48 :: Z.of_nat (length c) :: c.

Definition der_take_int (bs : bytes) : option (Z * bytes) :=
  match bs with
  | tag :: len :: r =>
      if (tag =? 2) && (0 <? len) && (len <? 128)
         && (Z.to_nat len <=? length r)%nat
      then Some (hashlib.be_word (firstn (Z.to_nat len) r),
                 skipn (Z.to_nat len) r)
      else None
  | _ => None
  end.

Definition bytes_eqb (x y : bytes) : bool := str_eqb x y.

(** The decoder accepts exactly the encodings [der_encode] produces:
    the parsed pair is encoded again and compared with the input. *)
Definition der_decode (bs : bytes) : option (Z * Z) :=
  match bs with
  | tag :: _ :: c =>
      if tag =? 48 then
        match der_take_int c with
        | Some (r, c1) =>
            match der_take_int c1 with
            | Some (s, []) =>
                if bytes_eqb (der_encode r s) bs then Some (r, s) else None
            | _ => None
            end
        | None => None
        end
      else None
  | _ => None
  end.

(** [private_key.sign(digest, ECDSA(Prehashed(SHA256())))]: [k] is the
    secret number the library draws for this signature; a digest of the
    wrong length is a [ValueError]. *)
Definition sign (d k : Z) (digest : bytes) : result bytes :=
  if negb (length digest =? 32)%nat then Raise ValueError
  else
    let '(r, s) := sign_rs d k (hashlib.be_word digest) in
    Ok (der_encode r s).

(** [public_key.verify(signature, digest, ECDSA(Prehashed(SHA256())))]:
    returns nothing, raises [InvalidSignature] on rejection. *)
Definition verify (Q : point) (signature digest : bytes) : result unit :=
  if negb (length digest =? 32)%nat then Raise ValueError
  else
    match der_decode signature with
    | Some (r, s) =>
        if verify_rs Q (hashlib.be_word digest) r s then Ok tt
        else Raise InvalidSignature
    | None => Raise InvalidSignature
    end.

End P256.

(** ** seal_encryptor.py *)

Module SealEncryptor.

Record SealConfig : Type := {
  seal_package_id : pystr;
  seal_policy_id : pystr;
  threshold : Z;
  key_servers : list pystr
}.

Record EncryptedEvidence : Type := {
  encrypted_blob : bytes;
  public_summary : dict;
  ee_seal_policy_id : pystr;
  encryption_metadata : dict
}.

(** [x.get(k, default)] on an arbitrary value: only a [dict] has [get]. *)
Definition attr_get (x : json) (k : pystr) (default : json) : result json :=
  match x with
  | JDict d => Ok (dict_get d k default)
  | _ => Raise AttributeError
  end.

Definition _create_public_summary (full_evidence : dict) (market_id : pystr)
  : result dict :=
  let outcome := dict_get full_evidence (py "outcome") JNull in
  let resolution_date := dict_get full_evidence (py "resolution_date") JNull in
  oracle_version <-
    attr_get (dict_get full_evidence (py "tee_attestation") (JDict []))
             (py "version") (JStr (py "1.0")) ;;
  Ok [ (py "market_id", JStr market_id);
       (py "outcome", outcome);
       (py "resolution_date", resolution_date);
       (py "oracle_version", oracle_version);
       (py "evidence_type", JStr (py "public_summary"));
       (py "premium_available", JBool true);
       (py "message",
        JStr (py "Full reasoning and sources available for premium subscribers")) ].

Definition header : bytes := py "SEAL_ENC_V1:".

(** [for i in range(len(data)): data[i] ^= key[i % len(key)]], from
    index [i] on. *)
Fixpoint xor_with_key (key : bytes) (i : nat) (data : bytes) : bytes :=
  match data with
  | [] => []
  | x :: rest =>
      Z.lxor x (nth (i mod length key) key 0) :: xor_with_key key (S i) rest
  end.

(** [hashlib.sha256(f"{seal_policy_id}:{market_id}".encode()).digest()] *)
Definition derive_key (config : SealConfig) (market_id : pystr) : result bytes :=
  seed <- utf8_encode (seal_policy_id config ++ py ":" ++ market_id) ;;
  Ok (hashlib.sha256 seed).

Definition _simulate_seal_encryption
    (config : SealConfig) (data : bytes) (market_id : pystr) : result bytes :=
  key <- derive_key config market_id ;;
  Ok (header ++ xor_with_key key 0 data).

Definition encrypt_evidence
    (config : SealConfig) (full_evidence : dict) (market_id : pystr)
  : result EncryptedEvidence :=
  summary <- _create_public_summary full_evidence market_id ;;
  let evidence_json := Json.dumps Json.opts_indent2 (JDict full_evidence) in
  evidence_bytes <- utf8_encode evidence_json ;;
  blob <- _simulate_seal_encryption config evidence_bytes market_id ;;
  let metadata : dict :=
    [ (py "seal_package_id", JStr (seal_package_id config));
      (py "seal_policy_id", JStr (seal_policy_id config));
      (py "threshold", JInt (threshold config));
      (py "key_servers", JList (map JStr (key_servers config)));
      (py "encrypted_size_bytes", JInt (Z.of_nat (length blob)));
      (py "original_size_bytes", JInt (Z.of_nat (length evidence_bytes)));
      (py "encryption_method", JStr (py "Seal-Threshold-AES-GCM (simulated)"));
      (py "content_hash", JStr (sha256_hex evidence_bytes)) ] in
  Ok {| encrypted_blob := blob;
        public_summary := summary;
        ee_seal_policy_id := seal_policy_id config;
        encryption_metadata := metadata |}.

Definition decrypt_evidence
    (config : SealConfig) (blob : bytes) (market_id : pystr) : result json :=
  if negb (startswith blob header) then Raise ValueError
  else
    let encrypted_data := skipn 12 blob in
    key <- derive_key config market_id ;;
    let decrypted := xor_with_key key 0 encrypted_data in
    evidence_json <- utf8_decode decrypted ;;
    JsonDecoder.loads evidence_json.

End SealEncryptor.

(** ** The hashing idiom of the three hash functions

    [h = hashlib.sha256(text.encode()).hexdigest(); return f"0x{h}"].
    [str.encode()] cannot fail on the text of [json.dumps], which is
    ASCII under [ensure_ascii]; the model keeps the call as it is. *)

Definition hash_text (text : pystr) : result pystr :=
  data <- utf8_encode text ;;
  Ok (py "0x" ++ sha256_hex data).

(** ** walrus_uploader.py *)

Module WalrusUploader.

Definition create_evidence_bundle
    (inference_input inference_output : json) (metadata : dict) : dict :=
  [ (py "version", JStr (py "1.0"));
    (py "timestamp", dict_get metadata (py "timestamp") (JInt 0));
    (py "input", inference_input);
    (py "output", inference_output);
    (py "metadata", JDict metadata) ].

Definition hash_bundle (bundle : json) : result pystr :=
  hash_text (Json.dumps Json.opts_sorted_compact bundle).

End WalrusUploader.

(** ** signature_generator.py *)

Module TEESignatureGenerator.

(** The state set up by [__init__]: the three identifiers and the
    ephemeral key pair. *)
Record t : Type := {
  enclave_id : pystr;
  enclave_pubkey : pystr;
  mrenclave : pystr;
  private_key : Z;
  public_key : P256.point
}.

Definition TEE_ENCLAVE_ID : pystr := py "0x1234567890abcdef".
Definition TEE_ENCLAVE_PUBKEY : pystr := py "0xabcdef1234567890".
Definition TEE_MRENCLAVE : pystr := py "0xdef1234567890abc".

(** [x or default] for an optional string: [None] and [''] are falsy. *)
Definition or_default (x : option pystr) (default : pystr) : pystr :=
  match x with
  | Some (c :: s) => c :: s
  | _ => default
  end.

(** [__init__]; [d] is the private scalar [ec.generate_private_key]
    draws. *)
Definition init (enclave_id' enclave_pubkey' mrenclave' : option pystr) (d : Z)
  : t :=
  {| enclave_id := or_default enclave_id' TEE_ENCLAVE_ID;
     enclave_pubkey := or_default enclave_pubkey' TEE_ENCLAVE_PUBKEY;
     mrenclave := or_default mrenclave' TEE_MRENCLAVE;
     private_key := d;
     public_key := P256.public_of d |}.

(** [generate_nonce]; [random] are the 32 bytes [secrets.token_hex(32)]
    draws. *)
Definition generate_nonce (random : bytes) : pystr := py "0x" ++ hex random.

Definition hash_input (data : json) : result pystr :=
  hash_text (Json.dumps Json.opts_sorted data).

Definition hash_output (data : json) : result pystr :=
  hash_text (Json.dumps Json.opts_sorted data).

(** The text handed to SHA-256 by [create_report_digest]. *)
Definition digest_string
    (h_in h_out blob_id blob_hash : pystr) (timestamp : Z)
    (nonce enclave_id' mrenclave' : pystr) : pystr :=
  Json.join (py "||")
    [h_in; h_out; blob_id; blob_hash; str_of_int timestamp; nonce;
     enclave_id'; mrenclave'].

(** The digest as a function of the eight components. *)
Definition report_digest_of
    (h_in h_out blob_id blob_hash : pystr) (timestamp : Z)
    (nonce enclave_id' mrenclave' : pystr) : result bytes :=
  data <- utf8_encode
            (digest_string h_in h_out blob_id blob_hash timestamp nonce
                           enclave_id' mrenclave') ;;
  Ok (hashlib.sha256 data).

Definition create_report_digest (self : t)
    (h_in h_out blob_id blob_hash : pystr) (timestamp : Z) (nonce : pystr)
  : result bytes :=
  report_digest_of h_in h_out blob_id blob_hash timestamp nonce
                   (enclave_id self) (mrenclave self).

(** [sign_report]; [k] is the secret number the ECDSA library draws. *)
Definition sign_report (self : t) (k : Z) (report_digest : bytes)
  : result pystr :=
  signature <- P256.sign (private_key self) k report_digest ;;
  Ok (py "0x" ++ hex signature).

(** [verify_signature]: every exception inside the [try] becomes
    [False]. *)
Definition verify_signature (self : t) (report_digest : bytes)
    (signature : pystr) : bool :=
  match
    sig_bytes <- fromhex (skipn 2 signature) ;;
    P256.verify (public_key self) sig_bytes report_digest
  with
  | Ok _ => true
  | Raise _ => false
  end.

(** What a call of [create_tee_proof] reads from its environment, in
    the order of the reads. *)
Record env : Type := {
  now : Z;                 (* int(time.time()) in create_tee_proof *)
  nonce_bytes : bytes;     (* secrets.token_hex(32) in generate_nonce *)
  ecdsa_k : Z;             (* the secret number of the signature *)
  mrsigner_bytes : bytes;  (* secrets.token_hex(32) in generate_attestation *)
  attestation_now : Z      (* int(time.time()) in generate_attestation *)
}.

Definition generate_attestation (self : t) (e : env) (report_digest : bytes)
  : result pystr :=
  let attestation_data : dict :=
    [ (py "version", JInt 4);
      (py "sign_type", JInt 1);
      (py "enclave_id", JStr (enclave_id self));
      (py "mrenclave", JStr (mrenclave self));
      (py "mrsigner", JStr (py "0x" ++ hex (mrsigner_bytes e)));
      (py "report_data", JStr (hex report_digest));
      (py "timestamp", JInt (attestation_now e));
      (py "status", JStr (py "OK")) ] in
  hash_text (Json.dumps Json.opts_sorted (JDict attestation_data)).

Definition create_tee_proof (self : t) (e : env)
    (inference_input inference_output : json) (blob_id blob_hash : pystr)
  : result dict :=
  let timestamp := now e in
  let nonce := generate_nonce (nonce_bytes e) in
  h_in <- hash_input inference_input ;;
  h_out <- hash_output inference_output ;;
  report_digest <-
    create_report_digest self h_in h_out blob_id blob_hash timestamp nonce ;;
  signature <- sign_report self (ecdsa_k e) report_digest ;;
  attestation <- generate_attestation self e report_digest ;;
  Ok [ (py "enclave_id", JStr (enclave_id self));
       (py "enclave_pubkey", JStr (enclave_pubkey self));
       (py "mrenclave", JStr (mrenclave self));
       (py "sig", JStr signature);
       (py "attestation", JStr attestation);
       (py "timestamp", JInt timestamp);
       (py "nonce", JStr nonce);
       (py "h_in", JStr h_in);
       (py "h_out", JStr h_out);
       (py "blob_id", JStr blob_id);
       (py "blob_hash", JStr blob_hash) ].

End TEESignatureGenerator.

(** ** Predicates and example values used in the statements *)

(** The keys of every public summary. *)
Definition allow_list : list pystr :=
  [py "market_id"; py "outcome"; py "resolution_date"; py "oracle_version";
   py "evidence_type"; py "premium_available"; py "message"].

(** Which evidence gets a summary at all: the one whose
    [tee_attestation], when present, is a mapping. *)
Definition tee_attestation_ok (e : dict) : bool :=
  match dict_lookup e (py "tee_attestation") with
  | None | Some (JDict _) => true
  | Some _ => false
  end.

Definition evidence_example : dict :=
  [ (py "market_id", JStr (py "0xmarket123"));
    (py "outcome", JStr (py "YES"));
    (py "sources", JList [JDict [(py "name", JStr (py "CoinGecko"))]]);
    (py "reasoning", JStr (py "BTC exceeded the threshold."));
    (py "tee_attestation", JDict [(py "version", JStr (py "1.0"))]) ].

Definition output_with_empty_sources_and_rationale : dict :=
  [ (py "resolution",
     JDict [(py "value", JInt 1); (py "confidence", JFloat (py "0.9"))]);
    (py "sources", JList []);
    (py "rationale", JStr []) ].

(** What [validate_output] checks. *)
Definition output_accepted (output : dict) : Prop :=
  dict_contains output (py "sources") = true
  /\ dict_contains output (py "rationale") = true
  /\ exists resolution confidence value,
       dict_lookup output (py "resolution") = Some (JDict resolution)
       /\ dict_lookup resolution (py "value") = Some value
       /\ dict_lookup resolution (py "confidence") = Some confidence
       /\ py_le (JFloat (py "0.0")) confidence = Ok true
       /\ py_le confidence (JFloat (py "1.0")) = Ok true
       /\ (py_eq_int value 0 || py_eq_int value 1) = true.

(** The eight components of a report digest. *)
Record report_fields : Type := {
  f_h_in : pystr;
  f_h_out : pystr;
  f_blob_id : pystr;
  f_blob_hash : pystr;
  f_timestamp : Z;
  f_nonce : pystr;
  f_enclave_id : pystr;
  f_mrenclave : pystr
}.

(** The text [create_report_digest] joins and the bytes it hashes. *)
Definition fields_text (f : report_fields) : pystr :=
  TEESignatureGenerator.digest_string
    (f_h_in f) (f_h_out f) (f_blob_id f) (f_blob_hash f) (f_timestamp f)
    (f_nonce f) (f_enclave_id f) (f_mrenclave f).

Definition fields_prehash (f : report_fields) : result bytes :=
  utf8_encode (fields_text f).

Definition fields_digest (f : report_fields) : result bytes :=
  TEESignatureGenerator.report_digest_of
    (f_h_in f) (f_h_out f) (f_blob_id f) (f_blob_hash f) (f_timestamp f)
    (f_nonce f) (f_enclave_id f) (f_mrenclave f).

(** No vertical bar in the text. *)
Definition bar_free (s : pystr) : Prop := ~ In 124 s.

Definition fields_bar_free (f : report_fields) : Prop :=
  bar_free (f_h_in f) /\ bar_free (f_h_out f) /\ bar_free (f_blob_id f)
  /\ bar_free (f_blob_hash f) /\ bar_free (f_nonce f)
  /\ bar_free (f_enclave_id f) /\ bar_free (f_mrenclave f).

Definition fields_shifted_left : report_fields :=
  {| f_h_in := py "a||b"; f_h_out := py "c"; f_blob_id := py "blobA";
     f_blob_hash := py "0x33"; f_timestamp := 1700000000;
     f_nonce := py "0x44"; f_enclave_id := py "0xENC";
     f_mrenclave := py "0xMR" |}.

Definition fields_shifted_right : report_fields :=
  {| f_h_in := py "a"; f_h_out := py "b||c"; f_blob_id := py "blobA";
     f_blob_hash := py "0x33"; f_timestamp := 1700000000;
     f_nonce := py "0x44"; f_enclave_id := py "0xENC";
     f_mrenclave := py "0xMR" |}.

Definition fields_example : report_fields :=
  {| f_h_in := py "0x11"; f_h_out := py "0x22"; f_blob_id := py "blobA";
     f_blob_hash := py "0x33"; f_timestamp := 1700000000;
     f_nonce := py "0x44"; f_enclave_id := py "0xENC";
     f_mrenclave := py "0xMR" |}.

(** Induction on values through the two containers. *)
Section json_induction.
Variable P : json -> Prop.
Hypothesis Hnull : P JNull.
Hypothesis Hbool : forall b, P (JBool b).
Hypothesis Hint : forall z, P (JInt z).
Hypothesis Hfloat : forall r, P (JFloat r).
Hypothesis Hstr : forall s, P (JStr s).
Hypothesis Hlist : forall l, Forall P l -> P (JList l).
Hypothesis Hdict :
  forall items, Forall (fun kv => P (snd kv)) items -> P (JDict items).

Fixpoint json_ind (v : json) : P v :=
  match v with
  | JNull => Hnull
  | JBool b => Hbool b
  | JInt z => Hint z
  | JFloat r => Hfloat r
  | JStr s => Hstr s
  | JList l =>
      Hlist l
        ((fix all (l : list json) : Forall P l :=
            match l with
            | [] => Forall_nil P
            | x :: l' => Forall_cons x (json_ind x) (all l')
            end) l)
  | JDict items =>
      Hdict items
        ((fix all (d : list (pystr * json))
            : Forall (fun kv => P (snd kv)) d :=
            match d with
            | [] => Forall_nil _
            | (k, x) :: d' =>
                Forall_cons (P := fun kv => P (snd kv)) (k, x)
                            (json_ind x) (all d')
            end) items)
  end.
End json_induction.

(** The keys of every [dict] inside the value are pairwise distinct, as
    they are in any Python [dict]. *)
Fixpoint distinct (l : list pystr) : bool :=
  match l with
  | [] => true
  | k :: l' => negb (existsb (str_eqb k) l') && distinct l'
  end.

Fixpoint unique_keys (v : json) : bool :=
  match v with
  | JList l => forallb unique_keys l
  | JDict items =>
      distinct (keys items)
      && forallb (fun kv => match kv with (_, x) => unique_keys x end) items
  | _ => true
  end.

(** The same value up to the order of the members of its mappings, at
    every depth: sequences are compared in order, scalars by
    constructor and value. *)
#[local] Unset Elimination Schemes.
Inductive key_permuted : json -> json -> Prop :=
| kp_null : key_permuted JNull JNull
| kp_bool b : key_permuted (JBool b) (JBool b)
| kp_int z : key_permuted (JInt z) (JInt z)
| kp_float r : key_permuted (JFloat r) (JFloat r)
| kp_str s : key_permuted (JStr s) (JStr s)
| kp_list l1 l2 :
    Forall2 key_permuted l1 l2 -> key_permuted (JList l1) (JList l2)
| kp_dict d1 d d2 :
    Permutation d1 d ->
    Forall2 (fun a b => fst a = fst b /\ key_permuted (snd a) (snd b)) d d2 ->
    key_permuted (JDict d1) (JDict d2).
#[local] Set Elimination Schemes.

Definition nested_example : json :=
  JDict [ (py "b", JInt 2);
          (py "a", JDict [(py "y", JList [JInt 1; JNull]);
                          (py "x", JFloat (py "0.85"))]);
          (py "c", JStr (py "text")) ].

Definition nested_example_reordered : json :=
  JDict [ (py "c", JStr (py "text"));
          (py "a", JDict [(py "x", JFloat (py "0.85"));
                          (py "y", JList [JInt 1; JNull])]);
          (py "b", JInt 2) ].

(** The text of the value holds no item separator and no key separator:
    a scalar, an empty container, or a sequence of one such value. *)
Fixpoint separator_free (v : json) : bool :=
  match v with
  | JList [] => true
  | JList [x] => separator_free x
  | JList _ => false
  | JDict [] => true
  | JDict _ => false
  | _ => true
  end.

Definition one_member : json := JDict [(py "a", JInt 1)].

(** The joint length of the parts of a container, and of the members
    of a mapping with their keys and key separators. *)
Fixpoint total_length (parts : list pystr) : nat :=
  match parts with
  | [] => 0
  | p :: rest => length p + total_length rest
  end.

Definition members_total (o : Json.options) (level : nat) (items : dict)
  : nat :=
  fold_right
    (fun kv n =>
       (length (Json.encode_basestring_ascii (fst kv))
        + length (Json.key_separator o)
        + length (Json.encode o (S level) (snd kv)) + n)%nat)
    0%nat items.

(** Two scalars compared by value, as [==] compares them: numbers by
    the number they denote whatever their type ([1 == 1.0],
    [0.0 == -0.0], [True == 1]), text by its characters. *)
Definition scalar_eq (x y : json) : bool :=
  match x, y with
  | JNull, JNull => true
  | JStr s, JStr t => str_eqb s t
  | (JBool _ | JInt _ | JFloat _), (JBool _ | JInt _ | JFloat _) =>
      match as_number x, as_number y with
      | Some n, Some m =>
          match num_compare n m with
          | Some Eq => true
          | _ => false
          end
      | _, _ => false
      end
  | _, _ => false
  end.

(** Structural equality in the words of the specification: mappings
    compared ignoring key order, sequences compared by order, scalars
    compared by value. *)
#[local] Unset Elimination Schemes.
Inductive structurally_equal : json -> json -> Prop :=
| se_scalar x y : scalar_eq x y = true -> structurally_equal x y
| se_list l1 l2 :
    Forall2 structurally_equal l1 l2 ->
    structurally_equal (JList l1) (JList l2)
| se_dict d1 d d2 :
    Permutation d1 d ->
    Forall2 (fun a b => fst a = fst b /\ structurally_equal (snd a) (snd b))
            d d2 ->
    structurally_equal (JDict d1) (JDict d2).
#[local] Set Elimination Schemes.

Definition fields_example_other_nonce : report_fields :=
  {| f_h_in := py "0x11"; f_h_out := py "0x22"; f_blob_id := py "blobA";
     f_blob_hash := py "0x33"; f_timestamp := 1700000000;
     f_nonce := py "0x45"; f_enclave_id := py "0xENC";
     f_mrenclave := py "0xMR" |}.

(** A Unicode scalar value: a code point that is not a surrogate. *)
Definition is_scalar (c : Z) : bool :=
  ((0 <=? c) && (c <? 55296)) || ((57343 <? c) && (c <? 1114112)).

Definition well_formed_text (s : pystr) : bool := forallb is_scalar s.

(** The [repr] of a finite float: a number literal with a fraction or an
    exponent and nothing after it. *)
Definition float_text (r : pystr) : bool :=
  match match_number r with
  | Some (_, f, e, []) =>
      match f, e with
      | [], [] => false
      | _, _ => true
      end
  | _ => false
  end.

(** JSON-representable values: finite numbers, well-formed text, and
    mappings with distinct text keys. *)
Fixpoint json_representable (v : json) : bool :=
  match v with
  | JNull | JBool _ | JInt _ => true
  | JFloat r => float_text r
  | JStr s => well_formed_text s
  | JList l => forallb json_representable l
  | JDict items =>
      distinct (keys items)
      && forallb (fun kv => match kv with
                            | (k, x) => well_formed_text k && json_representable x
                            end) items
  end.

(** A code point: what a character of a [str] can be. *)
Definition is_code_point (c : Z) : bool := (0 <=? c) && (c <? 1114112).

(** Text that [json] reads back from its escaped form: any code points,
    lone surrogates too, as long as no high surrogate is directly
    followed by a low one (the scanner joins the escapes of such a pair
    into one character). Well-formed text is of this kind. *)
Fixpoint unpaired (s : pystr) : bool :=
  match s with
  | [] => true
  | c :: r =>
      is_code_point c
      && negb (JsonDecoder.is_high_surrogate c
               && match r with
                  | c' :: _ => JsonDecoder.is_low_surrogate c'
                  | [] => false
                  end)
      && unpaired r
  end.

(** The [repr] of a float that equals itself: a finite float or one of
    the two infinities, not NaN. *)
Definition float_repr (r : pystr) : bool :=
  float_text r || str_eqb r (py "inf") || str_eqb r (py "-inf").

(** The values [json] writes and reads back equal: those of
    [json_representable], the infinities, and text with lone
    surrogates. *)
Fixpoint json_value (v : json) : bool :=
  match v with
  | JNull | JBool _ | JInt _ => true
  | JFloat r => float_repr r
  | JStr s => unpaired s
  | JList l => forallb json_value l
  | JDict items =>
      distinct (keys items)
      && forallb (fun kv => match kv with
                            | (k, x) => unpaired k && json_value x
                            end) items
  end.

(** [x == y] on two values that are not the same object: containers
    member by member (a mapping whatever the order of its members),
    scalars by value. NaN is equal to nothing, itself included. *)
Fixpoint py_eq (x y : json) : bool :=
  match x, y with
  | JList l1, JList l2 =>
      (fix eq_list (l1 l2 : list json) : bool :=
         match l1, l2 with
         | [], [] => true
         | a :: l1', b :: l2' => py_eq a b && eq_list l1' l2'
         | _, _ => false
         end) l1 l2
  | JDict items1, JDict items2 =>
      (length items1 =? length items2)%nat
      && forallb (fun kv => match kv with
                            | (k, a) =>
                                match dict_lookup items2 k with
                                | Some b => py_eq a b
                                | None => false
                                end
                            end) items1
  | _, _ => scalar_eq x y
  end.

(** ** The limits of the interpreter

    CPython converts no [int] of more than 4300 decimal digits to text
    or back ([sys.int_max_str_digits]): [str], an f-string,
    [json.dumps] and [json.loads] raise [ValueError] on one. The
    encoder and the scanner of [json], and [str] of a container, raise
    [RecursionError] on a value nested deeper than the recursion limit
    leaves room for (1000 frames by default, counted from the start of
    the program). The functions of this file have neither error: they
    are the program on the values within the limits, and every
    statement that says a call returns, or lists the ways it fails, is
    made for such values. The nesting bound is a tenth of the default
    recursion limit. *)

Definition int_max_str_digits : Z := 4300.

(** [str(z)] returns: [z] has at most 4300 digits, the sign apart. *)
Definition int_fits (z : Z) : bool :=
  (length (str_of_int (Z.abs z)) <=? Z.to_nat int_max_str_digits)%nat.

Definition max_nesting : nat := 100.

(** The depth of the containers of a value. *)
Fixpoint nesting (v : json) : nat :=
  match v with
  | JList l => S (fold_right (fun x n => Nat.max (nesting x) n) O l)
  | JDict items =>
      S (fold_right (fun kv n => match kv with
                                 | (_, x) => Nat.max (nesting x) n
                                 end) O items)
  | _ => O
  end.

Fixpoint ints_fit (v : json) : bool :=
  match v with
  | JInt z => int_fits z
  | JList l => forallb ints_fit l
  | JDict items =>
      forallb (fun kv => match kv with (_, x) => ints_fit x end) items
  | _ => true
  end.

Definition within_limits (v : json) : bool :=
  ints_fit v && (nesting v <=? max_nesting)%nat.

(** The same limits read off a text before it is scanned: no run of
    more than 4300 digits, so no integer literal the scanner refuses,
    and no more than [max_nesting] opening brackets, so no deeper
    nesting. [run] is the length of the run of digits that ends just
    before [s], [opened] the number of brackets met so far. *)
Fixpoint text_fits (run opened : nat) (s : pystr) : bool :=
  match s with
  | [] => true
  | c :: r =>
      if is_digit c then
        (S run <=? Z.to_nat int_max_str_digits)%nat && text_fits (S run) opened r
      else if (c =? 91) || (c =? 123) then
        (S opened <=? max_nesting)%nat && text_fits O (S opened) r
      else text_fits O opened r
  end.

Definition text_within_limits (s : pystr) : bool := text_fits O O s.

(** The text [decrypt_evidence] hands to [json.loads], when the key can
    be derived and the bytes after the XOR are UTF-8. *)
Definition decrypted_text
    (config : SealEncryptor.SealConfig) (blob : bytes) (market_id : pystr)
  : result pystr :=
  key <- SealEncryptor.derive_key config market_id ;;
  utf8_decode (SealEncryptor.xor_with_key key 0 (skipn 12 blob)).

(** The number of values and members in a value: the fuel [scan_once]
    uses up while reading its text. *)
Fixpoint size (v : json) : nat :=
  match v with
  | JList l => S (fold_right (fun x n => S (size x + n)) O l)
  | JDict items =>
      S (fold_right (fun kv n => match kv with
                                 | (_, x) => S (size x + n)
                                 end) O items)
  | _ => 1
  end.

(** What may follow a value in an indented text: nothing, a comma or a
    line feed. *)
Definition delimited (rest : pystr) : Prop :=
  match rest with
  | [] => True
  | c :: _ => c = 44 \/ c = 10
  end.

Definition is_ascii (c : Z) : Prop := 0 <= c < 128.

(** The first character of the text of a value. *)
Definition value_start (c : Z) : Prop :=
  c = 34 \/ c = 123 \/ c = 91 \/ c = 110 \/ c = 116 \/ c = 102
  \/ c = 73 \/ c = 45 \/ 48 <= c <= 57.

(** A text that does not begin with the escape of a low surrogate. *)
Definition no_low_escape (t : pystr) : Prop :=
  match t with
  | b :: u :: g1 :: g2 :: g3 :: g4 :: _ =>
      b = 92 -> u = 117 ->
      exists x, JsonDecoder.hex4_value g1 g2 g3 g4 = Some x
                /\ JsonDecoder.is_low_surrogate x = false
  | _ => True
  end.

Definition list_size (l : list json) : nat :=
  fold_right (fun x n => S (size x + n)) O l.

Definition dict_size (d : dict) : nat :=
  fold_right (fun kv n => match kv with (_, x) => S (size x + n) end) O d.

(** The text of one member of a mapping in the indented layout. *)
Definition member_text (level : nat) (kv : pystr * json) : pystr :=
  match kv with
  | (k, x) =>
      Json.encode_basestring_ascii k
        ++ [58; 32] ++ Json.encode Json.opts_indent2 level x
  end.

(** What the induction carries for each value inside a container. *)
Definition reads_back (x : json) : Prop :=
  json_value x = true ->
  forall level fuel rest,
    (size x <= fuel)%nat -> delimited rest ->
    JsonDecoder.scan_once fuel (Json.encode Json.opts_indent2 level x ++ rest)
    = Some (x, rest).

Definition config_example : SealEncryptor.SealConfig :=
  {| SealEncryptor.seal_package_id := py "0x1234";
     SealEncryptor.seal_policy_id := py "0x5678";
     SealEncryptor.threshold := 2;
     SealEncryptor.key_servers :=
       [py "https://seal-server-1.example.com";
        py "https://seal-server-2.example.com";
        py "https://seal-server-3.example.com"] |}.

(** The same policy with no key server at all. *)
Definition config_no_servers : SealEncryptor.SealConfig :=
  {| SealEncryptor.seal_package_id := py "0x1234";
     SealEncryptor.seal_policy_id := py "0x5678";
     SealEncryptor.threshold := 2;
     SealEncryptor.key_servers := [] |}.

Definition evidence_null_attestation : dict :=
  [ (py "outcome", JStr (py "YES"));
    (py "tee_attestation", JNull) ].

(** Evidence whose rationale holds the two halves of a surrogate pair
    as two characters, and what [json] reads back: the one character
    U+1F600. *)
Definition evidence_surrogate_pair : dict :=
  [ (py "outcome", JStr (py "YES"));
    (py "rationale", JStr [55357; 56832]) ].

Definition evidence_joined_pair : dict :=
  [ (py "outcome", JStr (py "YES"));
    (py "rationale", JStr [128512]) ].

(** Evidence with a confidence that is not a number. *)
Definition evidence_nan : dict :=
  [ (py "outcome", JStr (py "YES"));
    (py "confidence", JFloat (py "nan")) ].

(** Evidence with an infinite number and lone surrogates in a key and
    in a text. *)
Definition evidence_unusual : dict :=
  [ (py "outcome", JStr (py "YES"));
    (py "bound", JFloat (py "-inf"));
    ([107; 55357], JList [JStr [56832; 55357]; JFloat (py "inf")]) ].

Definition is_byte (b : Z) : Prop := 0 <= b < 256.

(** Reading a proof as a verifier does: [proof["h_in"]] and the like. *)
Definition str_field (proof : dict) (k : pystr) : result pystr :=
  match dict_lookup proof k with
  | Some (JStr s) => Ok s
  | Some _ => Raise TypeError
  | None => Raise KeyError
  end.

Definition int_field (proof : dict) (k : pystr) : result Z :=
  match dict_lookup proof k with
  | Some (JInt z) => Ok z
  | Some _ => Raise TypeError
  | None => Raise KeyError
  end.

(** The digest rebuilt from the fields a proof carries, the enclave
    identity included. *)
Definition recompute_digest (proof : dict) : result bytes :=
  h_in <- str_field proof (py "h_in") ;;
  h_out <- str_field proof (py "h_out") ;;
  blob_id <- str_field proof (py "blob_id") ;;
  blob_hash <- str_field proof (py "blob_hash") ;;
  timestamp <- int_field proof (py "timestamp") ;;
  nonce <- str_field proof (py "nonce") ;;
  enclave_id <- str_field proof (py "enclave_id") ;;
  mrenclave <- str_field proof (py "mrenclave") ;;
  TEESignatureGenerator.report_digest_of
    h_in h_out blob_id blob_hash timestamp nonce enclave_id mrenclave.

(** The verdict of the ECDSA primitive as [verify_signature] reports it. *)
Definition accepted (r : result unit) : bool :=
  match r with
  | Ok _ => true
  | Raise _ => false
  end.

Definition signer_example : TEESignatureGenerator.t :=
  TEESignatureGenerator.init None None None 7.

Definition digest_one : bytes := repeat 0 31 ++ [1].


Definition env_example : TEESignatureGenerator.env :=
  {| TEESignatureGenerator.now := 1700000000;
     TEESignatureGenerator.nonce_bytes := repeat 68 32;
     TEESignatureGenerator.ecdsa_k := 5;
     TEESignatureGenerator.mrsigner_bytes := repeat 85 32;
     TEESignatureGenerator.attestation_now := 1700000001 |}.

(** The characters of the three parts of a number literal. *)
Definition digit_char (c : Z) : Prop := 48 <= c <= 57.

Definition int_char (c : Z) : Prop := c = 45 \/ digit_char c.

Definition exp_char (c : Z) : Prop :=
  c = 101 \/ c = 69 \/ c = 45 \/ c = 43 \/ digit_char c.

(** A signer with another private scalar. *)
Definition other_signer : TEESignatureGenerator.t :=
  TEESignatureGenerator.init None None None 8.

(** A lowercase hexadecimal digit, and the format of the hashes the
    oracle publishes: [0x] followed by 64 such digits. *)
Definition is_hex_lower (c : Z) : bool :=
  ((48 <=? c) && (c <=? 57)) || ((97 <=? c) && (c <=? 102)).

Definition hash_format (h : pystr) : bool :=
  match h with
  | 48 :: 120 :: d => (length d =? 64)%nat && forallb is_hex_lower d
  | _ => false
  end.

(** ** Further code of the oracle, and the values its properties use *)

(** Every element is a byte. *)
Definition all_bytes (bs : bytes) : bool :=
  forallb (fun b => (0 <=? b) && (b <? 256)) bs.

(** ** config.py: the model name and the schema of a report *)

Module config.

Definition GPT5_MODEL : pystr := py "gpt-5-thinking@2025-11-POC".

(** [{"type": t}] *)
Definition of_type (t : string) : json := JDict [(py "type", JStr (py t))].

Definition RESOLUTION_SCHEMA : json :=
  JDict
    [ (py "type", JStr (py "object"));
      (py "required",
       JList [JStr (py "round"); JStr (py "task"); JStr (py "resolution");
              JStr (py "sources"); JStr (py "rationale");
              JStr (py "controls"); JStr (py "tee_proof")]);
      (py "properties",
       JDict
         [ (py "round", of_type "integer");
           (py "task",
            JDict [(py "type", JStr (py "string"));
                   (py "enum", JList [JStr (py "binary"); JStr (py "numeric")])]);
           (py "resolution",
            JDict
              [ (py "type", JStr (py "object"));
                (py "required", JList [JStr (py "value"); JStr (py "confidence")]);
                (py "properties",
                 JDict
                   [ (py "value", of_type "number");
                     (py "confidence",
                      JDict [(py "type", JStr (py "number"));
                             (py "minimum", JInt 0);
                             (py "maximum", JInt 1)]) ]) ]);
           (py "sources",
            JDict
              [ (py "type", JStr (py "array"));
                (py "items",
                 JDict
                   [ (py "type", JStr (py "object"));
                     (py "required",
                      JList [JStr (py "id"); JStr (py "url");
                             JStr (py "quote_hash")]);
                     (py "properties",
                      JDict [ (py "id", of_type "string");
                              (py "url", of_type "string");
                              (py "quote_hash", of_type "string") ]) ]) ]);
           (py "rationale", of_type "string");
           (py "controls",
            JDict
              [ (py "type", JStr (py "object"));
                (py "required",
                 JList [JStr (py "model_id"); JStr (py "prompt_hash");
                        JStr (py "parser_hash"); JStr (py "schema_hash")]);
                (py "properties",
                 JDict [ (py "model_id", of_type "string");
                         (py "prompt_hash", of_type "string");
                         (py "parser_hash", of_type "string");
                         (py "schema_hash", of_type "string") ]) ]);
           (py "tee_proof",
            JDict
              [ (py "type", JStr (py "object"));
                (py "required",
                 JList [JStr (py "enclave_id"); JStr (py "enclave_pubkey");
                        JStr (py "mrenclave"); JStr (py "sig");
                        JStr (py "attestation"); JStr (py "timestamp");
                        JStr (py "nonce"); JStr (py "h_in"); JStr (py "h_out");
                        JStr (py "blob_id"); JStr (py "blob_hash")]);
                (py "properties",
                 JDict [ (py "enclave_id", of_type "string");
                         (py "enclave_pubkey", of_type "string");
                         (py "mrenclave", of_type "string");
                         (py "sig", of_type "string");
                         (py "attestation", of_type "string");
                         (py "timestamp", of_type "integer");
                         (py "nonce", of_type "string");
                         (py "h_in", of_type "string");
                         (py "h_out", of_type "string");
                         (py "blob_id", of_type "string");
                         (py "blob_hash", of_type "string") ]) ]) ]) ].

End config.

(** The names a schema lists under [required], and the schema of one of
    its properties. *)
Definition schema_required (schema : json) : list pystr :=
  match schema with
  | JDict d =>
      match dict_lookup d (py "required") with
      | Some (JList l) =>
          flat_map (fun x => match x with JStr s => [s] | _ => [] end) l
      | _ => []
      end
  | _ => []
  end.

Definition schema_property (schema : json) (name : pystr) : json :=
  match schema with
  | JDict d =>
      match dict_lookup d (py "properties") with
      | Some (JDict props) => dict_get props name JNull
      | _ => JNull
      end
  | _ => JNull
  end.

(** [json.dumps(obj)] *)
Definition opts_default : Json.options :=
  {| Json.sort_keys := false; Json.indent := None;
     Json.item_separator := py ", "; Json.key_separator := py ": " |}.

(** The signature text [sign_report] returns for [digest_one] under
    [signer_example] with the secret number 5. *)
Definition signature_example : pystr :=
  Eval vm_compute in
    match TEESignatureGenerator.sign_report signer_example 5 digest_one with
    | Ok s => s
    | Raise _ => []
    end.

(** Evidence that agrees with [evidence_example] on the outcome, the
    resolution date and the attestation, and on nothing else. *)
Definition evidence_example_other_reasoning : dict :=
  [ (py "tee_attestation", JDict [(py "version", JStr (py "1.0"))]);
    (py "outcome", JStr (py "YES"));
    (py "reasoning", JStr (py "A different chain of thought."));
    (py "sources", JList []) ].

(** ** openai_inference.py: [GPT5Inference.create_prompt_hash] *)

Module OpenAIInference.

(** [f"{system_prompt}|||{user_prompt}"] *)
Definition combined_prompt (system_prompt user_prompt : pystr) : pystr :=
  system_prompt ++ py "|||" ++ user_prompt.

Definition create_prompt_hash (system_prompt user_prompt : pystr)
  : result pystr :=
  data <- utf8_encode (combined_prompt system_prompt user_prompt) ;;
  Ok (sha256_hex data).

(** [normalize_sources_data]. An f-string renders a field with [str]:
    a text as it is, a number by its digits, [None] and the booleans by
    their names. The [str] of a list or of a dict is the [repr] of its
    elements, which depends on the Unicode character database; it is a
    parameter here. *)
Section rendering.
Variable repr_container : json -> pystr.

Definition format_value (v : json) : pystr :=
  match v with
  | JNull => py "None"
  | JBool true => py "True"
  | JBool false => py "False"
  | JInt z => str_of_int z
  | JFloat r => r
  | JStr s => s
  | _ => repr_container v
  end.

(** The four lines appended for one source. *)
Definition source_lines (source : json) : result (list pystr) :=
  id <- GPT5Inference.getitem source (py "id") ;;
  url <- GPT5Inference.getitem source (py "url") ;;
  data <- GPT5Inference.getitem source (py "data") ;;
  Ok [ py "Source: " ++ format_value id;
       py "URL: " ++ format_value url;
       py "Data: " ++ format_value data;
       py "---" ].

Fixpoint normalized (sources : list json) : result (list pystr) :=
  match sources with
  | [] => Ok []
  | source :: rest =>
      lines <- source_lines source ;;
      more <- normalized rest ;;
      Ok (lines ++ more)
  end.

Definition normalize_sources_data (sources : list json) : result pystr :=
  lines <- normalized sources ;;
  Ok (Json.join [10] lines).

End rendering.

End OpenAIInference.

(** The outputs on which [validate_output] raises instead of answering:
    the three required keys are there and [resolution] is a value that
    has no members at all, or a sequence or a text that "contains" both
    names and cannot be indexed by one, or a mapping whose confidence
    is not a number. *)
Definition raises_type_error (output : dict) : bool :=
  forallb (dict_contains output) GPT5Inference.required_fields
  && match dict_lookup output (py "resolution") with
     | Some (JDict r) =>
         dict_contains r (py "value")
         && match dict_lookup r (py "confidence") with
            | Some c => match as_number c with
                        | None => true
                        | Some _ => false
                        end
            | None => false
            end
     | Some (JList l) =>
         existsb (fun x => match x with
                           | JStr s => str_eqb s (py "value")
                           | _ => false
                           end) l
         && existsb (fun x => match x with
                              | JStr s => str_eqb s (py "confidence")
                              | _ => false
                              end) l
     | Some (JStr s) =>
         str_contains s (py "value") && str_contains s (py "confidence")
     | Some _ => true
     | None => false
     end.

Definition output_with_text_confidence : dict :=
  [ (py "resolution",
     JDict [(py "value", JInt 1); (py "confidence", JStr (py "high"))]);
    (py "sources", JList []);
    (py "rationale", JStr (py "because")) ].

(** A source with three text fields. *)
Definition text_source (id url data : pystr) : json :=
  JDict [(py "id", JStr id); (py "url", JStr url); (py "data", JStr data)].

(** The three fields of a source as [normalize_sources_data] renders
    them; a source whose fields are all there; a source whose rendered
    fields hold no line feed. *)
Definition rendered_fields (repr_container : json -> pystr) (source : json)
  : option (pystr * pystr * pystr) :=
  match source with
  | JDict d =>
      match dict_lookup d (py "id"), dict_lookup d (py "url"),
            dict_lookup d (py "data") with
      | Some id, Some url, Some data =>
          Some (OpenAIInference.format_value repr_container id,
                OpenAIInference.format_value repr_container url,
                OpenAIInference.format_value repr_container data)
      | _, _, _ => None
      end
  | _ => None
  end.

Definition has_fields (source : json) : bool :=
  match source with
  | JDict d =>
      dict_contains d (py "id") && dict_contains d (py "url")
      && dict_contains d (py "data")
  | _ => false
  end.

(** No occurrence of the character in the text. *)
Definition no_char (c : Z) (s : pystr) : bool := negb (existsb (Z.eqb c) s).

Definition one_line_source (repr_container : json -> pystr) (source : json)
  : bool :=
  match rendered_fields repr_container source with
  | Some (id, url, data) => no_char 10 id && no_char 10 url && no_char 10 data
  | None => false
  end.

(** The four lines of a source with the given rendered fields. *)
Definition field_lines (fields : pystr * pystr * pystr) : list pystr :=
  match fields with
  | (id, url, data) =>
      [py "Source: " ++ id; py "URL: " ++ url; py "Data: " ++ data; py "---"]
  end.

Definition option_lines (fields : option (pystr * pystr * pystr))
  : list pystr :=
  match fields with
  | Some f => field_lines f
  | None => []
  end.

(** A rendering of containers for the examples. *)
Definition repr_example (v : json) : pystr := py "[...]".

(** ** The [str] methods that read the output of the command line *)

(** [s.split('\n')] *)
Fixpoint split_lines (s : pystr) : list pystr :=
  match s with
  | [] => [[]]
  | c :: r =>
      if c =? 10 then [] :: split_lines r
      else
        match split_lines r with
        | line :: rest => (c :: line) :: rest
        | [] => [[c]]
        end
  end.

(** The text before and the text after the first occurrence of [sep]
    in [s]; [None] when there is none. *)
Fixpoint find_sep (sep s : pystr) {struct s} : option (pystr * pystr) :=
  if startswith s sep then Some ([], skipn (length sep) s)
  else
    match s with
    | [] => None
    | c :: r =>
        match find_sep sep r with
        | Some (before, after) => Some (c :: before, after)
        | None => None
        end
    end.

(** [s.split(sep)[1]] where [sep] occurs in [s], as it does at the
    one call: the text between the first occurrence of [sep] and the
    next one, or the end. *)
Definition split_item_1 (sep s : pystr) : pystr :=
  match find_sep sep s with
  | Some (_, after) =>
      match find_sep sep after with
      | Some (piece, _) => piece
      | None => after
      end
  | None => []
  end.

(** [str.isspace] on one character: the Unicode white space. *)
Definition isspace (c : Z) : bool :=
  ((9 <=? c) && (c <=? 13)) || ((28 <=? c) && (c <=? 32))
  || (c =? 133) || (c =? 160) || (c =? 5760)
  || ((8192 <=? c) && (c <=? 8202))
  || (c =? 8232) || (c =? 8233) || (c =? 8239) || (c =? 8287)
  || (c =? 12288).

Fixpoint lstrip (s : pystr) : pystr :=
  match s with
  | c :: r => if isspace c then lstrip r else s
  | [] => []
  end.

(** [s.strip()] *)
Definition strip (s : pystr) : pystr := rev (lstrip (rev (lstrip s))).

(** ** Calls that may raise [RuntimeError]

    A call returns, raises the [RuntimeError] it builds with its
    message, or lets an exception of a callee through. *)

Inductive outcome (A : Type) : Type :=
| Returned (a : A)
| RuntimeError (message : pystr)
| Raised (e : exn).
Arguments Returned {A} a.
Arguments RuntimeError {A} message.
Arguments Raised {A} e.

Definition lift {A} (r : result A) : outcome A :=
  match r with
  | Ok a => Returned a
  | Raise e => Raised e
  end.

Definition obind {A B} (r : outcome A) (k : A -> outcome B) : outcome B :=
  match r with
  | Returned a => k a
  | RuntimeError message => RuntimeError message
  | Raised e => Raised e
  end.

Notation "x <~ r ;; k" := (obind r (fun x => k))
  (at level 61, r at next level, right associativity).

(** ** walrus_uploader.py: the two methods that run the command line *)

Module WalrusCLI.

(** What [subprocess.run(..., capture_output=True, text=True,
    check=True)] gives: the standard output of a run that exits with 0,
    or [CalledProcessError] with the standard error. *)
Inductive completed : Type :=
| Completed (stdout : pystr)
| CalledProcessError (stderr : pystr).

Definition marker : pystr := py "Blob ID:".

(** The loop over the lines of the output, left at the first line that
    holds the marker. *)
Fixpoint first_blob_id (lines : list pystr) : option pystr :=
  match lines with
  | [] => None
  | line :: rest =>
      if str_contains line marker
      then Some (strip (split_item_1 marker line))
      else first_blob_id rest
  end.

(** [upload_to_walrus]; [store] is the command [walrus store] applied to
    the text of the temporary file. *)
Definition upload_to_walrus (store : pystr -> completed) (bundle : json)
  : outcome (pystr * pystr) :=
  let file_text := Json.dumps Json.opts_indent2 bundle in
  match store file_text with
  | Completed output =>
      match first_blob_id (split_lines output) with
      | Some (c :: s) =>
          let blob_id := c :: s in
          match WalrusUploader.hash_bundle bundle with
          | Ok blob_hash => Returned (blob_id, blob_hash)
          | Raise e => Raised e
          end
      | _ =>
          RuntimeError
            (py "Failed to extract blob ID from Walrus output: " ++ output)
      end
  | CalledProcessError stderr =>
      RuntimeError (py "Walrus upload failed: " ++ stderr)
  end.

(** [verify_upload]; [read] is the command [walrus read]. Every
    exception inside the [try] becomes [False]. *)
Definition verify_upload (read : pystr -> completed)
    (blob_id expected_hash : pystr) : bool :=
  match read blob_id with
  | Completed stdout =>
      match
        blob_data <- JsonDecoder.loads stdout ;;
        WalrusUploader.hash_bundle blob_data
      with
      | Ok actual_hash => str_eqb actual_hash expected_hash
      | Raise _ => false
      end
  | CalledProcessError _ => false
  end.

End WalrusCLI.

(** A line without the marker; white space that stays on the line; a
    blob id as the command prints it (not empty, no white space at
    either end, no colon, no line feed); what may follow a line. *)
Definition plain_line (line : pystr) : bool :=
  no_char 10 line && negb (str_contains line WalrusCLI.marker).

Definition blank_text (pad : pystr) : bool :=
  forallb (fun c => isspace c && negb (c =? 10)) pad.

Definition clean_id (id : pystr) : bool :=
  negb (isspace (hd 32 id)) && negb (isspace (last id 32))
  && no_char 58 id && no_char 10 id.

Definition line_end (tail : pystr) : bool :=
  match tail with
  | [] => true
  | c :: _ => c =? 10
  end.

(** A line of output that shows a blob id: some text without a colon,
    the marker, white space, the id, white space. *)
Definition blob_id_line (lead pad1 id pad2 : pystr) : pystr :=
  lead ++ WalrusCLI.marker ++ pad1 ++ id ++ pad2.

(** Lines, each ended by a line feed. *)
Definition lines_text (lines : list pystr) : pystr :=
  flat_map (fun l => l ++ [10]) lines.

(** A store that prints two lines, the blob id and one more line, and a
    reader that returns a given text for every blob id. *)
Definition store_example (file_text : pystr) : WalrusCLI.completed :=
  WalrusCLI.Completed
    (lines_text [py "Success: blob stored"; py "Size: 1 KiB"]
     ++ blob_id_line [] (py " ") (py "Cu7KD1o8bwuW-rCVihj40Nu") []
     ++ 10 :: py "Cost: 1 WAL").

Definition read_example (text : pystr) (blob_id : pystr)
  : WalrusCLI.completed :=
  WalrusCLI.Completed text.

(** ** tee_reporter.py: [TEEReporter.create_resolution_report] *)

Module TEEReporter.

(** [collect_data_sources]: mock data chosen by the category in lower
    case. [str.lower] follows the Unicode case mapping and is a
    parameter; the list of URLs the code looks up first is not used. *)
Section sources.
Variable lower : pystr -> pystr.

Definition collect_data_sources (market_question category : pystr)
  : list json :=
  if str_eqb (lower category) (py "crypto") then
    [ JDict [ (py "id", JStr (py "coinmarketcap:btc"));
              (py "url",
               JStr (py "https://coinmarketcap.com/currencies/bitcoin/"));
              (py "data",
               JStr (py "Current BTC price: $95,234 (Dec 30, 2024 14:30 UTC)")) ];
      JDict [ (py "id", JStr (py "coingecko:btc"));
              (py "url", JStr (py "https://www.coingecko.com/en/coins/bitcoin"));
              (py "data",
               JStr (py "Current BTC price: $95,180 (Dec 30, 2024 14:31 UTC)")) ];
      JDict [ (py "id", JStr (py "binance:btc"));
              (py "url",
               JStr (py "https://api.binance.com/api/v3/ticker/price?symbol=BTCUSDT"));
              (py "data",
               JStr (py "BTC/USDT: $95,195 (Dec 30, 2024 14:30 UTC)")) ] ]
  else if str_eqb (lower category) (py "politics") then
    [ JDict [ (py "id", JStr (py "ap_news:election_2024"));
              (py "url", JStr (py "https://apnews.com/..."));
              (py "data", JStr (py "Mock political data for testing")) ] ]
  else
    [ JDict [ (py "id", JStr (py "generic:source1"));
              (py "url", JStr (py "https://example.com/..."));
              (py "data",
               JStr (py "Mock data for " ++ category ++ py " category")) ] ].

End sources.

(** The two fields of the reporter that the report depends on. *)
Record t : Type := {
  tee_signer : TEESignatureGenerator.t;
  enable_walrus_upload : bool
}.

(** What a call of [create_resolution_report] reads from its
    environment, in the order of the reads. *)
Record env : Type := {
  inference_result : json;   (* what self.gpt5.infer returns *)
  report_now : Z;            (* int(time.time()) *)
  walrus_store : pystr -> WalrusCLI.completed;  (* the walrus store command *)
  tee_env : TEESignatureGenerator.env           (* read by create_tee_proof *)
}.

(** [validate_output(output)] on whatever value the model sent. The
    membership tests of its loop also work on a sequence and on a text;
    [output["resolution"]] then raises [TypeError], as the first test
    does on every other value. *)
Definition validate_output_value (output : json) : result bool :=
  match output with
  | JDict d => GPT5Inference.validate_output d
  | _ =>
      has_resolution <- GPT5Inference.str_in (py "resolution") output ;;
      if negb has_resolution then Ok false
      else
        has_sources <- GPT5Inference.str_in (py "sources") output ;;
        if negb has_sources then Ok false
        else
          has_rationale <- GPT5Inference.str_in (py "rationale") output ;;
          if negb has_rationale then Ok false
          else Raise TypeError
  end.

(** [{**x, ...}] wants a mapping. *)
Definition mapping (x : json) : result dict :=
  match x with
  | JDict d => Ok d
  | _ => Raise TypeError
  end.

(** ["SIMULATED_" + sha256(json.dumps(bundle).encode()).hexdigest()[:32]] *)
Definition simulated_blob_id (bundle : json) : result pystr :=
  data <- utf8_encode (Json.dumps opts_default bundle) ;;
  Ok (py "SIMULATED_" ++ firstn 32 (sha256_hex data)).

(** ["0x" + hashlib.sha256(b"parser_v1").hexdigest()] *)
Definition parser_hash : pystr := py "0x" ++ sha256_hex (py "parser_v1").

(** [create_resolution_report] from the point where [infer] has
    returned: the validation of the output, the evidence bundle, the
    upload or its simulation, the proof and the final report. The
    question and the resolution criteria are used before that point
    only. *)
Definition create_resolution_report (self : t) (e : env)
    (market_id category : pystr) (round_number : Z) : outcome dict :=
  let result := inference_result e in
  (* the progress line formats inference_result['metadata']['tokens_used'] *)
  inference_metadata <~ lift (GPT5Inference.getitem result (py "metadata")) ;;
  _ <~ lift (GPT5Inference.getitem inference_metadata (py "tokens_used")) ;;
  output <~ lift (GPT5Inference.getitem result (py "output")) ;;
  is_valid <~ lift (validate_output_value output) ;;
  if negb is_valid then Raised ValueError
  else
    let timestamp := report_now e in
    unpacked <~ lift (mapping inference_metadata) ;;
    let metadata :=
      JsonDecoder.dict_set
        (JsonDecoder.dict_set
           (JsonDecoder.dict_set unpacked (py "timestamp") (JInt timestamp))
           (py "market_id") (JStr market_id))
        (py "category") (JStr category) in
    inference_input <~ lift (GPT5Inference.getitem result (py "input")) ;;
    let evidence_bundle :=
      WalrusUploader.create_evidence_bundle inference_input output metadata in
    ids <~ (if enable_walrus_upload self
            then WalrusCLI.upload_to_walrus (walrus_store e)
                   (JDict evidence_bundle)
            else
              blob_id <~ lift (simulated_blob_id (JDict evidence_bundle)) ;;
              blob_hash <~
                lift (WalrusUploader.hash_bundle (JDict evidence_bundle)) ;;
              Returned (blob_id, blob_hash)) ;;
    tee_proof <~
      lift (TEESignatureGenerator.create_tee_proof
              (tee_signer self) (tee_env e) inference_input output
              (fst ids) (snd ids)) ;;
    prompt_hash <~
      lift (GPT5Inference.getitem inference_metadata (py "prompt_hash")) ;;
    schema_hash <~
      lift (hash_text (Json.dumps opts_default config.RESOLUTION_SCHEMA)) ;;
    resolution <~ lift (GPT5Inference.getitem output (py "resolution")) ;;
    sources <~ lift (GPT5Inference.getitem output (py "sources")) ;;
    rationale <~ lift (GPT5Inference.getitem output (py "rationale")) ;;
    Returned
      [ (py "round", JInt round_number);
        (py "task", JStr (py "binary"));
        (py "resolution", resolution);
        (py "sources", sources);
        (py "rationale", rationale);
        (py "controls",
         JDict [ (py "model_id", JStr config.GPT5_MODEL);
                 (py "prompt_hash", prompt_hash);
                 (py "parser_hash", JStr parser_hash);
                 (py "schema_hash", JStr schema_hash) ]);
        (py "tee_proof", JDict tee_proof) ].

End TEEReporter.

(** An inference result of the shape [infer] builds, a reporter in
    simulation mode and an environment for it. *)
Definition inference_example : json :=
  JDict
    [ (py "input",
       JDict [ (py "question", JStr (py "Will BTC exceed $100,000?"));
               (py "sources",
                JList [JDict [ (py "id", JStr (py "coingecko:btc"));
                               (py "url", JStr (py "https://www.coingecko.com"));
                               (py "data", JStr (py "BTC price: $95,180")) ]]);
               (py "resolution_criteria", JStr (py "Average of sources")) ]);
      (py "output",
       JDict [ (py "resolution",
                JDict [(py "value", JInt 0);
                       (py "confidence", JFloat (py "0.95"))]);
               (py "sources", JList []);
               (py "rationale", JStr (py "Below the threshold.")) ]);
      (py "metadata",
       JDict [ (py "model", JStr config.GPT5_MODEL);
               (py "prompt_hash", JStr (py "0xabc"));
               (py "tokens_used", JInt 512);
               (py "finish_reason", JStr (py "stop")) ]) ].

Definition reporter_example : TEEReporter.t :=
  {| TEEReporter.tee_signer := signer_example;
     TEEReporter.enable_walrus_upload := false |}.

Definition reporter_env_example : TEEReporter.env :=
  {| TEEReporter.inference_result := inference_example;
     TEEReporter.report_now := 1700000000;
     TEEReporter.walrus_store := store_example;
     TEEReporter.tee_env := env_example |}.

(** The shape of the value [infer] returns when the model's output
    passes [validate_output]: the three entries, the output and the
    metadata mappings, and in the metadata the two entries the report
    reads. *)
Definition inference_shape (v : json) : bool :=
  match v with
  | JDict r =>
      match dict_lookup r (py "input"), dict_lookup r (py "output"),
            dict_lookup r (py "metadata") with
      | Some _, Some (JDict output), Some (JDict metadata) =>
          dict_contains metadata (py "tokens_used")
          && dict_contains metadata (py "prompt_hash")
          && match GPT5Inference.validate_output output with
             | Ok true => true
             | _ => false
             end
      | _, _, _ => false
      end
  | _ => false
  end.

(** The metadata of the evidence bundle: the entries of the inference
    metadata, then (or in their place) the three of the report. *)
Definition bundle_metadata (inference_metadata : dict) (timestamp : Z)
    (market_id category : pystr) : dict :=
  JsonDecoder.dict_set
    (JsonDecoder.dict_set
       (JsonDecoder.dict_set inference_metadata (py "timestamp") (JInt timestamp))
       (py "market_id") (JStr market_id))
    (py "category") (JStr category).

(** Lower case of the ASCII letters, for the examples. *)
Definition ascii_lower (s : pystr) : pystr :=
  map (fun c => if (65 <=? c) && (c <=? 90) then c + 32 else c) s.

(* ================================================================== *)
(** * Part II: properties                                              *)
(* ================================================================== *)

(** ** Strings and results *)

Lemma str_eqb_eq (a b : pystr) : str_eqb a b = true <-> a = b.
Proof.
  revert b; induction a as [|x a IH]; intros [|y b]; simpl;
    try (split; [discriminate | discriminate]); try tauto.
  rewrite andb_true_iff, Z.eqb_eq, IH.
  split; [intros [-> ->]; reflexivity | intros H; inversion H; auto].
Qed.

Lemma str_eqb_refl (a : pystr) : str_eqb a a = true.
Proof. apply str_eqb_eq; reflexivity. Qed.

Lemma str_eqb_neq (a b : pystr) : str_eqb a b = false <-> a <> b.
Proof.
  rewrite <- str_eqb_eq. destruct (str_eqb a b); split; congruence.
Qed.

Lemma startswith_app (a b : pystr) : startswith (a ++ b) a = true.
Proof.
  induction a as [|x a IH]; simpl; [reflexivity|].
  now rewrite Z.eqb_refl, IH.
Qed.

Lemma bind_ok {A B} (r : result A) (k : A -> result B) (b : B) :
  bind r k = Ok b -> exists a, r = Ok a /\ k a = Ok b.
Proof. destruct r as [a|e]; simpl; [eauto | discriminate]. Qed.

Lemma Ok_inj {A} (a b : A) : Ok a = Ok b -> a = b.
Proof. intros H. injection H as H. exact H. Qed.

Ltac inv_bind H :=
  let a := fresh "x" in
  let Ha := fresh "Hx" in
  apply bind_ok in H; destruct H as (a & Ha & H).

(** ** C10: the evidence bundle *)

(** C10. [create_evidence_bundle] returns exactly the five members
    version, timestamp, input, output and metadata, in that order:
    version is the text 1.0, timestamp is [metadata["timestamp"]] when
    that key is present and the integer 0 when it is absent, and the
    three arguments are embedded unchanged. *)
Theorem create_evidence_bundle_shape (i o : json) (m : dict) :
  let b := WalrusUploader.create_evidence_bundle i o m in
  keys b = [py "version"; py "timestamp"; py "input"; py "output"; py "metadata"]
  /\ dict_lookup b (py "version") = Some (JStr (py "1.0"))
  /\ dict_lookup b (py "timestamp")
     = Some (match dict_lookup m (py "timestamp") with
             | Some t => t
             | None => JInt 0
             end)
  /\ dict_lookup b (py "input") = Some i
  /\ dict_lookup b (py "output") = Some o
  /\ dict_lookup b (py "metadata") = Some (JDict m).
Proof.
  cbv zeta. unfold WalrusUploader.create_evidence_bundle, dict_get.
  repeat split; reflexivity.
Qed.

(** ** C5: the public summary *)

Lemma public_summary_produced (e : dict) (m : pystr) :
  (if tee_attestation_ok e
   then exists s, SealEncryptor._create_public_summary e m = Ok s
   else SealEncryptor._create_public_summary e m = Raise AttributeError).
Proof.
  unfold tee_attestation_ok, SealEncryptor._create_public_summary, dict_get.
  destruct (dict_lookup e (py "tee_attestation")) as [[]|]; simpl; eauto.
Qed.

Lemma public_summary_keys (e : dict) (m : pystr) (s : dict) :
  SealEncryptor._create_public_summary e m = Ok s -> keys s = allow_list.
Proof.
  unfold SealEncryptor._create_public_summary. intros H.
  inv_bind H. injection H as <-. reflexivity.
Qed.

(** C5. For two evidence objects and one market id, the summaries that
    are produced have the same key set, which is the fixed allow-list;
    rationale, sources and reasoning are not among the keys, and a key of
    the evidence appears only if the allow-list names it. *)
Theorem public_summary_allow_list
    (e1 e2 : dict) (m : pystr) (s1 s2 : dict) :
  SealEncryptor._create_public_summary e1 m = Ok s1 ->
  SealEncryptor._create_public_summary e2 m = Ok s2 ->
  keys s1 = keys s2
  /\ keys s1 = allow_list
  /\ ~ In (py "rationale") (keys s1)
  /\ ~ In (py "sources") (keys s1)
  /\ ~ In (py "reasoning") (keys s1)
  /\ (forall k, In k (keys e1) -> In k (keys s1) -> In k allow_list).
Proof.
  intros H1 H2.
  apply public_summary_keys in H1, H2. rewrite H1, H2.
  split; [reflexivity|]. split; [reflexivity|].
  repeat (split;
          [intros H; repeat (destruct H as [H|H]; [discriminate H|]); exact H|]).
  intros k _ Hk; exact Hk.
Qed.

(** The summaries of the example evidence and of the empty evidence. *)
Lemma public_summary_allow_list_witness :
  exists s1 s2,
    keys s1 = keys s2 /\ keys s1 = allow_list
    /\ ~ In (py "rationale") (keys s1)
    /\ ~ In (py "sources") (keys s1)
    /\ ~ In (py "reasoning") (keys s1)
    /\ (forall k, In k (keys evidence_example) -> In k (keys s1) ->
                  In k allow_list).
Proof.
  eexists _, _.
  apply (public_summary_allow_list evidence_example [] (py "0xmarket123"));
    reflexivity.
Defined.

(** ** C8: validation of the inference output *)

(** C8, counterexample. An output whose sources are an empty sequence
    and whose rationale is the empty text passes [validate_output]. *)
Lemma validate_output_accepts_empty :
  dict_lookup output_with_empty_sources_and_rationale (py "sources")
    = Some (JList [])
  /\ dict_lookup output_with_empty_sources_and_rationale (py "rationale")
    = Some (JStr [])
  /\ GPT5Inference.validate_output output_with_empty_sources_and_rationale
    = Ok true.
Proof. repeat split; vm_compute; reflexivity. Qed.

Lemma dict_contains_lookup (d : dict) (k : pystr) :
  dict_contains d k = true <-> exists v, dict_lookup d k = Some v.
Proof.
  unfold dict_contains. destruct (dict_lookup d k); split; eauto;
    try discriminate. intros [v H]; discriminate.
Qed.

(** C8, amended. [validate_output] returns [True] exactly when the keys
    resolution, sources and rationale are present, resolution is a
    mapping with a value and a confidence, the confidence is a number in
    [0, 1] and the value equals 0 or 1. The contents of sources and of
    rationale take no part in the result. *)
Theorem validate_output_spec (output : dict) :
  GPT5Inference.validate_output output = Ok true <-> output_accepted output.
Proof.
  unfold GPT5Inference.validate_output, output_accepted,
    GPT5Inference.required_fields.
  cbn [forallb]. rewrite andb_true_r.
  split.
  - destruct (dict_contains output (py "resolution")) eqn:Hres;
      [|cbn; discriminate].
    destruct (dict_contains output (py "sources")) eqn:Hsrc;
      [|cbn; discriminate].
    destruct (dict_contains output (py "rationale")) eqn:Hrat;
      [|cbn; discriminate].
    cbn [andb negb]. intros H.
    inv_bind H. cbn [GPT5Inference.getitem] in Hx.
    destruct (dict_lookup output (py "resolution")) as [res|] eqn:Hlook;
      [|discriminate]. injection Hx as <-.
    inv_bind H. rename x into has_value.
    destruct has_value.
    2:{ inv_bind H. cbn in H. discriminate. }
    inv_bind H. rename x into has_conf.
    destruct has_conf; [|cbn in H; discriminate].
    cbn [negb orb] in H.
    inv_bind H. rename x into conf.
    destruct res; cbn [GPT5Inference.getitem] in Hx1; try discriminate.
    inv_bind H. rename x into lo.
    destruct lo.
    2:{ inv_bind H. injection Hx3 as <-. cbn in H. discriminate. }
    inv_bind H. rename x into hi.
    destruct hi; [|cbn in H; discriminate].
    cbn [andb negb] in H.
    inv_bind H. rename x into val.
    cbn [GPT5Inference.getitem] in Hx4.
    destruct (py_eq_int val 0 || py_eq_int val 1) eqn:Hval;
      [|cbn in H; discriminate].
    destruct (dict_lookup items (py "confidence")) as [c|] eqn:Hc;
      [|discriminate].
    destruct (dict_lookup items (py "value")) as [v|] eqn:Hv;
      [|discriminate].
    cbn [of_option] in Hx1, Hx4. injection Hx1 as <-. injection Hx4 as <-.
    repeat split; auto.
    exists items, c, v. repeat split; auto.
  - intros (Hsrc & Hrat & res & c & v & Hres & Hv & Hc & Hlo & Hhi & Hval).
    assert (Hres' : dict_contains output (py "resolution") = true)
      by (apply dict_contains_lookup; eauto).
    rewrite Hres', Hsrc, Hrat. cbn [andb negb].
    cbn [GPT5Inference.getitem]. rewrite Hres. cbn [of_option bind].
    cbn [GPT5Inference.str_in]. unfold dict_contains at 1. rewrite Hv.
    cbn [bind]. unfold dict_contains at 1. rewrite Hc. cbn [bind negb orb].
    cbn [GPT5Inference.getitem]. rewrite Hc. cbn [of_option bind]. rewrite Hlo. cbn [bind].
    rewrite Hhi. cbn [bind andb negb]. rewrite Hv. cbn [of_option bind].
    rewrite Hval. reflexivity.
Qed.

(** ** UTF-8: decoding inverts encoding *)

Ltac zdm := Z.div_mod_to_equations; lia.

Ltac bool_ranges :=
  repeat match goal with
  | |- context [(?a <=? ?b) && (?c <=? ?d)] =>
      first [ replace ((a <=? b) && (c <=? d)) with true
                by (symmetry; apply andb_true_iff; split; apply Z.leb_le; lia)
            | replace ((a <=? b) && (c <=? d)) with false
                by (symmetry; apply andb_false_iff;
                    first [left; apply Z.leb_gt; lia
                          | right; apply Z.leb_gt; lia]) ]
  | |- context [(?a <=? ?b) && (?c <? ?d)] =>
      first [ replace ((a <=? b) && (c <? d)) with true
                by (symmetry; apply andb_true_iff; split;
                    [apply Z.leb_le | apply Z.ltb_lt]; lia)
            | replace ((a <=? b) && (c <? d)) with false
                by (symmetry; apply andb_false_iff;
                    first [left; apply Z.leb_gt; lia
                          | right; apply Z.ltb_ge; lia]) ]
  end.

Lemma utf8_decode_1 (b1 : Z) (r : bytes) :
  0 <= b1 < 128 ->
  utf8_decode (b1 :: r) = (s <- utf8_decode r ;; Ok (b1 :: s)).
Proof. intros H. cbn [utf8_decode]. bool_ranges. reflexivity. Qed.

Lemma utf8_decode_2 (b1 b2 : Z) (r : bytes) :
  194 <= b1 <= 223 -> 128 <= b2 <= 191 ->
  utf8_decode (b1 :: b2 :: r)
  = (s <- utf8_decode r ;; Ok ((b1 - 192) * 64 + (b2 - 128) :: s)).
Proof.
  intros H1 H2. cbn [utf8_decode]. unfold is_cont. bool_ranges. reflexivity.
Qed.

Lemma utf8_decode_3 (b1 b2 b3 : Z) (r : bytes) :
  224 <= b1 <= 239 -> 128 <= b2 <= 191 -> 128 <= b3 <= 191 ->
  ~ (b1 = 224 /\ b2 < 160) -> ~ (b1 = 237 /\ 160 <= b2) ->
  utf8_decode (b1 :: b2 :: b3 :: r)
  = (s <- utf8_decode r ;;
     Ok ((b1 - 224) * 4096 + (b2 - 128) * 64 + (b3 - 128) :: s)).
Proof.
  intros H1 H2 H3 Hv1 Hv2. cbn [utf8_decode]. unfold is_cont. bool_ranges.
  replace ((b1 =? 224) && (b2 <? 160)) with false.
  2:{ symmetry; apply andb_false_iff.
      destruct (Z.eq_dec b1 224); [right; apply Z.ltb_ge; lia
                                  | left; apply Z.eqb_neq; lia]. }
  replace ((b1 =? 237) && (160 <=? b2)) with false.
  2:{ symmetry; apply andb_false_iff.
      destruct (Z.eq_dec b1 237); [right; apply Z.leb_gt; lia
                                  | left; apply Z.eqb_neq; lia]. }
  reflexivity.
Qed.

Lemma utf8_decode_4 (b1 b2 b3 b4 : Z) (r : bytes) :
  240 <= b1 <= 244 ->
  128 <= b2 <= 191 -> 128 <= b3 <= 191 -> 128 <= b4 <= 191 ->
  ~ (b1 = 240 /\ b2 < 144) -> ~ (b1 = 244 /\ 144 <= b2) ->
  utf8_decode (b1 :: b2 :: b3 :: b4 :: r)
  = (s <- utf8_decode r ;;
     Ok ((b1 - 240) * 262144 + (b2 - 128) * 4096
         + (b3 - 128) * 64 + (b4 - 128) :: s)).
Proof.
  intros H1 H2 H3 H4 Hv1 Hv2. cbn [utf8_decode]. unfold is_cont. bool_ranges.
  replace ((b1 =? 240) && (b2 <? 144)) with false.
  2:{ symmetry; apply andb_false_iff.
      destruct (Z.eq_dec b1 240); [right; apply Z.ltb_ge; lia
                                  | left; apply Z.eqb_neq; lia]. }
  replace ((b1 =? 244) && (144 <=? b2)) with false.
  2:{ symmetry; apply andb_false_iff.
      destruct (Z.eq_dec b1 244); [right; apply Z.leb_gt; lia
                                  | left; apply Z.eqb_neq; lia]. }
  reflexivity.
Qed.

Lemma andb_range (a c b : Z) :
  (a <=? c) && (c <? b) = true -> a <= c < b.
Proof.
  intros H. apply andb_true_iff in H as [Ha Hb].
  apply Z.leb_le in Ha. apply Z.ltb_lt in Hb. lia.
Qed.

Lemma utf8_decode_cp (c : Z) (b rest : bytes) :
  utf8_encode_cp c = Ok b ->
  utf8_decode (b ++ rest) = (s <- utf8_decode rest ;; Ok (c :: s)).
Proof.
  unfold utf8_encode_cp.
  destruct ((0 <=? c) && (c <? 128)) eqn:H1.
  { intros H; apply Ok_inj in H; subst b. apply andb_range in H1.
    unfold app. now rewrite utf8_decode_1. }
  destruct ((128 <=? c) && (c <? 2048)) eqn:H2.
  { intros H; apply Ok_inj in H; subst b. apply andb_range in H2.
    unfold app. rewrite utf8_decode_2 by zdm.
    replace ((192 + c / 64 - 192) * 64 + (128 + c mod 64 - 128)) with c by zdm.
    reflexivity. }
  destruct ((2048 <=? c) && (c <? 65536)) eqn:H3.
  { destruct ((55296 <=? c) && (c <=? 57343)) eqn:Hs; [discriminate|].
    intros H; apply Ok_inj in H; subst b. apply andb_range in H3.
    assert (Hsur : c < 55296 \/ 57343 < c).
    { apply andb_false_iff in Hs as [Hs|Hs]; apply Z.leb_gt in Hs; lia. }
    unfold app. rewrite utf8_decode_3 by zdm.
    replace ((224 + c / 4096 - 224) * 4096
             + (128 + (c / 64) mod 64 - 128) * 64
             + (128 + c mod 64 - 128)) with c by zdm.
    reflexivity. }
  destruct ((65536 <=? c) && (c <? 1114112)) eqn:H4; [|discriminate].
  intros H; apply Ok_inj in H; subst b. apply andb_range in H4.
  unfold app. rewrite utf8_decode_4 by zdm.
  replace ((240 + c / 262144 - 240) * 262144
           + (128 + (c / 4096) mod 64 - 128) * 4096
           + (128 + (c / 64) mod 64 - 128) * 64
           + (128 + c mod 64 - 128)) with c by zdm.
  reflexivity.
Qed.

Lemma utf8_decode_encode (s : pystr) (bs : bytes) :
  utf8_encode s = Ok bs -> utf8_decode bs = Ok s.
Proof.
  revert bs; induction s as [|c s IH]; intros bs; cbn [utf8_encode].
  - intros [= <-]. reflexivity.
  - intros H. inv_bind H. inv_bind H. injection H as <-.
    rewrite (utf8_decode_cp _ _ _ Hx), (IH _ Hx0). reflexivity.
Qed.

Lemma utf8_encode_inj (s1 s2 : pystr) (bs : bytes) :
  utf8_encode s1 = Ok bs -> utf8_encode s2 = Ok bs -> s1 = s2.
Proof.
  intros H1 H2. apply utf8_decode_encode in H1, H2. congruence.
Qed.

(** ** Decimal text of integers *)

Lemma digits_of_uint_digits (u : Decimal.uint) :
  Forall digit_char (digits_of_uint u).
Proof.
  induction u; cbn [digits_of_uint]; constructor; auto; unfold digit_char; lia.
Qed.

Lemma uint_of_digits_of_uint (u : Decimal.uint) :
  uint_of_digits (digits_of_uint u) = u.
Proof.
  induction u; cbn [digits_of_uint uint_of_digits]; rewrite ?IHu; reflexivity.
Qed.

Lemma digits_of_uint_inj (u v : Decimal.uint) :
  digits_of_uint u = digits_of_uint v -> u = v.
Proof.
  intros H. rewrite <- (uint_of_digits_of_uint u), H.
  apply uint_of_digits_of_uint.
Qed.

Lemma str_of_int_chars (z : Z) :
  Forall (fun c => c = 45 \/ digit_char c) (str_of_int z).
Proof.
  unfold str_of_int. destruct (Z.to_int z) as [u|u].
  - eapply Forall_impl; [|apply digits_of_uint_digits]. auto.
  - constructor; [auto|].
    eapply Forall_impl; [|apply digits_of_uint_digits]. auto.
Qed.

Lemma str_of_int_inj (z1 z2 : Z) : str_of_int z1 = str_of_int z2 -> z1 = z2.
Proof.
  unfold str_of_int. intros H. apply DecimalZ.to_int_inj.
  destruct (Z.to_int z1) as [u|u], (Z.to_int z2) as [v|v].
  - f_equal. now apply digits_of_uint_inj.
  - exfalso. pose proof (digits_of_uint_digits u) as Hd. rewrite H in Hd.
    inversion Hd as [|? ? Hc]; subst. unfold digit_char in Hc. lia.
  - exfalso. pose proof (digits_of_uint_digits v) as Hd. rewrite <- H in Hd.
    inversion Hd as [|? ? Hc]; subst. unfold digit_char in Hc. lia.
  - f_equal. injection H as H. now apply digits_of_uint_inj.
Qed.

Lemma int_of_str_of_int (z : Z) : int_of_str (str_of_int z) = z.
Proof.
  unfold str_of_int, int_of_str.
  pose proof (DecimalZ.of_to z) as Hz.
  destruct (Z.to_int z) as [u|u] eqn:Hu.
  - destruct (digits_of_uint u) as [|c r] eqn:Hd.
    + assert (u = Decimal.Nil) by (destruct u; cbn in Hd; congruence).
      subst u. rewrite <- Hz. reflexivity.
    + pose proof (digits_of_uint_digits u) as Hf. rewrite Hd in Hf.
      apply Forall_inv in Hf. unfold digit_char in Hf.
      rewrite (proj2 (Z.eqb_neq c 45)) by lia.
      rewrite <- Hd, uint_of_digits_of_uint. exact Hz.
  - rewrite Z.eqb_refl, uint_of_digits_of_uint. exact Hz.
Qed.

Lemma str_of_int_bar_free (z : Z) : bar_free (str_of_int z).
Proof.
  intros Hin. pose proof (str_of_int_chars z) as Hf.
  rewrite Forall_forall in Hf. specialize (Hf _ Hin).
  unfold digit_char in Hf. lia.
Qed.

(** ** C1: the text hashed by the digest builder *)

Lemma split_at_bar (a a' r r' : pystr) :
  bar_free a -> bar_free a' ->
  a ++ 124 :: r = a' ++ 124 :: r' -> a = a' /\ r = r'.
Proof.
  unfold bar_free. revert a'.
  induction a as [|x a IH]; intros [|y a'] Ha Ha'; cbn [app]; intros H.
  - injection H as <-. auto.
  - injection H as <- _. exfalso. apply Ha'. now left.
  - injection H as -> _. exfalso. apply Ha. now left.
  - injection H as -> H.
    destruct (IH a') as [-> ->]; auto.
    + intros Hin. apply Ha. now right.
    + intros Hin. apply Ha'. now right.
Qed.

Lemma fields_text_unfold (f : report_fields) :
  fields_text f
  = f_h_in f ++ 124 :: 124 :: f_h_out f ++ 124 :: 124 :: f_blob_id f
    ++ 124 :: 124 :: f_blob_hash f ++ 124 :: 124 :: str_of_int (f_timestamp f)
    ++ 124 :: 124 :: f_nonce f ++ 124 :: 124 :: f_enclave_id f
    ++ 124 :: 124 :: f_mrenclave f.
Proof. reflexivity. Qed.

Lemma fields_text_inj (f g : report_fields) :
  fields_bar_free f -> fields_bar_free g ->
  fields_text f = fields_text g -> f = g.
Proof.
  intros (F1 & F2 & F3 & F4 & F5 & F6 & F7) (G1 & G2 & G3 & G4 & G5 & G6 & G7).
  rewrite !fields_text_unfold. intros H.
  pose proof (str_of_int_bar_free (f_timestamp f)) as Ft.
  pose proof (str_of_int_bar_free (f_timestamp g)) as Gt.
  apply split_at_bar in H as [E1 H]; auto. injection H as H.
  apply split_at_bar in H as [E2 H]; auto. injection H as H.
  apply split_at_bar in H as [E3 H]; auto. injection H as H.
  apply split_at_bar in H as [E4 H]; auto. injection H as H.
  apply split_at_bar in H as [E5 H]; auto. injection H as H.
  apply split_at_bar in H as [E6 H]; auto. injection H as H.
  apply split_at_bar in H as [E7 H]; auto. injection H as H.
  apply str_of_int_inj in E5.
  destruct f, g; cbn in *; congruence.
Qed.

(** C1, counterexample. Two distinct field tuples, one with a delimiter
    inside [h_in] and one with it inside [h_out], are joined to the same
    text, so the same bytes reach the hash and the digests are equal. *)
Lemma digest_fields_collide :
  fields_shifted_left <> fields_shifted_right
  /\ fields_prehash fields_shifted_left = fields_prehash fields_shifted_right
  /\ fields_digest fields_shifted_left = fields_digest fields_shifted_right.
Proof.
  split; [discriminate|]. split; vm_compute; reflexivity.
Qed.

(** C1, amended. The text handed to the hash is the eight components
    joined by two vertical bars. On tuples whose seven text components
    contain no vertical bar the join is injective: two distinct tuples
    give distinct byte strings to the hash. *)
Theorem digest_prehash_injective (f g : report_fields) (bf bg : bytes) :
  fields_bar_free f -> fields_bar_free g ->
  fields_prehash f = Ok bf -> fields_prehash g = Ok bg ->
  f <> g -> bf <> bg.
Proof.
  intros Hf Hg Ef Eg Hne Heq. subst bg. apply Hne.
  apply fields_text_inj; auto.
  unfold fields_prehash in *. eapply utf8_encode_inj; eauto.
Qed.

(** ** The order on keys and the sort of the members *)

Lemma str_leb_total (a b : pystr) :
  Json.str_leb a b = true \/ Json.str_leb b a = true.
Proof.
  revert b; induction a as [|x a IH]; intros [|y b]; cbn; auto.
  destruct (Z.lt_trichotomy x y) as [H|[H|H]].
  - left. rewrite (proj2 (Z.ltb_lt x y)) by lia. reflexivity.
  - subst y. rewrite Z.ltb_irrefl, Z.eqb_refl. cbn. apply IH.
  - right. rewrite (proj2 (Z.ltb_lt y x)) by lia. reflexivity.
Qed.

Lemma str_leb_antisym (a b : pystr) :
  Json.str_leb a b = true -> Json.str_leb b a = true -> a = b.
Proof.
  revert b; induction a as [|x a IH]; intros [|y b]; cbn; try discriminate;
    auto.
  intros H1 H2.
  apply orb_true_iff in H1 as [H1|H1], H2 as [H2|H2];
    rewrite ?andb_true_iff, ?Z.ltb_lt, ?Z.eqb_eq in *; try lia.
  destruct H1 as [-> H1], H2 as [_ H2]. f_equal. auto.
Qed.

Lemma str_leb_trans (a b c : pystr) :
  Json.str_leb a b = true -> Json.str_leb b c = true ->
  Json.str_leb a c = true.
Proof.
  revert b c; induction a as [|x a IH]; intros [|y b] [|z c]; cbn;
    try discriminate; auto.
  intros H1 H2.
  apply orb_true_iff in H1 as [H1|H1], H2 as [H2|H2];
    rewrite ?andb_true_iff, ?Z.ltb_lt, ?Z.eqb_eq in *;
    apply orb_true_iff; rewrite ?andb_true_iff, ?Z.ltb_lt, ?Z.eqb_eq.
  - left; lia.
  - left; lia.
  - left; lia.
  - right. destruct H1 as [-> H1], H2 as [-> H2]. split; eauto.
Qed.

Section sorting.
Context {A : Type}.
Implicit Types (x y : pystr * A) (l : list (pystr * A)).

Lemma insert_item_comm x y l :
  fst x <> fst y ->
  Json.insert_item x (Json.insert_item y l)
  = Json.insert_item y (Json.insert_item x l).
Proof.
  intros Hne.
  assert (Hxy : Json.str_leb (fst x) (fst y) = true ->
                Json.str_leb (fst y) (fst x) = false).
  { intros H. destruct (Json.str_leb (fst y) (fst x)) eqn:E; auto.
    exfalso. apply Hne. now apply str_leb_antisym. }
  assert (Hyx : Json.str_leb (fst x) (fst y) = false ->
                Json.str_leb (fst y) (fst x) = true).
  { intros H. destruct (str_leb_total (fst x) (fst y)); congruence. }
  induction l as [|e l IH]; cbn [Json.insert_item].
  - destruct (Json.str_leb (fst x) (fst y)) eqn:E.
    + now rewrite (Hxy eq_refl).
    + now rewrite (Hyx eq_refl).
  - destruct (Json.str_leb (fst y) (fst e)) eqn:Eye,
             (Json.str_leb (fst x) (fst e)) eqn:Exe.
    + destruct (Json.str_leb (fst x) (fst y)) eqn:E.
      * cbn [Json.insert_item]. now rewrite E, (Hxy eq_refl), Eye.
      * cbn [Json.insert_item]. now rewrite E, (Hyx eq_refl), Exe.
    + assert (E : Json.str_leb (fst x) (fst y) = false).
      { destruct (Json.str_leb (fst x) (fst y)) eqn:E; auto.
        rewrite (str_leb_trans _ _ _ E Eye) in Exe. discriminate. }
      cbn [Json.insert_item]. now rewrite E, Exe, Eye.
    + assert (E : Json.str_leb (fst y) (fst x) = false).
      { destruct (Json.str_leb (fst y) (fst x)) eqn:E; auto.
        rewrite (str_leb_trans _ _ _ E Exe) in Eye. discriminate. }
      cbn [Json.insert_item]. now rewrite E, Exe, Eye.
    + cbn [Json.insert_item]. now rewrite Exe, Eye, IH.
Qed.

Lemma sort_items_perm l1 l2 :
  Permutation l1 l2 -> NoDup (map fst l1) ->
  Json.sort_items l1 = Json.sort_items l2.
Proof.
  induction 1 as [|x l1 l2 Hp IH|x y l|l1 l2 l3 H12 IH12 H23 IH23];
    intros Hnd; cbn [Json.sort_items].
  - reflexivity.
  - cbn in Hnd. inversion Hnd; subst. now rewrite IH.
  - cbn in Hnd. apply insert_item_comm.
    inversion Hnd as [|? ? Hin _]; subst. intros E. apply Hin. now left.
  - rewrite IH12 by assumption. apply IH23.
    eapply Permutation_NoDup; [|exact Hnd]. now apply Permutation_map.
Qed.
End sorting.

Lemma distinct_NoDup (l : list pystr) : distinct l = true -> NoDup l.
Proof.
  induction l as [|k l IH]; cbn [distinct]; intros H; constructor.
  - apply andb_true_iff in H as [H _]. apply negb_true_iff in H.
    intros Hin. apply not_true_iff_false in H. apply H.
    apply existsb_exists. exists k. split; [exact Hin|apply str_eqb_refl].
  - apply IH. now apply andb_true_iff in H as [_ H].
Qed.

(** ** C4: key order does not reach the canonical text *)

Lemma encode_key_permuted (o : Json.options) :
  Json.sort_keys o = true ->
  forall v1 v2 level,
    unique_keys v1 = true -> key_permuted v1 v2 ->
    Json.encode o level v1 = Json.encode o level v2.
Proof.
  intros Hsort v1.
  induction v1 as [| | | | |l IH|d IH] using json_ind;
    intros v2 level Huk Hkp; inversion Hkp; subst; try reflexivity.
  - (* sequences *)
    cbn [Json.encode]. f_equal.
    cbn [unique_keys] in Huk. rewrite forallb_forall in Huk.
    match goal with H : Forall2 key_permuted _ _ |- _ => rename H into HF end.
    clear Hkp. induction HF as [|x y l l' Hxy HF IHF]; cbn [map]; [reflexivity|].
    inversion IH; subst. f_equal.
    + match goal with H : forall _ _, _ -> _ -> _ = _ |- _ => apply H end; auto.
      apply Huk. now left.
    + apply IHF; auto. intros z Hz. apply Huk. now right.
  - (* mappings *)
    cbn [Json.encode]. rewrite Hsort.
    match goal with H : Permutation _ _ |- _ => rename H into HP end.
    match goal with H : Forall2 _ _ _ |- _ => rename H into HF end.
    cbn [unique_keys] in Huk. apply andb_true_iff in Huk as [Hd Huk].
    rewrite forallb_forall in Huk.
    set (render := fun kv : pystr * json =>
                     match kv with
                     | (k, x) => (k, Json.encode o (S level) x)
                     end).
    assert (Hmap : map render d0 = map render d2).
    { assert (IH' : Forall (fun kv =>
                unique_keys (snd kv) = true /\
                forall v2 level, unique_keys (snd kv) = true ->
                  key_permuted (snd kv) v2 ->
                  Json.encode o level (snd kv) = Json.encode o level v2) d0).
      { rewrite Forall_forall in IH |- *. intros kv Hin.
        apply Permutation_sym in HP.
        pose proof (Permutation_in _ HP Hin) as Hin1.
        split; [|apply IH; exact Hin1].
        specialize (Huk _ Hin1). destruct kv; exact Huk. }
      clear - HF IH'. induction HF as [|a b l l' [Hk Hab] HF IHF];
        cbn [map]; [reflexivity|].
      inversion IH' as [|? ? [Ha1 Ha2] IH'']; subst. f_equal.
      - destruct a as [ka xa], b as [kb xb]; cbn in *. subst kb.
        f_equal. now apply Ha2.
      - now apply IHF. }
    rewrite <- Hmap.
    rewrite (sort_items_perm (map render d) (map render d0)).
    + reflexivity.
    + now apply Permutation_map.
    + replace (map fst (map render d)) with (keys d).
      * now apply distinct_NoDup.
      * unfold keys. rewrite map_map. apply map_ext. now intros [k x].
Qed.

(** C4, counterexample. The integer 1 and the float 1.0 are equal as
    values, hence structurally equal in the words of the specification,
    and the three functions hash them differently: the text of the
    first is [1], that of the second [1.0]. *)
Lemma equal_scalars_hash_differently :
  structurally_equal (JInt 1) (JFloat (py "1.0"))
  /\ Json.dumps Json.opts_sorted (JInt 1)
     <> Json.dumps Json.opts_sorted (JFloat (py "1.0"))
  /\ TEESignatureGenerator.hash_input (JInt 1)
     <> TEESignatureGenerator.hash_input (JFloat (py "1.0"))
  /\ TEESignatureGenerator.hash_output (JInt 1)
     <> TEESignatureGenerator.hash_output (JFloat (py "1.0"))
  /\ WalrusUploader.hash_bundle (JInt 1)
     <> WalrusUploader.hash_bundle (JFloat (py "1.0")).
Proof.
  split; [apply se_scalar; reflexivity|].
  repeat split; vm_compute; discriminate.
Qed.

(** C4, amended. For a value whose mappings have distinct keys and any
    reordering of the members of its mappings at any depth, with every
    scalar left as it is, [hash_input], [hash_output] and [hash_bundle]
    each return the same digest text, because the text they hash is the
    same. *)
Theorem canonical_hash_key_order_invariant (v1 v2 : json) :
  unique_keys v1 = true -> key_permuted v1 v2 ->
  Json.dumps Json.opts_sorted v1 = Json.dumps Json.opts_sorted v2
  /\ Json.dumps Json.opts_sorted_compact v1
     = Json.dumps Json.opts_sorted_compact v2
  /\ TEESignatureGenerator.hash_input v1 = TEESignatureGenerator.hash_input v2
  /\ TEESignatureGenerator.hash_output v1
     = TEESignatureGenerator.hash_output v2
  /\ WalrusUploader.hash_bundle v1 = WalrusUploader.hash_bundle v2.
Proof.
  intros Huk Hkp.
  assert (H1 : Json.dumps Json.opts_sorted v1 = Json.dumps Json.opts_sorted v2)
    by (apply encode_key_permuted; auto).
  assert (H2 : Json.dumps Json.opts_sorted_compact v1
               = Json.dumps Json.opts_sorted_compact v2)
    by (apply encode_key_permuted; auto).
  unfold TEESignatureGenerator.hash_input, TEESignatureGenerator.hash_output,
    WalrusUploader.hash_bundle.
  rewrite H1, H2. auto.
Qed.

(** A nested value and the same value with its members reordered at
    both depths. *)
Lemma canonical_hash_key_order_invariant_witness :
  Json.dumps Json.opts_sorted nested_example
  = Json.dumps Json.opts_sorted nested_example_reordered
  /\ Json.dumps Json.opts_sorted_compact nested_example
     = Json.dumps Json.opts_sorted_compact nested_example_reordered
  /\ TEESignatureGenerator.hash_input nested_example
     = TEESignatureGenerator.hash_input nested_example_reordered
  /\ TEESignatureGenerator.hash_output nested_example
     = TEESignatureGenerator.hash_output nested_example_reordered
  /\ WalrusUploader.hash_bundle nested_example
     = WalrusUploader.hash_bundle nested_example_reordered.
Proof.
  apply (canonical_hash_key_order_invariant
           nested_example nested_example_reordered).
  - reflexivity.
  - unfold nested_example, nested_example_reordered.
    eapply kp_dict.
    + exact (Permutation_rev
               [ (py "b", JInt 2);
                 (py "a", JDict [(py "y", JList [JInt 1; JNull]);
                                 (py "x", JFloat (py "0.85"))]);
                 (py "c", JStr (py "text")) ]).
    + repeat constructor.
      eapply kp_dict; [apply perm_swap | repeat constructor].
Defined.

(** ** C6: the call sites of the hasher *)

(** C6, counterexample. On the mapping with the single member a = 1 the
    digest of [hash_input] is not the digest of [hash_bundle]: the first
    hashes the text with a space after the colon, the second without. *)
Lemma hash_input_differs_from_hash_bundle :
  TEESignatureGenerator.hash_input one_member
  <> WalrusUploader.hash_bundle one_member.
Proof. vm_compute. discriminate. Qed.

Lemma encode_separator_free (v : json) :
  separator_free v = true ->
  forall level,
    Json.encode Json.opts_sorted level v
    = Json.encode Json.opts_sorted_compact level v.
Proof.
  induction v as [| | | | |l IH|d IH] using json_ind; intros Hsf level;
    try reflexivity.
  - destruct l as [|x [|y l]]; [reflexivity| |discriminate].
    cbn [separator_free] in Hsf. apply Forall_inv in IH.
    cbn [Json.encode map]. unfold Json.container, Json.newline_indent.
    cbn [Json.indent Json.opts_sorted Json.opts_sorted_compact Json.join app].
    now rewrite IH.
  - destruct d; [reflexivity|discriminate].
Qed.

(** ** Lengths of the two compact layouts *)

Lemma join_length (sep : pystr) (parts : list pystr) :
  parts <> [] ->
  (length (Json.join sep parts) + length sep
   = total_length parts + length parts * length sep)%nat.
Proof.
  induction parts as [|p [|q rest] IH]; intros Hne; [congruence| |].
  - cbn. lia.
  - change (Json.join sep (p :: q :: rest))
      with (p ++ sep ++ Json.join sep (q :: rest)).
    rewrite !length_app. cbn [total_length length].
    specialize (IH ltac:(discriminate)). cbn [total_length length] in IH. lia.
Qed.

Lemma total_length_insert {A} (f : pystr * A -> pystr) (x : pystr * A)
    (l : list (pystr * A)) :
  total_length (map f (Json.insert_item x l))
  = (length (f x) + total_length (map f l))%nat.
Proof.
  induction l as [|y l IH]; cbn [Json.insert_item map total_length];
    [reflexivity|].
  destruct (Json.str_leb (fst x) (fst y)); cbn [map total_length]; lia.
Qed.

Lemma total_length_sort {A} (f : pystr * A -> pystr) (l : list (pystr * A)) :
  total_length (map f (Json.sort_items l)) = total_length (map f l).
Proof.
  induction l as [|x l IH]; cbn [Json.sort_items map total_length];
    [reflexivity|].
  now rewrite total_length_insert, IH.
Qed.

Lemma length_insert_item {A} (x : pystr * A) (l : list (pystr * A)) :
  length (Json.insert_item x l) = S (length l).
Proof.
  induction l as [|y l IH]; cbn [Json.insert_item]; [reflexivity|].
  destruct (Json.str_leb (fst x) (fst y)); cbn [length]; lia.
Qed.

Lemma length_sort_items {A} (l : list (pystr * A)) :
  length (Json.sort_items l) = length l.
Proof.
  induction l as [|x l IH]; cbn [Json.sort_items]; [reflexivity|].
  now rewrite length_insert_item, IH.
Qed.

(** The text of a container without indentation. *)
Lemma container_length (o : Json.options) (level : nat)
    (opening closing : Z) (parts : list pystr) :
  Json.indent o = None -> parts <> [] ->
  (length (Json.container o level opening closing parts)
     + length (Json.item_separator o)
   = 2 + total_length parts + length parts * length (Json.item_separator o))%nat.
Proof.
  intros Hi Hne. unfold Json.container, Json.newline_indent. rewrite Hi.
  destruct parts as [|p rest]; [congruence|].
  rewrite List.app_nil_r. cbn [app length]. rewrite length_app. cbn [length].
  pose proof (join_length (Json.item_separator o) (p :: rest) Hne) as Hj.
  cbn [length] in Hj. lia.
Qed.

(** The sorted members of a mapping keep their joint length: the sort
    looks at the keys only. *)
Lemma members_length (o : Json.options) (level : nat) (items : dict) :
  total_length
    (map (fun kt : pystr * pystr =>
            Json.encode_basestring_ascii (fst kt) ++ Json.key_separator o
              ++ snd kt)
       (Json.sort_items
          (map (fun kv : pystr * json =>
                  match kv with (k, x) => (k, Json.encode o (S level) x) end)
             items)))
  = members_total o level items.
Proof.
  rewrite total_length_sort. unfold members_total.
  induction items as [|[k x] items IH]; cbn [map total_length fold_right fst snd];
    [reflexivity|].
  rewrite IH, !length_app. lia.
Qed.

Lemma dict_text_length (o : Json.options) (level : nat) (items : dict) :
  Json.indent o = None -> Json.sort_keys o = true -> items <> [] ->
  (length (Json.encode o level (JDict items)) + length (Json.item_separator o)
   = 2 + members_total o level items
     + length items * length (Json.item_separator o))%nat.
Proof.
  intros Hi Hs Hne. cbn [Json.encode]. rewrite Hs.
  rewrite container_length; [|exact Hi|].
  - rewrite members_length, length_map, length_sort_items, length_map.
    reflexivity.
  - destruct items as [|kv items]; [congruence|].
    intros H. apply (f_equal (@length _)) in H.
    rewrite length_map, length_sort_items, length_map in H. discriminate H.
Qed.

Lemma list_text_length (o : Json.options) (level : nat) (l : list json) :
  Json.indent o = None -> l <> [] ->
  (length (Json.encode o level (JList l)) + length (Json.item_separator o)
   = 2 + total_length (map (Json.encode o (S level)) l)
     + length l * length (Json.item_separator o))%nat.
Proof.
  intros Hi Hne. cbn [Json.encode].
  rewrite container_length; [|exact Hi|].
  - now rewrite length_map.
  - destruct l; [congruence|discriminate].
Qed.

Lemma encode_compact_shorter (v : json) :
  forall level,
    (length (Json.encode Json.opts_sorted_compact level v)
     <= length (Json.encode Json.opts_sorted level v))%nat
    /\ (separator_free v = false ->
        (length (Json.encode Json.opts_sorted_compact level v)
         < length (Json.encode Json.opts_sorted level v))%nat).
Proof.
  induction v as [| | | | |l IH|d IH] using json_ind; intros level;
    try (split; [apply Nat.le_refl | discriminate]).
  - (* sequences *)
    destruct l as [|x l]; [split; [apply Nat.le_refl|discriminate]|].
    pose proof (list_text_length Json.opts_sorted level (x :: l)
                  eq_refl ltac:(discriminate)) as Hs.
    pose proof (list_text_length Json.opts_sorted_compact level (x :: l)
                  eq_refl ltac:(discriminate)) as Hc.
    change (length (Json.item_separator Json.opts_sorted)) with 2%nat in Hs.
    change (length (Json.item_separator Json.opts_sorted_compact))
      with 1%nat in Hc.
    assert (Hparts :
      (total_length (map (Json.encode Json.opts_sorted_compact (S level)) (x :: l))
       <= total_length (map (Json.encode Json.opts_sorted (S level)) (x :: l)))%nat
      /\ (existsb (fun y => negb (separator_free y)) (x :: l) = true ->
          (total_length (map (Json.encode Json.opts_sorted_compact (S level)) (x :: l))
           < total_length (map (Json.encode Json.opts_sorted (S level)) (x :: l)))%nat)).
    { clear Hs Hc. induction IH as [|y l' Hy _ IHl]; cbn [map total_length existsb].
      - split; [lia|discriminate].
      - destruct (Hy (S level)) as [Hle Hlt]. destruct IHl as [Hle' Hlt'].
        split; [lia|]. intros H. apply orb_true_iff in H as [H|H].
        + apply negb_true_iff in H. specialize (Hlt H). lia.
        + specialize (Hlt' H). lia. }
    destruct Hparts as [Hle Hlt]. cbn [length] in Hs, Hc.
    split; [lia|].
    intros Hsf. destruct l as [|y l].
    + cbn [separator_free] in Hsf.
      assert (H : existsb (fun y => negb (separator_free y)) [x] = true)
        by (cbn [existsb]; now rewrite Hsf).
      specialize (Hlt H). lia.
    + cbn [length] in *. lia.
  - (* mappings *)
    destruct d as [|kv d]; [split; [apply Nat.le_refl|discriminate]|].
    pose proof (dict_text_length Json.opts_sorted level (kv :: d)
                  eq_refl eq_refl ltac:(discriminate)) as Hs.
    pose proof (dict_text_length Json.opts_sorted_compact level (kv :: d)
                  eq_refl eq_refl ltac:(discriminate)) as Hc.
    change (length (Json.item_separator Json.opts_sorted)) with 2%nat in Hs.
    change (length (Json.item_separator Json.opts_sorted_compact))
      with 1%nat in Hc.
    assert (Hparts :
      (members_total Json.opts_sorted_compact level (kv :: d)
       + length (kv :: d)
       <= members_total Json.opts_sorted level (kv :: d))%nat).
    { clear Hs Hc. unfold members_total.
      change (length (Json.key_separator Json.opts_sorted)) with 2%nat.
      change (length (Json.key_separator Json.opts_sorted_compact)) with 1%nat.
      induction IH as [|y d' Hy _ IHd]; cbn [fold_right length]; [lia|].
      destruct (Hy (S level)) as [Hle _]. lia. }
    cbn [length] in *. split; [lia|]. intros _. lia.
Qed.

(** The texts of the two layouts are the same exactly on the values
    without a separator. *)
Lemma dumps_compact_iff (v : json) :
  Json.dumps Json.opts_sorted v = Json.dumps Json.opts_sorted_compact v
  <-> separator_free v = true.
Proof.
  split.
  - intros H. destruct (separator_free v) eqn:Hsf; [reflexivity|].
    destruct (encode_compact_shorter v 0) as [_ Hlt]. specialize (Hlt Hsf).
    unfold Json.dumps in H. rewrite H in Hlt. lia.
  - intros H. now apply encode_separator_free.
Qed.

(** C6, amended. [hash_input] and [hash_output] are one function.
    [hash_bundle] writes the separators without the space that the
    other two put after a comma and a colon. The two texts are the same
    exactly on the values whose text has no separator, and there the
    digests agree; on every other value the text, and so the byte
    string handed to SHA-256, is a different one. *)
Theorem hash_call_sites (v : json) :
  TEESignatureGenerator.hash_input v = TEESignatureGenerator.hash_output v
  /\ (Json.dumps Json.opts_sorted v = Json.dumps Json.opts_sorted_compact v
      <-> separator_free v = true)
  /\ (separator_free v = true ->
      TEESignatureGenerator.hash_input v = WalrusUploader.hash_bundle v)
  /\ (separator_free v = false ->
      forall b_io b_b,
        utf8_encode (Json.dumps Json.opts_sorted v) = Ok b_io ->
        utf8_encode (Json.dumps Json.opts_sorted_compact v) = Ok b_b ->
        b_io <> b_b).
Proof.
  split; [reflexivity|]. split; [apply dumps_compact_iff|]. split.
  - intros Hsf.
    unfold TEESignatureGenerator.hash_input, WalrusUploader.hash_bundle,
      Json.dumps.
    now rewrite encode_separator_free.
  - intros Hsf b_io b_b Hio Hb E. subst b_b.
    assert (Ht : Json.dumps Json.opts_sorted v
                 = Json.dumps Json.opts_sorted_compact v)
      by (eapply utf8_encode_inj; eassumption).
    apply dumps_compact_iff in Ht. congruence.
Qed.

(** A one-element sequence, on which the digests agree, and the mapping
    with one member, whose two texts differ. *)
Lemma hash_call_sites_witness :
  TEESignatureGenerator.hash_input (JList [JStr (py "only")])
  = WalrusUploader.hash_bundle (JList [JStr (py "only")])
  /\ Json.dumps Json.opts_sorted one_member
     <> Json.dumps Json.opts_sorted_compact one_member.
Proof.
  split.
  - apply (proj1 (proj2 (proj2 (hash_call_sites (JList [JStr (py "only")]))))).
    reflexivity.
  - intros E.
    apply (proj1 (proj1 (proj2 (hash_call_sites one_member)))) in E.
    discriminate E.
Defined.

(** Two tuples that differ in the nonce only. *)
Lemma digest_prehash_injective_witness :
  exists bf bg,
    fields_prehash fields_example = Ok bf
    /\ fields_prehash fields_example_other_nonce = Ok bg
    /\ bf <> bg.
Proof.
  eexists _, _. split; [reflexivity|]. split; [reflexivity|].
  apply (digest_prehash_injective fields_example fields_example_other_nonce).
  - repeat split; intros H; vm_compute in H;
      repeat (destruct H as [H|H]; [discriminate H|]); exact H.
  - repeat split; intros H; vm_compute in H;
      repeat (destruct H as [H|H]; [discriminate H|]); exact H.
  - reflexivity.
  - reflexivity.
  - discriminate.
Defined.

(** ** Strings: [scanstring] reads back what the encoder writes *)

Ltac ztest_with tac :=
  repeat match goal with
  | |- context [?a <=? ?b] =>
      first [ rewrite (proj2 (Z.leb_le a b)) by tac
            | rewrite (proj2 (Z.leb_gt a b)) by tac ]
  | |- context [?a <? ?b] =>
      first [ rewrite (proj2 (Z.ltb_lt a b)) by tac
            | rewrite (proj2 (Z.ltb_ge a b)) by tac ]
  | |- context [?a =? ?b] =>
      first [ rewrite (proj2 (Z.eqb_eq a b)) by tac
            | rewrite (proj2 (Z.eqb_neq a b)) by tac ]
  end; cbn [andb orb negb].

Ltac ztest := ztest_with lia.
Ltac ztest_dm := ztest_with zdm.

(** The tests of [scanstring] on the backslash and the letter u. *)
Ltac scan_escape_tests :=
  cbn [JsonDecoder.scanstring];
  change (92 =? 34) with false; change (92 =? 92) with true;
  change (117 =? 117) with true; cbn iota.

Lemma hex_value_digit (d : Z) :
  0 <= d < 16 -> hex_value (hex_digit d) = Some d.
Proof.
  intros Hd. unfold hex_value, hex_digit.
  destruct (Z.ltb_spec d 10).
  - ztest. f_equal. lia.
  - ztest. f_equal. lia.
Qed.

Lemma hex4_value_hex4 (n : Z) :
  0 <= n < 65536 ->
  JsonDecoder.hex4_value
    (hex_digit (n / 4096)) (hex_digit ((n / 256) mod 16))
    (hex_digit ((n / 16) mod 16)) (hex_digit (n mod 16)) = Some n.
Proof.
  intros Hn. unfold JsonDecoder.hex4_value.
  rewrite !hex_value_digit by zdm. f_equal. zdm.
Qed.

Lemma scanstring_plain (c : Z) (r : pystr) :
  c <> 34 -> c <> 92 -> ~ (0 <= c < 32) ->
  JsonDecoder.scanstring (c :: r)
  = JsonDecoder.cons_char c (JsonDecoder.scanstring r).
Proof.
  intros H1 H2 H3. cbn [JsonDecoder.scanstring]. ztest.
  destruct (Z.leb_spec 0 c); cbn [andb]; [|reflexivity].
  now rewrite (proj2 (Z.ltb_ge c 32)) by lia.
Qed.

Lemma scanstring_short (e ch : Z) (r : pystr) :
  e <> 117 -> JsonDecoder.backslash e = Some ch ->
  JsonDecoder.scanstring (92 :: e :: r)
  = JsonDecoder.cons_char ch (JsonDecoder.scanstring r).
Proof.
  intros H1 H2. cbn [JsonDecoder.scanstring].
  change (92 =? 34) with false. change (92 =? 92) with true. cbn iota.
  rewrite (proj2 (Z.eqb_neq e 117)) by exact H1. now rewrite H2.
Qed.

Lemma scanstring_u (h1 h2 h3 h4 uni : Z) (r : pystr) :
  JsonDecoder.hex4_value h1 h2 h3 h4 = Some uni ->
  JsonDecoder.is_high_surrogate uni = false ->
  JsonDecoder.scanstring (92 :: 117 :: h1 :: h2 :: h3 :: h4 :: r)
  = JsonDecoder.cons_char uni (JsonDecoder.scanstring r).
Proof.
  intros H1 H2. scan_escape_tests. rewrite H1, H2.
  cbn [andb].
  destruct r as [|? [|? [|? [|? [|? [|? ?]]]]]]; reflexivity.
Qed.

Lemma scanstring_pair (h1 h2 h3 h4 g1 g2 g3 g4 hi lo : Z) (r : pystr) :
  JsonDecoder.hex4_value h1 h2 h3 h4 = Some hi ->
  JsonDecoder.is_high_surrogate hi = true ->
  JsonDecoder.hex4_value g1 g2 g3 g4 = Some lo ->
  JsonDecoder.is_low_surrogate lo = true ->
  JsonDecoder.scanstring
    (92 :: 117 :: h1 :: h2 :: h3 :: h4 :: 92 :: 117 :: g1 :: g2 :: g3 :: g4 :: r)
  = JsonDecoder.cons_char (65536 + (hi - 55296) * 1024 + (lo - 56320))
                          (JsonDecoder.scanstring r).
Proof.
  intros H1 H2 H3 H4. scan_escape_tests.
  rewrite H1, H2. cbn [andb]. now rewrite H3, H4.
Qed.

Lemma is_scalar_range (c : Z) :
  is_scalar c = true -> 0 <= c < 55296 \/ 57343 < c < 1114112.
Proof.
  unfold is_scalar. rewrite orb_true_iff, !andb_true_iff, !Z.leb_le, !Z.ltb_lt.
  lia.
Qed.

Lemma is_code_point_range (c : Z) :
  is_code_point c = true -> 0 <= c < 1114112.
Proof.
  unfold is_code_point. rewrite andb_true_iff, Z.leb_le, Z.ltb_lt. tauto.
Qed.

Lemma is_scalar_code_point (c : Z) :
  is_scalar c = true ->
  is_code_point c = true
  /\ JsonDecoder.is_high_surrogate c = false
  /\ JsonDecoder.is_low_surrogate c = false.
Proof.
  intros H. apply is_scalar_range in H.
  unfold is_code_point, JsonDecoder.is_high_surrogate,
    JsonDecoder.is_low_surrogate.
  repeat split.
  - apply andb_true_iff. rewrite Z.leb_le, Z.ltb_lt. lia.
  - apply andb_false_iff. rewrite Z.leb_gt, Z.leb_gt. lia.
  - apply andb_false_iff. rewrite Z.leb_gt, Z.leb_gt. lia.
Qed.

Lemma scanstring_escape (c : Z) (r : pystr) :
  is_code_point c = true -> JsonDecoder.is_high_surrogate c = false ->
  JsonDecoder.scanstring (Json.escape_char c ++ r)
  = JsonDecoder.cons_char c (JsonDecoder.scanstring r).
Proof.
  intros Hc Hhigh. apply is_code_point_range in Hc. unfold Json.escape_char.
  destruct (Z.eqb_spec c 34) as [->|N1];
    [unfold app; now rewrite scanstring_short with (ch := 34)|].
  destruct (Z.eqb_spec c 92) as [->|N2];
    [unfold app; now rewrite scanstring_short with (ch := 92)|].
  destruct (Z.eqb_spec c 10) as [->|N3];
    [unfold app; now rewrite scanstring_short with (ch := 10)|].
  destruct (Z.eqb_spec c 13) as [->|N4];
    [unfold app; now rewrite scanstring_short with (ch := 13)|].
  destruct (Z.eqb_spec c 9) as [->|N5];
    [unfold app; now rewrite scanstring_short with (ch := 9)|].
  destruct (Z.eqb_spec c 8) as [->|N6];
    [unfold app; now rewrite scanstring_short with (ch := 8)|].
  destruct (Z.eqb_spec c 12) as [->|N7];
    [unfold app; now rewrite scanstring_short with (ch := 12)|].
  destruct ((32 <=? c) && (c <=? 126)) eqn:Hp.
  { apply andb_true_iff in Hp as [Ha Hb].
    apply Z.leb_le in Ha. apply Z.leb_le in Hb.
    unfold app. apply scanstring_plain; lia. }
  destruct (Z.ltb_spec c 65536) as [Hlt|Hge].
  - unfold Json.u_escape, Json.hex4, app.
    apply scanstring_u; [apply hex4_value_hex4; lia | exact Hhigh].
  - unfold Json.u_escape, Json.hex4, app.
    set (n := c - 65536).
    assert (Hn : 0 <= n < 1048576) by (unfold n; lia).
    rewrite scanstring_pair
      with (hi := 55296 + (n / 1024) mod 1024) (lo := 56320 + n mod 1024).
    + f_equal. unfold n. zdm.
    + apply hex4_value_hex4. zdm.
    + unfold JsonDecoder.is_high_surrogate. ztest_dm. reflexivity.
    + apply hex4_value_hex4. zdm.
    + unfold JsonDecoder.is_low_surrogate. ztest_dm. reflexivity.
Qed.

(** A high surrogate that is not followed by the escape of a low one
    is read as a character of its own. *)
Lemma scanstring_high (h1 h2 h3 h4 hi : Z) (t : pystr) :
  JsonDecoder.hex4_value h1 h2 h3 h4 = Some hi ->
  JsonDecoder.is_high_surrogate hi = true ->
  no_low_escape t ->
  JsonDecoder.scanstring (92 :: 117 :: h1 :: h2 :: h3 :: h4 :: t)
  = JsonDecoder.cons_char hi (JsonDecoder.scanstring t).
Proof.
  intros H1 H2 Ht. scan_escape_tests. rewrite H1, H2. cbn [andb].
  destruct t as [|b [|u [|g1 [|g2 [|g3 [|g4 t']]]]]]; try reflexivity.
  cbn [no_low_escape] in Ht.
  destruct (Z.eqb_spec b 92) as [Hb|_]; [|reflexivity].
  destruct (Z.eqb_spec u 117) as [Hu|_]; [|reflexivity].
  destruct (Ht Hb Hu) as (x & -> & ->). reflexivity.
Qed.

Lemma high_surrogate_escape (c : Z) :
  JsonDecoder.is_high_surrogate c = true ->
  Json.escape_char c = Json.u_escape c.
Proof.
  unfold JsonDecoder.is_high_surrogate, Json.escape_char.
  rewrite andb_true_iff, !Z.leb_le. intros H. ztest. reflexivity.
Qed.

(** The text that follows a character in an encoded string begins
    with the escape of a low surrogate only if the next character is
    one. *)
Lemma escaped_no_low (s rest : pystr) :
  match s with
  | c :: _ => is_code_point c = true /\ JsonDecoder.is_low_surrogate c = false
  | [] => True
  end ->
  no_low_escape (flat_map Json.escape_char s ++ 34 :: rest).
Proof.
  destruct s as [|c s]; cbn [flat_map app].
  - intros _. unfold no_low_escape.
    destruct rest as [|u [|g1 [|g2 [|g3 [|g4 t']]]]]; auto. lia.
  - intros [Hc Hlow]. apply is_code_point_range in Hc.
    rewrite <- app_assoc.
    generalize (flat_map Json.escape_char s ++ 34 :: rest). intros t.
    assert (Hshort : forall x, x <> 117 -> no_low_escape ([92; x] ++ t)).
    { intros x Hx. cbn [app]. unfold no_low_escape.
      destruct t as [|g1 [|g2 [|g3 [|g4 t']]]]; auto. intros _ Hu. lia. }
    unfold Json.escape_char.
    destruct (Z.eqb_spec c 34); [apply Hshort; lia|].
    destruct (Z.eqb_spec c 92); [apply Hshort; lia|].
    destruct (Z.eqb_spec c 10); [apply Hshort; lia|].
    destruct (Z.eqb_spec c 13); [apply Hshort; lia|].
    destruct (Z.eqb_spec c 9); [apply Hshort; lia|].
    destruct (Z.eqb_spec c 8); [apply Hshort; lia|].
    destruct (Z.eqb_spec c 12); [apply Hshort; lia|].
    destruct ((32 <=? c) && (c <=? 126)) eqn:Hp.
    { cbn [app]. unfold no_low_escape.
      destruct t as [|u [|g1 [|g2 [|g3 [|g4 t']]]]]; auto. intros Hb. lia. }
    destruct (Z.ltb_spec c 65536) as [Hlt|Hge].
    + unfold Json.u_escape, Json.hex4. cbn [app no_low_escape].
      intros _ _. exists c. split; [apply hex4_value_hex4; lia | exact Hlow].
    + unfold Json.u_escape, Json.hex4. cbn [app no_low_escape].
      intros _ _. set (m := c - 65536).
      assert (Hm : 0 <= m < 1048576) by (unfold m; lia).
      exists (55296 + (m / 1024) mod 1024).
      split; [apply hex4_value_hex4; zdm|].
      unfold JsonDecoder.is_low_surrogate. ztest_dm. reflexivity.
Qed.

Lemma unpaired_head (s : pystr) :
  unpaired s = true ->
  match s with
  | c :: _ => is_code_point c = true
  | [] => True
  end.
Proof.
  destruct s as [|c s]; [auto|]. cbn [unpaired].
  rewrite !andb_true_iff. tauto.
Qed.

Lemma scanstring_unpaired (s rest : pystr) :
  unpaired s = true ->
  JsonDecoder.scanstring (flat_map Json.escape_char s ++ 34 :: rest)
  = Some (s, rest).
Proof.
  induction s as [|c s IH]; cbn [unpaired flat_map]; intros H.
  - reflexivity.
  - apply andb_true_iff in H as [H Hs]. apply andb_true_iff in H as [Hc Hp].
    apply negb_true_iff in Hp. rewrite <- app_assoc.
    destruct (JsonDecoder.is_high_surrogate c) eqn:Hhigh.
    + cbn [andb] in Hp. rewrite (high_surrogate_escape _ Hhigh).
      unfold Json.u_escape, Json.hex4. cbn [app].
      apply is_code_point_range in Hc.
      assert (H16 : c < 65536).
      { unfold JsonDecoder.is_high_surrogate in Hhigh.
        apply andb_true_iff in Hhigh as [_ Hh]. apply Z.leb_le in Hh. lia. }
      rewrite scanstring_high with (hi := c);
        [ now rewrite IH
        | apply hex4_value_hex4; lia
        | exact Hhigh
        | ].
      apply escaped_no_low. pose proof (unpaired_head s Hs) as Hhead.
      destruct s as [|c' s']; [exact I|]. split; [exact Hhead | exact Hp].
    + rewrite scanstring_escape, IH by assumption. reflexivity.
Qed.

Lemma well_formed_unpaired (s : pystr) :
  well_formed_text s = true -> unpaired s = true.
Proof.
  unfold well_formed_text.
  induction s as [|c s IH]; cbn [forallb unpaired]; [reflexivity|].
  intros H. apply andb_true_iff in H as [Hc Hs].
  destruct (is_scalar_code_point c Hc) as (-> & -> & _).
  rewrite (IH Hs). reflexivity.
Qed.

Lemma scanstring_encoded (s rest : pystr) :
  well_formed_text s = true ->
  JsonDecoder.scanstring (flat_map Json.escape_char s ++ 34 :: rest)
  = Some (s, rest).
Proof. intros H. now apply scanstring_unpaired, well_formed_unpaired. Qed.

(** ** Numbers: the literal scanner on a literal followed by more text *)

Lemma is_digit_spec (c : Z) : is_digit c = true <-> 48 <= c <= 57.
Proof. unfold is_digit. rewrite andb_true_iff, !Z.leb_le. tauto. Qed.

Lemma delimited_not_digit (c : Z) (r : pystr) :
  delimited (c :: r) -> is_digit c = false.
Proof.
  cbn. intros H. destruct (is_digit c) eqn:E; [|reflexivity].
  apply is_digit_spec in E. lia.
Qed.

Lemma span_digits_split (s d r : pystr) :
  span_digits s = (d, r) -> s = d ++ r /\ Forall digit_char d.
Proof.
  revert d r; induction s as [|c s IH]; intros d r; cbn [span_digits].
  - intros [= <- <-]. auto.
  - destruct (is_digit c) eqn:E.
    + destruct (span_digits s) as [d' r'].
      intros [= <- <-]. destruct (IH _ _ eq_refl) as [-> HF].
      split; [reflexivity|]. constructor; [|exact HF].
      now apply is_digit_spec.
    + intros [= <- <-]. auto.
Qed.

Lemma span_digits_app (s d r rest : pystr) :
  span_digits s = (d, r) -> delimited rest ->
  span_digits (s ++ rest) = (d, r ++ rest).
Proof.
  intros H Hrest. revert d r H.
  induction s as [|c s IH]; intros d r; cbn [span_digits app].
  - intros [= <- <-]. destruct rest as [|c rest]; [reflexivity|].
    cbn [span_digits]. now rewrite (delimited_not_digit _ _ Hrest).
  - destruct (is_digit c).
    + destruct (span_digits s) as [d' r'].
      intros [= <- <-]. now rewrite (IH _ _ eq_refl).
    + intros [= <- <-]. reflexivity.
Qed.

Lemma match_frac_split (s f r : pystr) :
  match_frac s = (f, r) ->
  s = f ++ r /\ Forall (fun c => c = 46 \/ digit_char c) f.
Proof.
  unfold match_frac. destruct s as [|c s]; [intros [= <- <-]; auto|].
  destruct (Z.eqb_spec c 46) as [->|N]; [|intros [= <- <-]; auto].
  destruct (span_digits s) as [[|d0 d] r'] eqn:E; intros [= <- <-]; auto.
  apply span_digits_split in E as [-> HF]. split; [reflexivity|].
  constructor; [auto|]. eapply Forall_impl; [|exact HF]. auto.
Qed.

Lemma match_frac_app (s f r rest : pystr) :
  match_frac s = (f, r) -> delimited rest ->
  match_frac (s ++ rest) = (f, r ++ rest).
Proof.
  intros H Hrest. unfold match_frac in *.
  destruct s as [|c s]; cbn [app].
  - injection H as <- <-. destruct rest as [|c rest]; [reflexivity|].
    cbn in Hrest. now rewrite (proj2 (Z.eqb_neq c 46)) by lia.
  - destruct (c =? 46); [|now injection H as <- <-].
    destruct (span_digits s) as [d r'] eqn:E.
    rewrite (span_digits_app _ _ _ _ E Hrest).
    destruct d; now injection H as <- <-.
Qed.

Lemma match_exp_split (s e r : pystr) :
  match_exp s = (e, r) -> s = e ++ r /\ Forall exp_char e.
Proof.
  unfold match_exp. destruct s as [|c s]; [intros [= <- <-]; auto|].
  destruct ((c =? 101) || (c =? 69)) eqn:Ec; [|intros [= <- <-]; auto].
  assert (Hc : exp_char c).
  { apply orb_true_iff in Ec as [Ec|Ec]; apply Z.eqb_eq in Ec;
      unfold exp_char; auto. }
  destruct s as [|c1 s1].
  - cbn. intros [= <- <-]. auto.
  - destruct ((c1 =? 45) || (c1 =? 43)) eqn:Es.
    + assert (Hc1 : exp_char c1).
      { apply orb_true_iff in Es as [Es|Es]; apply Z.eqb_eq in Es;
          unfold exp_char; auto. }
      destruct (span_digits s1) as [[|d0 d] r'] eqn:E; intros [= <- <-]; auto.
      apply span_digits_split in E as [-> HF]. split; [reflexivity|].
      constructor; [exact Hc|]. constructor; [exact Hc1|].
      eapply Forall_impl; [|exact HF]. unfold exp_char; auto.
    + destruct (span_digits (c1 :: s1)) as [[|d0 d] r'] eqn:E;
        intros [= <- <-]; auto.
      apply span_digits_split in E as [-> HF]. split; [reflexivity|].
      constructor; [exact Hc|].
      eapply Forall_impl; [|exact HF]. unfold exp_char; auto.
Qed.

Lemma match_exp_app (s e r rest : pystr) :
  match_exp s = (e, r) -> delimited rest ->
  match_exp (s ++ rest) = (e, r ++ rest).
Proof.
  intros H Hrest. unfold match_exp in *.
  destruct s as [|c s]; cbn [app].
  - injection H as <- <-. destruct rest as [|c rest]; [reflexivity|].
    cbn in Hrest.
    rewrite (proj2 (Z.eqb_neq c 101)), (proj2 (Z.eqb_neq c 69)) by lia.
    reflexivity.
  - destruct ((c =? 101) || (c =? 69)); [|now injection H as <- <-].
    destruct s as [|c1 s1]; cbn [app].
    + cbn in H. injection H as <- <-.
      destruct rest as [|c1 rest]; [reflexivity|].
      pose proof (delimited_not_digit _ _ Hrest) as Hd. cbn in Hrest.
      rewrite (proj2 (Z.eqb_neq c1 45)), (proj2 (Z.eqb_neq c1 43)) by lia.
      cbn [orb span_digits]. rewrite Hd. reflexivity.
    + destruct ((c1 =? 45) || (c1 =? 43)).
      * destruct (span_digits s1) as [d r'] eqn:E.
        rewrite (span_digits_app _ _ _ _ E Hrest).
        destruct d; now injection H as <- <-.
      * destruct (span_digits (c1 :: s1)) as [d r'] eqn:E.
        change (c1 :: s1 ++ rest) with ((c1 :: s1) ++ rest).
        rewrite (span_digits_app _ _ _ _ E Hrest).
        destruct d; now injection H as <- <-.
Qed.

Lemma match_int_split (s i r : pystr) :
  match_int s = Some (i, r) ->
  s = i ++ r /\ Forall int_char i
  /\ exists c s', s = c :: s'
       /\ (is_digit c = true
           \/ (c = 45 /\ exists d s'', s' = d :: s'' /\ is_digit d = true)).
Proof.
  unfold match_int.
  assert (Hbody : forall sg s1, Forall int_char sg ->
    match s1 with
    | [] => None
    | c :: r0 =>
        if c =? 48 then Some (sg ++ [c], r0)
        else if is_digit c
             then let '(d, r') := span_digits r0 in Some (sg ++ c :: d, r')
             else None
    end = Some (i, r) ->
    sg ++ s1 = i ++ r /\ Forall int_char i
    /\ exists c s', s1 = c :: s' /\ is_digit c = true).
  { intros sg [|c r0] Hsg; [discriminate|].
    destruct (Z.eqb_spec c 48) as [->|N].
    - intros [= <- <-]. rewrite <- app_assoc. split; [reflexivity|].
      split; [|eauto].
      apply Forall_app. split; [exact Hsg|].
      constructor; [|constructor]. right. unfold digit_char. lia.
    - destruct (is_digit c) eqn:Ed; [|discriminate].
      destruct (span_digits r0) as [d r'] eqn:E. intros [= <- <-].
      apply span_digits_split in E as [-> HF].
      rewrite <- app_assoc. split; [reflexivity|]. split; [|eauto].
      apply Forall_app. split; [exact Hsg|].
      constructor; [right; now apply is_digit_spec|].
      eapply Forall_impl; [|exact HF]. unfold int_char; auto. }
  destruct s as [|c s]; [discriminate|].
  destruct (Z.eqb_spec c 45) as [->|N].
  - intros H. apply (Hbody [45] s) in H as (E & HF & d & s'' & -> & Hd).
    + split; [exact E|]. split; [exact HF|].
      exists 45, (d :: s''). split; [reflexivity|]. right. eauto.
    + constructor; [now left|constructor].
  - intros H. apply (Hbody [] (c :: s)) in H as (E & HF & d & s'' & Hs & Hd);
      [|constructor].
    split; [exact E|]. split; [exact HF|].
    injection Hs as <- <-. exists c, s. auto.
Qed.

Lemma match_int_app (s i r rest : pystr) :
  match_int s = Some (i, r) -> delimited rest ->
  match_int (s ++ rest) = Some (i, r ++ rest).
Proof.
  intros H Hrest. unfold match_int in *.
  assert (Hbody : forall sg s1,
    match s1 with
    | [] => None
    | c :: r0 =>
        if c =? 48 then Some (sg ++ [c], r0)
        else if is_digit c
             then let '(d, r') := span_digits r0 in Some (sg ++ c :: d, r')
             else None
    end = Some (i, r) ->
    match s1 ++ rest with
    | [] => None
    | c :: r0 =>
        if c =? 48 then Some (sg ++ [c], r0)
        else if is_digit c
             then let '(d, r') := span_digits r0 in Some (sg ++ c :: d, r')
             else None
    end = Some (i, r ++ rest)).
  { intros sg [|c r0]; [discriminate|]. cbn [app].
    destruct (c =? 48); [now intros [= <- <-]|].
    destruct (is_digit c); [|discriminate].
    destruct (span_digits r0) as [d r'] eqn:E.
    rewrite (span_digits_app _ _ _ _ E Hrest). now intros [= <- <-]. }
  destruct s as [|c s]; [discriminate|]. cbn [app].
  destruct (c =? 45).
  - now apply (Hbody [c] s).
  - change (c :: s ++ rest) with ((c :: s) ++ rest).
    now apply (Hbody [] (c :: s)).
Qed.

Lemma match_number_app (s i f e rest : pystr) :
  match_number s = Some (i, f, e, []) -> delimited rest ->
  match_number (s ++ rest) = Some (i, f, e, rest).
Proof.
  unfold match_number. intros H Hrest.
  destruct (match_int s) as [[i' r]|] eqn:Ei; [|discriminate].
  destruct (match_frac r) as [f' r1] eqn:Ef.
  destruct (match_exp r1) as [e' r2] eqn:Ee.
  injection H as <- <- <- ->.
  rewrite (match_int_app _ _ _ _ Ei Hrest).
  rewrite (match_frac_app _ _ _ _ Ef Hrest).
  rewrite (match_exp_app _ _ _ _ Ee Hrest). reflexivity.
Qed.

Lemma match_number_split (s i f e : pystr) :
  match_number s = Some (i, f, e, []) ->
  s = i ++ f ++ e /\ Forall is_ascii s
  /\ exists c s', s = c :: s'
       /\ (is_digit c = true
           \/ (c = 45 /\ exists d s'', s' = d :: s'' /\ is_digit d = true)).
Proof.
  unfold match_number. intros H.
  destruct (match_int s) as [[i' r]|] eqn:Ei; [|discriminate].
  destruct (match_frac r) as [f' r1] eqn:Ef.
  destruct (match_exp r1) as [e' r2] eqn:Ee.
  injection H as <- <- <- ->.
  apply match_int_split in Ei as (Es & Hi & Hhead).
  apply match_frac_split in Ef as (Er & Hf).
  apply match_exp_split in Ee as (Er1 & He).
  rewrite List.app_nil_r in Er1. subst r1 r.
  split; [exact Es|]. split; [|exact Hhead].
  rewrite Es. repeat (apply Forall_app; split).
  - eapply Forall_impl; [|exact Hi].
    unfold int_char, digit_char, is_ascii; lia.
  - eapply Forall_impl; [|exact Hf]. unfold digit_char, is_ascii; lia.
  - eapply Forall_impl; [|exact He].
    unfold exp_char, digit_char, is_ascii; lia.
Qed.

Lemma str_of_int_match (z : Z) :
  match_number (str_of_int z) = Some (str_of_int z, [], [], []).
Proof.
  assert (Hu : forall (p : positive) u,
             Pos.to_uint p = u -> digits_of_uint u <> [] /\
             (forall d ds, digits_of_uint u = d :: ds -> d <> 48)).
  { intros p u <-. split.
    - pose proof (Unsigned.to_uint_nonnil p) as Hn.
      destruct (Pos.to_uint p); cbn; congruence.
    - intros d ds Hd Hz. subst d.
      assert (Hnorm : Decimal.unorm (Pos.to_uint p) = Pos.to_uint p).
      { rewrite <- (DecimalN.Unsigned.to_of (Pos.to_uint p)).
        rewrite Unsigned.of_to. reflexivity. }
      destruct (Pos.to_uint p) as [|u'| | | | | | | | |] eqn:Eu;
        cbn in Hd; try discriminate.
      unfold Decimal.unorm in Hnorm.
      destruct (Decimal.nzhead (Decimal.D0 u')) eqn:En.
      + apply (Unsigned.to_uint_nonzero p). rewrite Eu.
        injection Hnorm as <-. reflexivity.
      + exfalso. eapply nzhead_nonzero. rewrite En. exact Hnorm.
      + discriminate. + discriminate. + discriminate. + discriminate.
      + discriminate. + discriminate. + discriminate. + discriminate.
      + discriminate. }
  assert (Hall : forall ds,
             Forall digit_char ds -> span_digits ds = (ds, [])).
  { induction ds as [|c ds IH]; intros HF; [reflexivity|].
    inversion HF; subst. cbn [span_digits].
    rewrite (proj2 (is_digit_spec c)) by assumption. now rewrite IH. }
  assert (Hnum : forall sg ds,
             (sg = [] \/ sg = [45]) -> ds <> [] -> Forall digit_char ds ->
             (forall d ds', ds = d :: ds' -> d = 48 -> ds' = []) ->
             match_number (sg ++ ds) = Some (sg ++ ds, [], [], [])).
  { intros sg [|d ds] Hsg Hne HF Hz; [congruence|].
    assert (Hd : digit_char d) by (inversion HF; auto).
    assert (HF' : Forall digit_char ds) by (inversion HF; auto).
    assert (Hbody :
      match_int (sg ++ d :: ds) = Some (sg ++ d :: ds, [])).
    { unfold match_int.
      assert (E : (let '(sg0, s1) :=
                     match sg ++ d :: ds with
                     | [] => ([], sg ++ d :: ds)
                     | c :: r => if c =? 45 then ([c], r)
                                 else ([], sg ++ d :: ds)
                     end in (sg0, s1)) = (sg, d :: ds)).
      { destruct Hsg as [-> | ->]; cbn [app].
        - unfold digit_char in Hd.
          now rewrite (proj2 (Z.eqb_neq d 45)) by lia.
        - reflexivity. }
      destruct Hsg as [-> | ->]; cbn [app].
      - unfold digit_char in Hd.
        rewrite (proj2 (Z.eqb_neq d 45)) by lia.
        destruct (Z.eqb_spec d 48) as [->|N].
        + now rewrite (Hz _ _ eq_refl eq_refl).
        + rewrite (proj2 (is_digit_spec d)) by assumption.
          now rewrite (Hall ds HF').
      - rewrite Z.eqb_refl.
        destruct (Z.eqb_spec d 48) as [->|N].
        + now rewrite (Hz _ _ eq_refl eq_refl).
        + rewrite (proj2 (is_digit_spec d)) by assumption.
          now rewrite (Hall ds HF'). }
    unfold match_number. rewrite Hbody. reflexivity. }
  unfold str_of_int. destruct z as [|p|p]; cbn [Z.to_int].
  - reflexivity.
  - destruct (Hu p _ eq_refl) as [Hne Hz].
    apply (Hnum [] (digits_of_uint (Pos.to_uint p))); auto.
    + apply digits_of_uint_digits.
    + intros d ds' E ->. exfalso. eapply Hz; eauto.
  - destruct (Hu p _ eq_refl) as [Hne Hz].
    apply (Hnum [45] (digits_of_uint (Pos.to_uint p))); auto.
    + apply digits_of_uint_digits.
    + intros d ds' E ->. exfalso. eapply Hz; eauto.
Qed.

(** ** Values: [scan_once] reads back the indented text *)

Lemma floatstr_float_text (r : pystr) :
  float_text r = true -> Json.floatstr r = r.
Proof.
  intros H. unfold Json.floatstr.
  destruct (str_eqb r (py "nan")) eqn:E1;
    [apply str_eqb_eq in E1; subst r; discriminate H|].
  destruct (str_eqb r (py "inf")) eqn:E2;
    [apply str_eqb_eq in E2; subst r; discriminate H|].
  destruct (str_eqb r (py "-inf")) eqn:E3;
    [apply str_eqb_eq in E3; subst r; discriminate H|].
  reflexivity.
Qed.

Lemma float_text_match (r : pystr) :
  float_text r = true ->
  exists i f e, match_number r = Some (i, f, e, []) /\ (f <> [] \/ e <> []).
Proof.
  unfold float_text.
  destruct (match_number r) as [[[[i f] e] [|? ?]]|]; try discriminate.
  intros H. exists i, f, e. split; [reflexivity|].
  destruct f; [|left; discriminate]. destruct e; [discriminate|].
  right; discriminate.
Qed.

(** The three shapes of the text of a float that is not NaN. *)
Lemma float_repr_cases (r : pystr) :
  float_repr r = true ->
  (float_text r = true /\ Json.floatstr r = r)
  \/ (r = py "inf" /\ Json.floatstr r = py "Infinity")
  \/ (r = py "-inf" /\ Json.floatstr r = py "-Infinity").
Proof.
  unfold float_repr. intros H.
  destruct (float_text r) eqn:Ht.
  - left. split; [reflexivity | now apply floatstr_float_text].
  - cbn [orb] in H. apply orb_true_iff in H as [H|H];
      apply str_eqb_eq in H; subst r; auto.
Qed.

Lemma scan_number_int (z : Z) (rest : pystr) :
  delimited rest ->
  JsonDecoder.scan_number (str_of_int z ++ rest) = Some (JInt z, rest).
Proof.
  intros Hrest. unfold JsonDecoder.scan_number.
  rewrite (match_number_app _ _ _ _ _ (str_of_int_match z) Hrest).
  now rewrite int_of_str_of_int.
Qed.

Lemma scan_number_float (r rest : pystr) :
  float_text r = true -> delimited rest ->
  JsonDecoder.scan_number (r ++ rest) = Some (JFloat r, rest).
Proof.
  intros Hr Hrest. apply float_text_match in Hr as (i & f & e & Hm & Hfe).
  unfold JsonDecoder.scan_number.
  rewrite (match_number_app _ _ _ _ _ Hm Hrest).
  apply match_number_split in Hm as (-> & _).
  destruct f, e; try reflexivity. destruct Hfe; congruence.
Qed.

Lemma scan_once_number (fuel : nat) (c : Z) (s : pystr) :
  (is_digit c = true
   \/ (c = 45 /\ exists d s', s = d :: s' /\ is_digit d = true)) ->
  JsonDecoder.scan_once (S fuel) (c :: s) = JsonDecoder.scan_number (c :: s).
Proof.
  intros H. cbn [JsonDecoder.scan_once].
  change (py "null") with [110; 117; 108; 108].
  change (py "true") with [116; 114; 117; 101].
  change (py "false") with [102; 97; 108; 115; 101].
  change (py "NaN") with [78; 97; 78].
  change (py "Infinity") with [73; 110; 102; 105; 110; 105; 116; 121].
  change (py "-Infinity") with [45; 73; 110; 102; 105; 110; 105; 116; 121].
  cbn [startswith].
  destruct H as [H|(-> & d & s' & -> & H)]; apply is_digit_spec in H.
  - ztest. reflexivity.
  - ztest. reflexivity.
Qed.

Lemma number_text_start (s i f e : pystr) :
  match_number s = Some (i, f, e, []) ->
  exists c s', s = c :: s' /\ value_start c
    /\ (is_digit c = true
        \/ (c = 45 /\ exists d s'', s' = d :: s'' /\ is_digit d = true)).
Proof.
  intros H. apply match_number_split in H as (_ & _ & c & s' & -> & Hc).
  exists c, s'. split; [reflexivity|]. split; [|exact Hc].
  unfold value_start. destruct Hc as [Hc|[-> _]]; [|lia].
  apply is_digit_spec in Hc. lia.
Qed.

Lemma encode_start (o : Json.options) (level : nat) (v : json) :
  json_value v = true ->
  exists c s, Json.encode o level v = c :: s /\ value_start c.
Proof.
  unfold value_start.
  destruct v as [|[]|z|r|s|l|d]; cbn [Json.encode json_value];
    intros Hv.
  - exists 110, [117; 108; 108]. split; [reflexivity|lia].
  - exists 116, [114; 117; 101]. split; [reflexivity|lia].
  - exists 102, [97; 108; 115; 101]. split; [reflexivity|lia].
  - destruct (number_text_start _ _ _ _ (str_of_int_match z))
      as (c & s' & E & Hc & _). unfold value_start in Hc. eauto.
  - destruct (float_repr_cases _ Hv) as [[Ht ->]|[[-> ->]|[-> ->]]].
    + apply float_text_match in Ht as (i & f & e & Hm & _).
      destruct (number_text_start _ _ _ _ Hm) as (c & s' & E & Hc & _).
      unfold value_start in Hc. eauto.
    + exists 73, (py "nfinity"). split; [reflexivity|lia].
    + exists 45, (py "Infinity"). split; [reflexivity|lia].
  - eexists 34, _. split; [reflexivity|lia].
  - unfold Json.container. destruct (map _ l); eexists 91, _;
      (split; [reflexivity|lia]).
  - unfold Json.container. destruct (map _ _); eexists 123, _;
      (split; [reflexivity|lia]).
Qed.

Lemma skip_ws_start (c : Z) (s : pystr) :
  value_start c -> JsonDecoder.skip_ws (c :: s) = c :: s.
Proof.
  unfold value_start. intros H. cbn [JsonDecoder.skip_ws].
  unfold JsonDecoder.is_ws. ztest. reflexivity.
Qed.

Lemma skip_ws_indent (n : nat) (s : pystr) :
  JsonDecoder.skip_ws (10 :: repeat 32 n ++ s) = JsonDecoder.skip_ws s.
Proof.
  cbn [JsonDecoder.skip_ws].
  change (JsonDecoder.is_ws 10) with true. cbn iota.
  induction n as [|n IH]; [reflexivity|].
  cbn [repeat app JsonDecoder.skip_ws].
  change (JsonDecoder.is_ws 32) with true. exact IH.
Qed.

Lemma dict_set_fresh (d : dict) (k : pystr) (v : json) :
  existsb (str_eqb k) (keys d) = false ->
  JsonDecoder.dict_set d k v = d ++ [(k, v)].
Proof.
  induction d as [|[k' v'] d IH]; cbn [JsonDecoder.dict_set keys map existsb fst app];
    [reflexivity|].
  intros H. apply orb_false_iff in H as [H1 H2].
  assert (E : str_eqb k' k = false).
  { apply str_eqb_neq. apply str_eqb_neq in H1. congruence. }
  rewrite E. f_equal. apply IH. exact H2.
Qed.

Lemma dict_of_pairs_distinct (d : dict) :
  distinct (keys d) = true -> JsonDecoder.dict_of_pairs d = d.
Proof.
  unfold JsonDecoder.dict_of_pairs.
  assert (H : forall ps acc,
    distinct (keys (acc ++ ps)) = true ->
    fold_left (fun d kv => JsonDecoder.dict_set d (fst kv) (snd kv)) ps acc
    = acc ++ ps).
  { induction ps as [|[k v] ps IH]; intros acc Hd; cbn [fold_left fst snd].
    - now rewrite List.app_nil_r.
    - rewrite dict_set_fresh.
      + rewrite IH; rewrite <- app_assoc; [reflexivity|exact Hd].
      + clear IH. induction acc as [|[k' v'] acc IHa]; [reflexivity|].
        cbn [app keys map fst distinct existsb] in Hd |- *.
        apply andb_true_iff in Hd as [Hk Hd].
        fold (keys acc). rewrite (IHa Hd), orb_false_r.
        apply negb_true_iff in Hk.
        destruct (str_eqb k k') eqn:E; [|reflexivity].
        apply str_eqb_eq in E. subst k'.
        rewrite <- Hk. symmetry. apply existsb_exists.
        exists k. split; [|apply str_eqb_refl].
        rewrite map_app. apply in_or_app. right. now left. }
  intros Hd. apply (H d []). exact Hd.
Qed.

Lemma join_cons_start (sep p : pystr) (ps : list pystr) :
  exists t, Json.join sep (p :: ps) = p ++ t.
Proof.
  destruct ps as [|q ps]; cbn [Json.join].
  - exists []. now rewrite List.app_nil_r.
  - eauto.
Qed.

Lemma skip_ws_value (o : Json.options) (level : nat) (v : json) (t : pystr) :
  json_value v = true ->
  JsonDecoder.skip_ws (Json.encode o level v ++ t) = Json.encode o level v ++ t.
Proof.
  intros Hv. destruct (encode_start o level v Hv) as (c & s & -> & Hc).
  cbn [app]. now apply skip_ws_start.
Qed.

Lemma expect_value_none (o : Json.options) (level : nat) (v : json)
    (t : pystr) (c : Z) :
  json_value v = true -> c = 93 \/ c = 125 ->
  JsonDecoder.expect c (Json.encode o level v ++ t) = None.
Proof.
  intros Hv Hc. destruct (encode_start o level v Hv) as (c' & s & -> & Hc').
  cbn [app JsonDecoder.expect]. unfold value_start in Hc'.
  now rewrite (proj2 (Z.eqb_neq c' c)) by lia.
Qed.

Lemma array_loop_encode (level : nat) (l : list json) (rest : pystr) :
  l <> [] -> Forall reads_back l -> forallb json_value l = true ->
  forall fuel, (list_size l <= fuel)%nat ->
  JsonDecoder.array_loop fuel
    (Json.join (44 :: 10 :: repeat 32 (2 * S level))
               (map (Json.encode Json.opts_indent2 (S level)) l)
     ++ 10 :: repeat 32 (2 * level) ++ 93 :: rest)
  = Some (l, rest).
Proof.
  induction l as [|x l IH]; [congruence|].
  intros _ HF Hwf fuel Hfuel.
  cbn [forallb] in Hwf. apply andb_true_iff in Hwf as [Hx Hl].
  inversion HF as [|? ? Rx Rl]; subst.
  unfold list_size in Hfuel. cbn [fold_right] in Hfuel.
  fold (list_size l) in Hfuel.
  destruct fuel as [|fuel]; [lia|].
  cbn [JsonDecoder.array_loop].
  destruct l as [|y l].
  - cbn [map Json.join].
    rewrite (Rx Hx) by (cbn; auto; lia).
    rewrite skip_ws_indent. cbn [JsonDecoder.skip_ws].
    change (JsonDecoder.is_ws 93) with false. cbn iota.
    now rewrite Z.eqb_refl.
  - cbn [map Json.join]. rewrite <- !app_assoc.
    rewrite (Rx Hx) by (cbn; auto; lia).
    cbn [app JsonDecoder.skip_ws].
    change (JsonDecoder.is_ws 44) with false. cbn iota.
    change (44 =? 93) with false. change (44 =? 44) with true. cbn iota.
    rewrite skip_ws_indent.
    change (Json.encode Json.opts_indent2 (S level) y
            :: map (Json.encode Json.opts_indent2 (S level)) l)
      with (map (Json.encode Json.opts_indent2 (S level)) (y :: l)).
    assert (Hskip : forall t,
      JsonDecoder.skip_ws
        (Json.join (44 :: 10 :: repeat 32 (2 * S level))
           (map (Json.encode Json.opts_indent2 (S level)) (y :: l)) ++ t)
      = Json.join (44 :: 10 :: repeat 32 (2 * S level))
           (map (Json.encode Json.opts_indent2 (S level)) (y :: l)) ++ t).
    { intros t. cbn [map].
      destruct (join_cons_start (44 :: 10 :: repeat 32 (2 * S level))
                  (Json.encode Json.opts_indent2 (S level) y)
                  (map (Json.encode Json.opts_indent2 (S level)) l))
        as [t' ->].
      rewrite <- app_assoc. apply skip_ws_value.
      cbn [forallb] in Hl. now apply andb_true_iff in Hl as [Hy _]. }
    rewrite Hskip.
    rewrite IH; [reflexivity|discriminate|assumption|assumption|lia].
Qed.

Lemma object_loop_encode (level : nat) (d : dict) (rest : pystr) :
  d <> [] -> Forall (fun kv => reads_back (snd kv)) d ->
  forallb (fun kv => match kv with
                     | (k, x) => unpaired k && json_value x
                     end) d = true ->
  forall fuel, (dict_size d <= fuel)%nat ->
  JsonDecoder.object_loop fuel
    (Json.join (44 :: 10 :: repeat 32 (2 * S level))
               (map (member_text (S level)) d)
     ++ 10 :: repeat 32 (2 * level) ++ 125 :: rest)
  = Some (d, rest).
Proof.
  induction d as [|[k x] d IH]; [congruence|].
  intros _ HF Hwf fuel Hfuel.
  cbn [forallb] in Hwf. apply andb_true_iff in Hwf as [Hkx Hd].
  apply andb_true_iff in Hkx as [Hk Hx].
  inversion HF as [|? ? Rx Rd]; subst. cbn [snd] in Rx.
  unfold dict_size in Hfuel. cbn [fold_right] in Hfuel.
  fold (dict_size d) in Hfuel.
  destruct fuel as [|fuel]; [lia|].
  assert (Hmember : forall t, delimited t ->
    JsonDecoder.object_loop (S fuel) (member_text (S level) (k, x) ++ t)
    = match JsonDecoder.skip_ws t with
      | [] => None
      | c :: r3 =>
          if c =? 125 then Some ([(k, x)], r3)
          else if c =? 44 then
            match JsonDecoder.object_loop fuel (JsonDecoder.skip_ws r3) with
            | Some (ps, rest') => Some ((k, x) :: ps, rest')
            | None => None
            end
          else None
      end).
  { intros t Ht. cbn [JsonDecoder.object_loop].
    unfold member_text, Json.encode_basestring_ascii.
    cbn [app JsonDecoder.expect]. change (34 =? 34) with true. cbn iota.
    rewrite <- !app_assoc. cbn [app].
    rewrite (scanstring_unpaired k _ Hk).
    cbn [JsonDecoder.skip_ws]. change (JsonDecoder.is_ws 58) with false.
    cbn iota. cbn [JsonDecoder.expect]. change (58 =? 58) with true. cbn iota.
    cbn [JsonDecoder.skip_ws]. change (JsonDecoder.is_ws 32) with true.
    cbn iota. rewrite (skip_ws_value _ _ _ _ Hx).
    rewrite (Rx Hx) by (auto; lia). reflexivity. }
  destruct d as [|[k' x'] d].
  - cbn [map Json.join].
    rewrite Hmember by (cbn; auto).
    rewrite skip_ws_indent. cbn [JsonDecoder.skip_ws].
    change (JsonDecoder.is_ws 125) with false. cbn iota.
    now rewrite Z.eqb_refl.
  - cbn [map Json.join]. rewrite <- !app_assoc.
    rewrite Hmember by (cbn; auto).
    cbn [app JsonDecoder.skip_ws].
    change (JsonDecoder.is_ws 44) with false. cbn iota.
    change (44 =? 125) with false. change (44 =? 44) with true. cbn iota.
    rewrite skip_ws_indent.
    change (member_text (S level) (k', x') :: map (member_text (S level)) d)
      with (map (member_text (S level)) ((k', x') :: d)).
    assert (Hskip : forall t,
      JsonDecoder.skip_ws
        (Json.join (44 :: 10 :: repeat 32 (2 * S level))
           (map (member_text (S level)) ((k', x') :: d)) ++ t)
      = Json.join (44 :: 10 :: repeat 32 (2 * S level))
           (map (member_text (S level)) ((k', x') :: d)) ++ t).
    { intros t. cbn [map].
      destruct (join_cons_start (44 :: 10 :: repeat 32 (2 * S level))
                  (member_text (S level) (k', x'))
                  (map (member_text (S level)) d)) as [t' ->].
      unfold member_text, Json.encode_basestring_ascii.
      cbn [app]. apply skip_ws_start. unfold value_start. lia. }
    rewrite Hskip.
    rewrite IH; [reflexivity|discriminate|assumption|assumption|lia].
Qed.

Lemma encode_list_indent2 (level : nat) (x : json) (l : list json) :
  Json.encode Json.opts_indent2 level (JList (x :: l))
  = 91 :: 10 :: repeat 32 (2 * S level)
    ++ Json.join (44 :: 10 :: repeat 32 (2 * S level))
         (map (Json.encode Json.opts_indent2 (S level)) (x :: l))
    ++ 10 :: repeat 32 (2 * level) ++ [93].
Proof. reflexivity. Qed.

Lemma encode_dict_indent2 (level : nat) (kv : pystr * json) (d : dict) :
  Json.encode Json.opts_indent2 level (JDict (kv :: d))
  = 123 :: 10 :: repeat 32 (2 * S level)
    ++ Json.join (44 :: 10 :: repeat 32 (2 * S level))
         (map (member_text (S level)) (kv :: d))
    ++ 10 :: repeat 32 (2 * level) ++ [125].
Proof.
  cbn [Json.encode Json.sort_keys Json.opts_indent2].
  rewrite map_map.
  rewrite (map_ext _ (member_text (S level)))
    by (intros [k x]; reflexivity).
  reflexivity.
Qed.

Lemma scan_once_encode (v : json) : reads_back v.
Proof.
  induction v as [|b|z|r|s|l IH|d IH] using json_ind;
    intros Hv level fuel rest Hfuel Hrest;
    (destruct fuel as [|fuel]; [cbn in Hfuel; lia|]).
  - reflexivity.
  - destruct b; reflexivity.
  - cbn [Json.encode].
    destruct (number_text_start _ _ _ _ (str_of_int_match z))
      as (c & s' & E & _ & Hc).
    rewrite E. cbn [app]. rewrite scan_once_number.
    + change (c :: s' ++ rest) with ((c :: s') ++ rest). rewrite <- E.
      now apply scan_number_int.
    + destruct Hc as [Hc|(-> & d' & s'' & -> & Hd)]; [now left|].
      right. split; [reflexivity|]. exists d', (s'' ++ rest). auto.
  - cbn [Json.encode json_value] in *.
    destruct (float_repr_cases _ Hv) as [[Ht ->]|[[-> ->]|[-> ->]]];
      [|reflexivity|reflexivity].
    destruct (float_text_match _ Ht) as (i & f & e & Hm & _).
    destruct (number_text_start _ _ _ _ Hm) as (c & s' & E & _ & Hc).
    rewrite E. cbn [app]. rewrite scan_once_number.
    + change (c :: s' ++ rest) with ((c :: s') ++ rest). rewrite <- E.
      now apply scan_number_float.
    + destruct Hc as [Hc|(-> & d' & s'' & -> & Hd)]; [now left|].
      right. split; [reflexivity|]. exists d', (s'' ++ rest). auto.
  - cbn [Json.encode json_value] in *.
    unfold Json.encode_basestring_ascii.
    cbn [app JsonDecoder.scan_once]. change (34 =? 34) with true. cbn iota.
    rewrite <- app_assoc. cbn [app].
    now rewrite (scanstring_unpaired s rest Hv).
  - destruct l as [|x l]; [reflexivity|].
    rewrite encode_list_indent2.
    cbn [json_value] in Hv. cbn [size] in Hfuel.
    fold (list_size (x :: l)) in Hfuel.
    cbn [app JsonDecoder.scan_once].
    change (91 =? 34) with false. change (91 =? 123) with false.
    change (91 =? 91) with true. cbn iota.
    rewrite <- !app_assoc. rewrite skip_ws_indent.
    destruct (join_cons_start (44 :: 10 :: repeat 32 (2 * S level))
                (Json.encode Json.opts_indent2 (S level) x)
                (map (Json.encode Json.opts_indent2 (S level)) l))
      as [t Ht].
    assert (Hx : json_value x = true).
    { cbn [forallb] in Hv. now apply andb_true_iff in Hv as [Hx _]. }
    cbn [map]. rewrite Ht, <- !app_assoc.
    rewrite skip_ws_value, expect_value_none by auto.
    rewrite !app_assoc, <- Ht, <- !app_assoc.
    change (Json.encode Json.opts_indent2 (S level) x
            :: map (Json.encode Json.opts_indent2 (S level)) l)
      with (map (Json.encode Json.opts_indent2 (S level)) (x :: l)).
    cbn [app].
    replace ((repeat 32 (2 * level) ++ [93]) ++ rest)
      with (repeat 32 (2 * level) ++ 93 :: rest)
      by (now rewrite <- app_assoc).
    rewrite array_loop_encode; [reflexivity|discriminate|exact IH|exact Hv|lia].
  - destruct d as [|[k x] d]; [reflexivity|].
    rewrite encode_dict_indent2.
    cbn [json_value] in Hv. cbn [size] in Hfuel.
    fold (dict_size ((k, x) :: d)) in Hfuel.
    apply andb_true_iff in Hv as [Hdist Hv].
    cbn [app JsonDecoder.scan_once].
    change (123 =? 34) with false. change (123 =? 123) with true. cbn iota.
    rewrite <- !app_assoc. rewrite skip_ws_indent.
    destruct (join_cons_start (44 :: 10 :: repeat 32 (2 * S level))
                (member_text (S level) (k, x))
                (map (member_text (S level)) d))
      as [t Ht].
    cbn [map]. rewrite Ht, <- !app_assoc.
    assert (Hhead : forall t',
      member_text (S level) (k, x) ++ t'
      = 34 :: (flat_map Json.escape_char k
               ++ 34 :: 58 :: 32
                  :: Json.encode Json.opts_indent2 (S level) x ++ t')).
    { intros t'. unfold member_text, Json.encode_basestring_ascii.
      cbn [app]. rewrite <- !app_assoc. reflexivity. }
    rewrite Hhead. rewrite skip_ws_start by (unfold value_start; lia).
    cbn [JsonDecoder.expect]. change (34 =? 125) with false. cbn iota.
    rewrite <- Hhead. rewrite !app_assoc, <- Ht, <- !app_assoc.
    change (member_text (S level) (k, x) :: map (member_text (S level)) d)
      with (map (member_text (S level)) ((k, x) :: d)).
    cbn [app].
    replace ((repeat 32 (2 * level) ++ [125]) ++ rest)
      with (repeat 32 (2 * level) ++ 125 :: rest)
      by (now rewrite <- app_assoc).
    rewrite object_loop_encode;
      [|discriminate|exact IH|exact Hv|lia].
    now rewrite dict_of_pairs_distinct.
Qed.

(** ** The fuel of [loads] suffices *)

Lemma join_list_size (sep : pystr) (enc : json -> pystr) (l : list json) :
  (1 <= length sep)%nat ->
  Forall (fun x => (size x <= length (enc x))%nat) l ->
  (list_size l <= length (Json.join sep (map enc l)) + 1)%nat.
Proof.
  intros Hsep. induction l as [|x l IH]; intros HF; [cbn; lia|].
  inversion HF as [|? ? Hx Hl]; subst. specialize (IH Hl).
  unfold list_size in *. cbn [fold_right map].
  destruct l as [|y l]; cbn [Json.join map fold_right] in *.
  - lia.
  - rewrite !length_app. lia.
Qed.

Lemma join_dict_size (sep : pystr) (enc : pystr * json -> pystr) (d : dict) :
  (1 <= length sep)%nat ->
  Forall (fun kv => (size (snd kv) <= length (enc kv))%nat) d ->
  (dict_size d <= length (Json.join sep (map enc d)) + 1)%nat.
Proof.
  intros Hsep. induction d as [|[k x] d IH]; intros HF; [cbn; lia|].
  inversion HF as [|? ? Hx Hd]; subst. specialize (IH Hd). cbn [snd] in Hx.
  unfold dict_size in *. cbn [fold_right map].
  destruct d as [|[k' y] d]; cbn [Json.join map fold_right] in *.
  - lia.
  - rewrite !length_app. lia.
Qed.

Lemma size_le_length (v : json) :
  json_value v = true ->
  forall level,
    (size v <= length (Json.encode Json.opts_indent2 level v))%nat.
Proof.
  induction v as [|b|z|r|s|l IH|d IH] using json_ind; intros Hv level;
    try (destruct (encode_start Json.opts_indent2 level _ Hv)
           as (c & t & -> & _); cbn; lia).
  - destruct l as [|x l]; [cbn; lia|].
    rewrite encode_list_indent2. cbn [size]. fold (list_size (x :: l)).
    cbn [json_value] in Hv. rewrite forallb_forall in Hv.
    assert (HF : Forall (fun y => (size y <= length
                  (Json.encode Json.opts_indent2 (S level) y))%nat) (x :: l)).
    { rewrite Forall_forall in IH |- *. intros y Hy. apply IH; auto. }
    pose proof (join_list_size (44 :: 10 :: repeat 32 (2 * S level)) _ _
                  ltac:(cbn; lia) HF) as Hj.
    cbn [length]. rewrite !length_app. cbn [length]. lia.
  - destruct d as [|[k x] d]; [cbn; lia|].
    rewrite encode_dict_indent2. cbn [size]. fold (dict_size ((k, x) :: d)).
    cbn [json_value] in Hv. apply andb_true_iff in Hv as [_ Hv].
    rewrite forallb_forall in Hv.
    assert (HF : Forall (fun kv => (size (snd kv) <= length
                  (member_text (S level) kv))%nat) ((k, x) :: d)).
    { rewrite Forall_forall in IH |- *. intros [k' y] Hy. cbn [snd].
      specialize (Hv _ Hy). cbn in Hv. apply andb_true_iff in Hv as [_ Hv].
      specialize (IH _ Hy Hv (S level)). cbn [snd] in IH.
      unfold member_text. rewrite !length_app. lia. }
    pose proof (join_dict_size (44 :: 10 :: repeat 32 (2 * S level)) _ _
                  ltac:(cbn; lia) HF) as Hj.
    cbn [length]. rewrite !length_app. cbn [length]. lia.
Qed.

Lemma representable_value (v : json) :
  json_representable v = true -> json_value v = true.
Proof.
  induction v as [|b|z|r|s|l IH|d IH] using json_ind;
    cbn [json_representable json_value]; intros Hv; try reflexivity.
  - unfold float_repr. now rewrite Hv.
  - now apply well_formed_unpaired.
  - rewrite forallb_forall in Hv |- *. rewrite Forall_forall in IH.
    intros x Hx. apply IH; auto.
  - apply andb_true_iff in Hv as [Hd Hv]. rewrite Hd. cbn [andb].
    rewrite forallb_forall in Hv |- *. rewrite Forall_forall in IH.
    intros [k x] Hkx. specialize (Hv _ Hkx). cbn in Hv.
    apply andb_true_iff in Hv as [Hk Hx].
    rewrite (well_formed_unpaired _ Hk). cbn [andb].
    apply (IH _ Hkx). exact Hx.
Qed.

(** [json.loads(json.dumps(v, indent=2))] is [v]. *)
Lemma loads_dumps_value (v : json) :
  json_value v = true ->
  JsonDecoder.loads (Json.dumps Json.opts_indent2 v) = Ok v.
Proof.
  intros Hv. unfold JsonDecoder.loads, Json.dumps.
  pose proof (size_le_length v Hv 0%nat) as Hsize.
  pose proof (scan_once_encode v Hv 0%nat
                (S (length (Json.encode Json.opts_indent2 0 v))) []
                ltac:(lia) I) as Hscan.
  rewrite List.app_nil_r in Hscan.
  destruct (encode_start Json.opts_indent2 0%nat v Hv) as (c & t & E & Hc).
  rewrite E in *.
  rewrite skip_ws_start by exact Hc. rewrite Hscan.
  cbn [startswith]. unfold value_start in Hc.
  rewrite (proj2 (Z.eqb_neq c 65279)) by lia. reflexivity.
Qed.

Lemma loads_dumps_indent2 (v : json) :
  json_representable v = true ->
  JsonDecoder.loads (Json.dumps Json.opts_indent2 v) = Ok v.
Proof. intros Hv. now apply loads_dumps_value, representable_value. Qed.

(** ** The text of [dumps] is ASCII *)

Lemma hex_digit_ascii (d : Z) : 0 <= d < 16 -> is_ascii (hex_digit d).
Proof.
  unfold hex_digit, is_ascii. intros H. destruct (d <? 10); lia.
Qed.

Lemma u_escape_ascii (n : Z) :
  0 <= n < 65536 -> Forall is_ascii (Json.u_escape n).
Proof.
  intros H. unfold Json.u_escape, Json.hex4.
  repeat constructor; try (unfold is_ascii; lia); apply hex_digit_ascii; zdm.
Qed.

Lemma escape_char_ascii_cp (c : Z) :
  is_code_point c = true -> Forall is_ascii (Json.escape_char c).
Proof.
  intros Hc. apply is_code_point_range in Hc. unfold Json.escape_char.
  repeat match goal with
  | |- Forall _ (if ?a =? ?b then _ else _) =>
      destruct (a =? b); [repeat constructor; unfold is_ascii; lia|]
  end.
  destruct ((32 <=? c) && (c <=? 126)) eqn:Hp.
  { apply andb_true_iff in Hp as [Ha Hb].
    apply Z.leb_le in Ha. apply Z.leb_le in Hb.
    constructor; [unfold is_ascii; lia | constructor]. }
  destruct (Z.ltb_spec c 65536).
  - apply u_escape_ascii. lia.
  - apply Forall_app. split; apply u_escape_ascii; zdm.
Qed.

Lemma escape_char_ascii (c : Z) :
  is_scalar c = true -> Forall is_ascii (Json.escape_char c).
Proof. intros Hc. now apply escape_char_ascii_cp, is_scalar_code_point. Qed.

Lemma join_forall (P : Z -> Prop) (sep : pystr) (ps : list pystr) :
  Forall P sep -> Forall (Forall P) ps -> Forall P (Json.join sep ps).
Proof.
  intros Hsep. induction ps as [|p ps IH]; intros HF; [constructor|].
  inversion HF; subst. destruct ps as [|q ps]; cbn [Json.join]; [assumption|].
  apply Forall_app; split; [assumption|].
  apply Forall_app; split; [assumption|]. now apply IH.
Qed.

Lemma indent_ascii (n : nat) : Forall is_ascii (10 :: repeat 32 n).
Proof.
  constructor; [unfold is_ascii; lia|].
  induction n; cbn [repeat]; constructor; auto. unfold is_ascii; lia.
Qed.

Lemma unpaired_code_points (s : pystr) :
  unpaired s = true -> forallb is_code_point s = true.
Proof.
  induction s as [|c s IH]; cbn [unpaired forallb]; [reflexivity|].
  rewrite !andb_true_iff. intros [[Hc _] Hs]. auto.
Qed.

Lemma basestring_ascii_cp (s : pystr) :
  forallb is_code_point s = true ->
  Forall is_ascii (Json.encode_basestring_ascii s).
Proof.
  intros Hs. unfold Json.encode_basestring_ascii.
  constructor; [unfold is_ascii; lia|].
  apply Forall_app; split; [|repeat constructor; unfold is_ascii; lia].
  rewrite forallb_forall in Hs.
  induction s as [|c s IH]; cbn [flat_map]; [constructor|].
  apply Forall_app; split.
  - apply escape_char_ascii_cp. apply Hs. now left.
  - apply IH. intros x Hx. apply Hs. now right.
Qed.

Lemma basestring_ascii (s : pystr) :
  well_formed_text s = true ->
  Forall is_ascii (Json.encode_basestring_ascii s).
Proof.
  intros Hs.
  now apply basestring_ascii_cp, unpaired_code_points, well_formed_unpaired.
Qed.

Ltac ascii_closed :=
  match goal with
  | |- Forall _ ?l =>
      let l' := eval vm_compute in l in
      change l with l'; repeat constructor; unfold is_ascii; lia
  end.

Lemma encode_ascii_value (v : json) :
  json_value v = true ->
  forall level, Forall is_ascii (Json.encode Json.opts_indent2 level v).
Proof.
  induction v as [|b|z|r|s|l IH|d IH] using json_ind; intros Hv level.
  - ascii_closed.
  - destruct b; ascii_closed.
  - cbn [Json.encode].
    eapply Forall_impl; [|apply str_of_int_chars].
    unfold digit_char, is_ascii. lia.
  - cbn [Json.encode json_value] in *.
    destruct (float_repr_cases _ Hv) as [[Ht ->]|[[-> ->]|[-> ->]]];
      [|ascii_closed|ascii_closed].
    apply float_text_match in Ht as (i & f & e & Hm & _).
    now apply match_number_split in Hm as (_ & HF & _).
  - cbn [Json.encode]. now apply basestring_ascii_cp, unpaired_code_points.
  - destruct l as [|x l]; [ascii_closed|].
    rewrite encode_list_indent2.
    cbn [json_value] in Hv. rewrite forallb_forall in Hv.
    constructor; [unfold is_ascii; lia|].
    change (10 :: repeat 32 (2 * S level) ++ ?t)
      with ((10 :: repeat 32 (2 * S level)) ++ t).
    apply Forall_app; split; [apply indent_ascii|].
    apply Forall_app; split.
    + apply join_forall.
      * constructor; [unfold is_ascii; lia|apply indent_ascii].
      * rewrite Forall_forall in IH |- *. intros p Hp.
        apply in_map_iff in Hp as (y & <- & Hy). apply IH; auto.
    + change (10 :: repeat 32 (2 * level) ++ [93])
        with ((10 :: repeat 32 (2 * level)) ++ [93]).
      apply Forall_app; split; [apply indent_ascii|].
      repeat constructor; unfold is_ascii; lia.
  - destruct d as [|[k x] d]; [ascii_closed|].
    rewrite encode_dict_indent2.
    cbn [json_value] in Hv. apply andb_true_iff in Hv as [_ Hv].
    rewrite forallb_forall in Hv.
    constructor; [unfold is_ascii; lia|].
    change (10 :: repeat 32 (2 * S level) ++ ?t)
      with ((10 :: repeat 32 (2 * S level)) ++ t).
    apply Forall_app; split; [apply indent_ascii|].
    apply Forall_app; split.
    + apply join_forall.
      * constructor; [unfold is_ascii; lia|apply indent_ascii].
      * rewrite Forall_forall in IH |- *. intros p Hp.
        apply in_map_iff in Hp as ([k' y] & <- & Hy).
        specialize (Hv _ Hy). cbn in Hv.
        apply andb_true_iff in Hv as [Hk Hy'].
        unfold member_text.
        apply Forall_app; split;
          [now apply basestring_ascii_cp, unpaired_code_points|].
        apply Forall_app; split; [repeat constructor; unfold is_ascii; lia|].
        apply (IH _ Hy Hy').
    + change (10 :: repeat 32 (2 * level) ++ [125])
        with ((10 :: repeat 32 (2 * level)) ++ [125]).
      apply Forall_app; split; [apply indent_ascii|].
      repeat constructor; unfold is_ascii; lia.
Qed.

Lemma encode_ascii (v : json) :
  json_representable v = true ->
  forall level, Forall is_ascii (Json.encode Json.opts_indent2 level v).
Proof. intros Hv. now apply encode_ascii_value, representable_value. Qed.

Lemma utf8_encode_ascii (s : pystr) :
  Forall is_ascii s -> utf8_encode s = Ok s.
Proof.
  induction 1 as [|c s Hc _ IH]; [reflexivity|].
  cbn [utf8_encode]. unfold utf8_encode_cp, is_ascii in *.
  replace ((0 <=? c) && (c <? 128)) with true
    by (symmetry; apply andb_true_iff; split;
        [apply Z.leb_le | apply Z.ltb_lt]; lia).
  cbn [bind]. rewrite IH. reflexivity.
Qed.

Lemma utf8_encode_well_formed (s : pystr) :
  well_formed_text s = true -> exists bs, utf8_encode s = Ok bs.
Proof.
  unfold well_formed_text.
  induction s as [|c s IH]; cbn [forallb utf8_encode]; intros H; [eauto|].
  apply andb_true_iff in H as [Hc Hs]. destruct (IH Hs) as [bs ->].
  apply is_scalar_range in Hc.
  assert (Hcp : exists b, utf8_encode_cp c = Ok b).
  { unfold utf8_encode_cp.
    destruct (Z.lt_ge_cases c 128); [bool_ranges; eauto|].
    destruct (Z.lt_ge_cases c 2048); [bool_ranges; eauto|].
    destruct (Z.lt_ge_cases c 65536); destruct Hc; bool_ranges; eauto. }
  destruct Hcp as [b ->]. cbn [bind]. eauto.
Qed.

(** ** The simulated cipher *)

Lemma xor_with_key_involutive (key data : bytes) (i : nat) :
  SealEncryptor.xor_with_key key i (SealEncryptor.xor_with_key key i data)
  = data.
Proof.
  revert i; induction data as [|x data IH]; intros i;
    cbn [SealEncryptor.xor_with_key]; [reflexivity|].
  rewrite IH, Z.lxor_assoc, Z.lxor_nilpotent, Z.lxor_0_r. reflexivity.
Qed.

Lemma header_skip (data : bytes) :
  startswith (SealEncryptor.header ++ data) SealEncryptor.header = true
  /\ skipn 12 (SealEncryptor.header ++ data) = data.
Proof. split; [apply startswith_app | reflexivity]. Qed.

(** ** C3 and C7: encryption and decryption of the evidence *)

Lemma derive_key_same_policy (c c' : SealEncryptor.SealConfig) (m : pystr) :
  SealEncryptor.seal_policy_id c' = SealEncryptor.seal_policy_id c ->
  SealEncryptor.derive_key c' m = SealEncryptor.derive_key c m.
Proof. unfold SealEncryptor.derive_key. now intros ->. Qed.

Lemma decrypt_same_policy (c c' : SealEncryptor.SealConfig)
    (blob : bytes) (m : pystr) :
  SealEncryptor.seal_policy_id c' = SealEncryptor.seal_policy_id c ->
  SealEncryptor.decrypt_evidence c' blob m
  = SealEncryptor.decrypt_evidence c blob m.
Proof.
  intros H. unfold SealEncryptor.decrypt_evidence.
  now rewrite (derive_key_same_policy _ _ _ H).
Qed.

Lemma decrypt_encrypted_value (c : SealEncryptor.SealConfig) (e : dict)
    (m : pystr) (enc : SealEncryptor.EncryptedEvidence) :
  json_value (JDict e) = true ->
  SealEncryptor.encrypt_evidence c e m = Ok enc ->
  SealEncryptor.decrypt_evidence c (SealEncryptor.encrypted_blob enc) m
  = Ok (JDict e).
Proof.
  intros Hwf H. unfold SealEncryptor.encrypt_evidence in H.
  inv_bind H. inv_bind H. inv_bind H. apply Ok_inj in H. subst enc.
  cbn [SealEncryptor.encrypted_blob].
  unfold SealEncryptor._simulate_seal_encryption in Hx1.
  inv_bind Hx1. apply Ok_inj in Hx1. subst x1.
  unfold SealEncryptor.decrypt_evidence.
  destruct (header_skip (SealEncryptor.xor_with_key x2 0 x0)) as [-> ->].
  cbn [negb]. rewrite Hx2. cbn [bind].
  rewrite xor_with_key_involutive.
  rewrite (utf8_decode_encode _ _ Hx0). cbn [bind].
  now apply loads_dumps_value.
Qed.

Lemma decrypt_encrypted (c : SealEncryptor.SealConfig) (e : dict)
    (m : pystr) (enc : SealEncryptor.EncryptedEvidence) :
  json_representable (JDict e) = true ->
  SealEncryptor.encrypt_evidence c e m = Ok enc ->
  SealEncryptor.decrypt_evidence c (SealEncryptor.encrypted_blob enc) m
  = Ok (JDict e).
Proof.
  intros Hwf. now apply decrypt_encrypted_value, representable_value.
Qed.

Lemma encrypt_returns_value (c : SealEncryptor.SealConfig) (e : dict)
    (m : pystr) :
  json_value (JDict e) = true ->
  tee_attestation_ok e = true ->
  well_formed_text (SealEncryptor.seal_policy_id c) = true ->
  well_formed_text m = true ->
  exists enc, SealEncryptor.encrypt_evidence c e m = Ok enc.
Proof.
  intros Hwf Htee Hp Hm. unfold SealEncryptor.encrypt_evidence.
  pose proof (public_summary_produced e m) as Hs. rewrite Htee in Hs.
  destruct Hs as [s ->]. cbn [bind]. unfold Json.dumps.
  rewrite (utf8_encode_ascii _ (encode_ascii_value _ Hwf 0%nat)). cbn [bind].
  unfold SealEncryptor._simulate_seal_encryption, SealEncryptor.derive_key.
  destruct (utf8_encode_well_formed
              (SealEncryptor.seal_policy_id c ++ py ":" ++ m)) as [seed ->].
  - unfold well_formed_text in *. rewrite !forallb_app, Hp, Hm.
    reflexivity.
  - cbn [bind]. eauto.
Qed.

Lemma encrypt_returns (c : SealEncryptor.SealConfig) (e : dict) (m : pystr) :
  json_representable (JDict e) = true ->
  tee_attestation_ok e = true ->
  well_formed_text (SealEncryptor.seal_policy_id c) = true ->
  well_formed_text m = true ->
  exists enc, SealEncryptor.encrypt_evidence c e m = Ok enc.
Proof.
  intros Hwf. now apply encrypt_returns_value, representable_value.
Qed.

(** A value without NaN compares equal to itself. *)
Lemma distinct_lookup (d : dict) (k : pystr) (x : json) :
  distinct (keys d) = true -> In (k, x) d -> dict_lookup d k = Some x.
Proof.
  induction d as [|[k' x'] d IH]; cbn [keys map fst distinct dict_lookup In];
    [tauto|].
  intros Hd [E|Hin].
  - injection E as -> ->. now rewrite str_eqb_refl.
  - apply andb_true_iff in Hd as [Hk Hd]. fold (keys d) in Hk.
    destruct (str_eqb k' k) eqn:E; [|now apply IH].
    apply str_eqb_eq in E. subst k'. apply negb_true_iff in Hk.
    exfalso. apply not_true_iff_false in Hk. apply Hk.
    apply existsb_exists. exists k. split; [|apply str_eqb_refl].
    unfold keys. apply in_map_iff. now exists (k, x).
Qed.

Lemma py_eq_refl (v : json) : json_value v = true -> py_eq v v = true.
Proof.
  induction v as [|b|z|r|s|l IH|d IH] using json_ind;
    cbn [json_value]; intros Hv.
  - reflexivity.
  - cbn [py_eq scalar_eq as_number num_compare]. now rewrite Z.compare_refl.
  - cbn [py_eq scalar_eq as_number num_compare]. now rewrite Z.compare_refl.
  - cbn [py_eq scalar_eq as_number].
    destruct (float_repr_cases _ Hv) as [[Ht _]|[[-> _]|[-> _]]];
      [|reflexivity|reflexivity].
    unfold float_number.
    destruct (str_eqb r (py "inf")) eqn:E1;
      [apply str_eqb_eq in E1; subst r; discriminate Ht|].
    destruct (str_eqb r (py "-inf")) eqn:E2;
      [apply str_eqb_eq in E2; subst r; discriminate Ht|].
    destruct (str_eqb r (py "nan")) eqn:E3;
      [apply str_eqb_eq in E3; subst r; discriminate Ht|].
    apply float_text_match in Ht as (i & f & e & -> & _).
    cbn [num_compare]. now rewrite Z.compare_refl.
  - cbn [py_eq scalar_eq]. apply str_eqb_refl.
  - cbn [py_eq]. rewrite forallb_forall in Hv.
    induction IH as [|x l Hx _ IHl]; [reflexivity|].
    rewrite Hx by (apply Hv; now left). cbn [andb].
    apply IHl. intros y Hy. apply Hv. now right.
  - cbn [py_eq]. rewrite Nat.eqb_refl. cbn [andb].
    apply andb_true_iff in Hv as [Hd Hv].
    rewrite forallb_forall in Hv |- *. rewrite Forall_forall in IH.
    intros [k x] Hkx. rewrite (distinct_lookup d k x Hd Hkx).
    specialize (Hv _ Hkx). cbn in Hv. apply andb_true_iff in Hv as [_ Hx].
    exact (IH _ Hkx Hx).
Qed.

(** C3, counterexample. Evidence that is JSON-representable but carries
    a [tee_attestation] that is not a mapping is not encrypted at all:
    [encrypt_evidence] raises [AttributeError] while it builds the public
    summary, so there is no blob to decrypt. *)
Lemma encrypt_rejects_null_attestation :
  json_representable (JDict evidence_null_attestation) = true
  /\ SealEncryptor.encrypt_evidence
       config_example evidence_null_attestation (py "0xmarket123")
     = Raise AttributeError.
Proof. split; reflexivity. Qed.

(** C3, outside the amended claim. Text that holds the two halves of
    a surrogate pair as two characters is written as two escapes,
    which [json.loads] reads as the one character they encode: the
    evidence that comes back is another one. *)
Lemma roundtrip_joins_surrogate_pair :
  exists enc,
    SealEncryptor.encrypt_evidence
      config_example evidence_surrogate_pair (py "0xmarket123") = Ok enc
    /\ SealEncryptor.decrypt_evidence
         config_example (SealEncryptor.encrypted_blob enc) (py "0xmarket123")
       = Ok (JDict evidence_joined_pair)
    /\ py_eq (JDict evidence_joined_pair) (JDict evidence_surrogate_pair)
       = false.
Proof.
  eexists. split; [vm_compute; reflexivity|].
  split; vm_compute; reflexivity.
Qed.

(** C3, outside the amended claim. NaN is written and read back, and
    the evidence that comes back is not equal to the one that went in,
    since NaN is equal to nothing. *)
Lemma roundtrip_nan_unequal :
  exists enc,
    SealEncryptor.encrypt_evidence
      config_example evidence_nan (py "0xmarket123") = Ok enc
    /\ SealEncryptor.decrypt_evidence
         config_example (SealEncryptor.encrypted_blob enc) (py "0xmarket123")
       = Ok (JDict evidence_nan)
    /\ py_eq (JDict evidence_nan) (JDict evidence_nan) = false.
Proof.
  eexists. split; [vm_compute; reflexivity|].
  split; vm_compute; reflexivity.
Qed.

(** C3, amended. For evidence made of mappings with distinct text
    keys, sequences, text, numbers other than NaN, booleans and null,
    in which no high surrogate is directly followed by a low one, which
    is within the limits of the interpreter and whose
    [tee_attestation], when present, is a mapping, and for a policy
    identifier and a market id that are well-formed text,
    [encrypt_evidence] returns, and [decrypt_evidence] with the same
    market id and policy returns the evidence: the same value, equal
    to the one that went in. *)
Theorem encrypt_decrypt_roundtrip
    (c : SealEncryptor.SealConfig) (e : dict) (m : pystr) :
  json_value (JDict e) = true ->
  within_limits (JDict e) = true ->
  tee_attestation_ok e = true ->
  well_formed_text (SealEncryptor.seal_policy_id c) = true ->
  well_formed_text m = true ->
  exists enc evidence,
    SealEncryptor.encrypt_evidence c e m = Ok enc
    /\ SealEncryptor.decrypt_evidence
         c (SealEncryptor.encrypted_blob enc) m = Ok evidence
    /\ evidence = JDict e
    /\ py_eq evidence (JDict e) = true.
Proof.
  intros Hwf _ Htee Hp Hm.
  destruct (encrypt_returns_value c e m Hwf Htee Hp Hm) as [enc Henc].
  exists enc, (JDict e). split; [exact Henc|].
  split; [now apply decrypt_encrypted_value|].
  split; [reflexivity | now apply py_eq_refl].
Qed.

(** Evidence with an infinite number and lone surrogates, under the
    example configuration. *)
Lemma encrypt_decrypt_roundtrip_witness :
  exists enc evidence,
    SealEncryptor.encrypt_evidence
      config_example evidence_unusual (py "0xmarket123") = Ok enc
    /\ SealEncryptor.decrypt_evidence
         config_example (SealEncryptor.encrypted_blob enc) (py "0xmarket123")
       = Ok evidence
    /\ evidence = JDict evidence_unusual
    /\ py_eq evidence (JDict evidence_unusual) = true.
Proof.
  apply (encrypt_decrypt_roundtrip
           config_example evidence_unusual (py "0xmarket123"));
    reflexivity.
Defined.

Lemma encrypt_example_returns :
  exists enc,
    SealEncryptor.encrypt_evidence
      config_example evidence_example (py "0xmarket123") = Ok enc.
Proof. apply encrypt_returns; reflexivity. Defined.

(** C7, counterexample. A configuration with the same policy identifier
    and no key server at all decrypts the blob and gets the plaintext:
    no key material is supplied and no error is raised. *)
Lemma decrypt_without_key_material :
  SealEncryptor.key_servers config_no_servers = []
  /\ exists enc,
       SealEncryptor.encrypt_evidence
         config_example evidence_example (py "0xmarket123") = Ok enc
       /\ SealEncryptor.decrypt_evidence
            config_no_servers (SealEncryptor.encrypted_blob enc)
            (py "0xmarket123")
          = Ok (JDict evidence_example).
Proof.
  split; [reflexivity|].
  destruct encrypt_example_returns as [enc Henc].
  exists enc. split; [exact Henc|].
  rewrite (decrypt_same_policy config_example config_no_servers)
    by reflexivity.
  now apply decrypt_encrypted.
Qed.

(** C7, amended. [decrypt_evidence] takes no key material and checks no
    threshold. Its result is fixed by the blob, the market id and the
    policy identifier: two configurations with the same policy
    identifier, whatever their thresholds and key servers, decrypt alike,
    so a blob made by [encrypt_evidence] is decrypted to its plaintext.
    The only gate is the format tag: a blob that does not start with
    SEAL_ENC_V1: raises [ValueError]. *)
Theorem decrypt_evidence_not_gated
    (c c' : SealEncryptor.SealConfig) (e : dict) (m : pystr)
    (enc : SealEncryptor.EncryptedEvidence) :
  SealEncryptor.seal_policy_id c' = SealEncryptor.seal_policy_id c ->
  json_representable (JDict e) = true ->
  SealEncryptor.encrypt_evidence c e m = Ok enc ->
  SealEncryptor.decrypt_evidence c' (SealEncryptor.encrypted_blob enc) m
  = Ok (JDict e)
  /\ (forall blob,
        SealEncryptor.decrypt_evidence c' blob m
        = SealEncryptor.decrypt_evidence c blob m)
  /\ (forall blob,
        startswith blob SealEncryptor.header = false ->
        SealEncryptor.decrypt_evidence c' blob m = Raise ValueError).
Proof.
  intros Hp Hwf Henc. split; [|split].
  - rewrite (decrypt_same_policy _ _ _ _ Hp). now apply decrypt_encrypted.
  - intros blob. now apply decrypt_same_policy.
  - intros blob Hb. unfold SealEncryptor.decrypt_evidence. now rewrite Hb.
Qed.

(** The example blob, decrypted under the configuration without key
    servers. *)
Lemma decrypt_evidence_not_gated_witness :
  exists enc,
    SealEncryptor.encrypt_evidence
      config_example evidence_example (py "0xmarket123") = Ok enc
    /\ SealEncryptor.decrypt_evidence
         config_no_servers (SealEncryptor.encrypted_blob enc)
         (py "0xmarket123")
       = Ok (JDict evidence_example)
    /\ (forall blob,
          SealEncryptor.decrypt_evidence config_no_servers blob
            (py "0xmarket123")
          = SealEncryptor.decrypt_evidence config_example blob
              (py "0xmarket123"))
    /\ (forall blob,
          startswith blob SealEncryptor.header = false ->
          SealEncryptor.decrypt_evidence config_no_servers blob
            (py "0xmarket123") = Raise ValueError).
Proof.
  destruct encrypt_example_returns as [enc Henc].
  exists enc. split; [exact Henc|].
  apply (decrypt_evidence_not_gated
           config_example config_no_servers evidence_example
           (py "0xmarket123") enc);
    [reflexivity | reflexivity | exact Henc].
Defined.

(** ** Hexadecimal text of bytes *)

Lemma hex_digit_not_space (d : Z) :
  0 <= d < 16 -> is_space (hex_digit d) = false.
Proof.
  intros H. unfold is_space, hex_digit. destruct (d <? 10); ztest; reflexivity.
Qed.

Lemma fromhex_hex (bs : bytes) :
  Forall is_byte bs -> fromhex (hex bs) = Ok bs.
Proof.
  unfold hex. induction 1 as [|b bs Hb _ IH]; [reflexivity|].
  unfold is_byte in Hb. cbn [flat_map app fromhex].
  rewrite hex_digit_not_space, !hex_value_digit by zdm.
  rewrite IH. cbn [bind]. do 2 f_equal. zdm.
Qed.

Lemma be_bytes_length (n : nat) (x : Z) : length (hashlib.be_bytes n x) = n.
Proof. induction n; cbn [hashlib.be_bytes length]; congruence. Qed.

Lemma be_bytes_range (n : nat) (x : Z) :
  Forall is_byte (hashlib.be_bytes n x).
Proof.
  induction n; cbn [hashlib.be_bytes]; constructor; auto.
  unfold is_byte. apply Z.mod_pos_bound. lia.
Qed.

Lemma der_int_range (x : Z) :
  0 <= x < 2 ^ 256 ->
  Forall is_byte (P256.der_int x) /\ (length (P256.der_int x) <= 35)%nat.
Proof.
  intros Hx. unfold P256.der_int, P256.der_int_content.
  assert (Hn : (Z.to_nat (Z.log2 x / 8 + 1) <= 32)%nat).
  { assert (Z.log2 x < 256).
    { destruct (Z.eq_dec x 0) as [->|]; [cbn; lia|].
      apply Z.log2_lt_pow2; lia. }
    pose proof (Z.log2_nonneg x). zdm. }
  set (n := Z.to_nat (Z.log2 x / 8 + 1)) in *.
  pose proof (be_bytes_length n x) as Hl.
  pose proof (be_bytes_range n x) as Hr.
  destruct (hashlib.be_bytes n x) as [|b0 bs] eqn:E.
  - split; [|cbn; lia]. repeat constructor; unfold is_byte; lia.
  - destruct (128 <=? b0); cbn [length] in *.
    + split; [|lia].
      constructor; [unfold is_byte; lia|].
      constructor; [unfold is_byte; lia|].
      constructor; [unfold is_byte; lia|]. exact Hr.
    + split; [|lia].
      constructor; [unfold is_byte; lia|].
      constructor; [unfold is_byte; lia|]. exact Hr.
Qed.

Lemma der_encode_range (r s : Z) :
  0 <= r < 2 ^ 256 -> 0 <= s < 2 ^ 256 ->
  Forall is_byte (P256.der_encode r s).
Proof.
  intros Hr Hs. unfold P256.der_encode.
  destruct (der_int_range r Hr) as [Fr Lr].
  destruct (der_int_range s Hs) as [Fs Ls].
  constructor; [unfold is_byte; lia|].
  constructor; [unfold is_byte; rewrite length_app; lia|].
  apply Forall_app; auto.
Qed.

Lemma order_range : 0 < BigZ.to_Z P256.n < 2 ^ 256.
Proof. split; vm_compute; reflexivity. Qed.

Lemma sign_rs_range (d k z : Z) :
  0 <= fst (P256.sign_rs d k z) < 2 ^ 256
  /\ 0 <= snd (P256.sign_rs d k z) < 2 ^ 256.
Proof.
  pose proof order_range as Hn.
  unfold P256.sign_rs.
  destruct (P256.affine_x _) as [x|]; cbn [fst snd]; [|lia].
  rewrite !BigZ.spec_modulo.
  split; match goal with
         | |- _ <= ?a mod ?m < _ =>
             pose proof (Z.mod_pos_bound a m ltac:(lia)); lia
         end.
Qed.

Lemma sign_bytes (d k : Z) (digest sig : bytes) :
  P256.sign d k digest = Ok sig -> Forall is_byte sig.
Proof.
  unfold P256.sign. destruct (negb _); [discriminate|].
  pose proof (sign_rs_range d k (hashlib.be_word digest)) as [Hr Hs].
  destruct (P256.sign_rs d k (hashlib.be_word digest)) as [r s].
  cbn [fst snd] in *. intros H. apply Ok_inj in H. subst sig.
  now apply der_encode_range.
Qed.

(** ** ECDSA reads the digest modulo the group order *)




(** ** C2: signing and verification *)

Lemma verify_signature_hex (self : TEESignatureGenerator.t)
    (digest sig : bytes) :
  Forall is_byte sig ->
  TEESignatureGenerator.verify_signature self digest (py "0x" ++ hex sig)
  = accepted (P256.verify (TEESignatureGenerator.public_key self) sig digest).
Proof.
  intros Hsig. unfold TEESignatureGenerator.verify_signature.
  change (py "0x") with [48; 120]. cbn [app skipn].
  rewrite (fromhex_hex _ Hsig). cbn [bind].
  now destruct (P256.verify _ _ _).
Qed.


Lemma sign_returns (d k : Z) (digest : bytes) :
  length digest = 32%nat -> exists sig, P256.sign d k digest = Ok sig.
Proof.
  intros H. unfold P256.sign. rewrite H. cbn [Nat.eqb negb].
  destruct (P256.sign_rs _ _ _). eauto.
Qed.




(** SHA-256 on the test vector of FIPS 180-4: the digest of "abc". *)
Example sha256_test_vector :
  sha256_hex (py "abc")
  = py "ba7816bf8f01cfea414140de5dae2223b00361a396177a9cb410ff61f20015ad".
Proof. vm_compute. reflexivity. Qed.

(** The base point satisfies the curve equation. *)
Example base_point_on_curve :
  BigZ.to_Z ((P256.Gy * P256.Gy) mod P256.p)%bigZ
  = BigZ.to_Z ((P256.Gx * P256.Gx * P256.Gx + P256.a * P256.Gx + P256.b)
               mod P256.p)%bigZ.
Proof. vm_compute. reflexivity. Qed.

(** The model of the primitive on a published test vector (RFC 6979,
    A.2.5, SHA-256, message "sample"), and a signature accepted by
    [verify_signature]. *)
Example ecdsa_test_vector :
  P256.sign
    91225253027397101270059260515990221874496108017261222445699397644687913215777
    75486370184466523516702714224272210659255809472406410223340475427961162083680
    (hashlib.sha256 (py "sample"))
  = fromhex (py "3046022100efd48b2aacb6a8fd1140dd9cd45e81d69d2c877b56aaf991c34d0ea84eaf3716022100f7cb1c942d657c41d436c7a1b6e29f65f3e900dbb9aff4064dc4ab2f843acda8").
Proof. vm_compute. reflexivity. Qed.

Example sign_then_verify_example :
  exists s,
    TEESignatureGenerator.sign_report signer_example 5 digest_one = Ok s
    /\ TEESignatureGenerator.verify_signature signer_example digest_one s
       = true.
Proof.
  eexists. split; [vm_compute; reflexivity | vm_compute; reflexivity].
Qed.

(** ** C9: the proof carries what the digest was built from *)




(** On the example proof the signature verifies against the rebuilt
    digest, and a signer with another key rejects it. *)
Example tee_proof_example_verifies :
  exists proof digest signature,
    TEESignatureGenerator.create_tee_proof
      signer_example env_example nested_example one_member
      (py "blobA") (py "0x33") = Ok proof
    /\ recompute_digest proof = Ok digest
    /\ str_field proof (py "sig") = Ok signature
    /\ TEESignatureGenerator.verify_signature signer_example digest signature
       = true
    /\ TEESignatureGenerator.verify_signature other_signer digest signature
       = false.
Proof.
  eexists _, _, _.
  split; [vm_compute; reflexivity|].
  split; [vm_compute; reflexivity|].
  split; [vm_compute; reflexivity|].
  split; [vm_compute; reflexivity | vm_compute; reflexivity].
Qed.

(* ================================================================== *)
(** * Part III: further properties of the oracle's code                *)
(* ================================================================== *)

(** ** The shape of a SHA-256 digest and of its hexadecimal text *)

Lemma round_length (st : list Z) (kw : Z * Z) :
  length (hashlib.round st kw) = length st.
Proof.
  unfold hashlib.round.
  do 9 (destruct st as [|? st]; [reflexivity|]). reflexivity.
Qed.

Lemma fold_round_length (l : list (Z * Z)) (h : list Z) :
  length (fold_left hashlib.round l h) = length h.
Proof.
  revert h; induction l as [|kw l IH]; intros h; cbn [fold_left];
    [reflexivity|].
  now rewrite IH, round_length.
Qed.

Lemma compress_length (h : list Z) (block : bytes) :
  length (hashlib.compress h block) = length h.
Proof.
  unfold hashlib.compress.
  rewrite length_map, length_combine, fold_round_length. lia.
Qed.

Lemma fold_compress_length (blocks : list bytes) (h : list Z) :
  length (fold_left hashlib.compress blocks h) = length h.
Proof.
  revert h; induction blocks as [|b l IH]; intros h; cbn [fold_left];
    [reflexivity|].
  now rewrite IH, compress_length.
Qed.

Lemma flat_map_be_bytes_length (n : nat) (ws : list Z) :
  length (flat_map (hashlib.be_bytes n) ws) = (n * length ws)%nat.
Proof.
  induction ws as [|w ws IH]; cbn [flat_map length]; [lia|].
  rewrite length_app, be_bytes_length, IH. lia.
Qed.

Lemma sha256_length (msg : bytes) : length (hashlib.sha256 msg) = 32%nat.
Proof.
  unfold hashlib.sha256.
  now rewrite flat_map_be_bytes_length, fold_compress_length.
Qed.

Lemma sha256_bytes (msg : bytes) : Forall is_byte (hashlib.sha256 msg).
Proof.
  unfold hashlib.sha256. apply Forall_flat_map, Forall_forall.
  intros w _. apply be_bytes_range.
Qed.

Lemma hex_length (bs : bytes) : length (hex bs) = (2 * length bs)%nat.
Proof.
  induction bs as [|b bs IH]; cbn [hex flat_map length app]; [reflexivity|].
  fold (hex bs). rewrite IH. lia.
Qed.

Lemma hex_digit_lower (d : Z) :
  0 <= d < 16 -> is_hex_lower (hex_digit d) = true.
Proof.
  intros H. unfold is_hex_lower, hex_digit.
  destruct (Z.ltb_spec d 10); apply orb_true_iff; [left|right];
    apply andb_true_iff; split; apply Z.leb_le; lia.
Qed.

Lemma hex_lower (bs : bytes) :
  Forall is_byte bs -> forallb is_hex_lower (hex bs) = true.
Proof.
  induction 1 as [|b bs Hb _ IH]; [reflexivity|].
  unfold is_byte in Hb. cbn [hex flat_map app forallb]. fold (hex bs).
  rewrite IH, !hex_digit_lower by zdm. reflexivity.
Qed.

Lemma hex_inj (a b : bytes) :
  Forall is_byte a -> Forall is_byte b -> hex a = hex b -> a = b.
Proof.
  intros Ha Hb H. apply Ok_inj.
  rewrite <- (fromhex_hex a Ha), <- (fromhex_hex b Hb). now rewrite H.
Qed.

Lemma sha256_hex_format (msg : bytes) :
  hash_format (py "0x" ++ sha256_hex msg) = true.
Proof.
  change (py "0x" ++ sha256_hex msg) with (48 :: 120 :: sha256_hex msg).
  cbn [hash_format]. unfold sha256_hex.
  rewrite hex_length, sha256_length, (hex_lower _ (sha256_bytes msg)).
  reflexivity.
Qed.

Lemma hash_text_format (text h : pystr) :
  hash_text text = Ok h -> hash_format h = true.
Proof.
  unfold hash_text. intros H. inv_bind H. apply Ok_inj in H. subst h.
  apply sha256_hex_format.
Qed.

Lemma hash_text_ascii (text : pystr) :
  Forall is_ascii text ->
  hash_text text = Ok (py "0x" ++ sha256_hex text).
Proof.
  intros H. unfold hash_text. now rewrite (utf8_encode_ascii _ H).
Qed.

(** ** The text of [dumps] is ASCII under every layout *)

Lemma insert_item_forall {A} (P : pystr * A -> Prop) (x : pystr * A)
    (l : list (pystr * A)) :
  P x -> Forall P l -> Forall P (Json.insert_item x l).
Proof.
  intros Hx. induction 1 as [|y l Hy Hl IH]; cbn [Json.insert_item].
  - now constructor.
  - destruct (Json.str_leb (fst x) (fst y)); repeat constructor; auto.
Qed.

Lemma sort_items_forall {A} (P : pystr * A -> Prop) (l : list (pystr * A)) :
  Forall P l -> Forall P (Json.sort_items l).
Proof.
  induction 1 as [|x l Hx Hl IH]; cbn [Json.sort_items]; [constructor|].
  now apply insert_item_forall.
Qed.

Lemma newline_indent_ascii (o : Json.options) (level : nat) :
  Forall is_ascii (Json.newline_indent o level).
Proof.
  unfold Json.newline_indent. destruct (Json.indent o);
    [apply indent_ascii | constructor].
Qed.

Lemma container_ascii (o : Json.options) (level : nat) (opening closing : Z)
    (parts : list pystr) :
  is_ascii opening -> is_ascii closing ->
  Forall is_ascii (Json.item_separator o) ->
  Forall (Forall is_ascii) parts ->
  Forall is_ascii (Json.container o level opening closing parts).
Proof.
  intros Ho Hc Hsep Hparts. unfold Json.container.
  destruct parts as [|p parts];
    [constructor; [assumption | constructor; [assumption | constructor]]|].
  constructor; [assumption|].
  apply Forall_app; split; [apply newline_indent_ascii|].
  apply Forall_app; split.
  - apply join_forall; [|assumption].
    apply Forall_app; split; [assumption | apply newline_indent_ascii].
  - apply Forall_app; split; [apply newline_indent_ascii|].
    constructor; [assumption | constructor].
Qed.

Lemma encode_ascii_layout (o : Json.options) :
  Forall is_ascii (Json.item_separator o) ->
  Forall is_ascii (Json.key_separator o) ->
  forall v, json_representable v = true ->
  forall level, Forall is_ascii (Json.encode o level v).
Proof.
  intros Hi Hk.
  induction v as [|b|z|r|s|l IH|d IH] using json_ind; intros Hv level.
  - ascii_closed.
  - destruct b; ascii_closed.
  - cbn [Json.encode].
    eapply Forall_impl; [|apply str_of_int_chars].
    unfold digit_char, is_ascii. lia.
  - cbn [Json.encode json_representable] in *.
    rewrite (floatstr_float_text _ Hv).
    apply float_text_match in Hv as (i & f & e & Hm & _).
    now apply match_number_split in Hm as (_ & HF & _).
  - cbn [Json.encode]. now apply basestring_ascii.
  - cbn [Json.encode json_representable] in *.
    rewrite forallb_forall in Hv.
    apply container_ascii; try (unfold is_ascii; lia); [assumption|].
    rewrite Forall_forall in IH |- *. intros p Hp.
    apply in_map_iff in Hp as (y & <- & Hy). apply IH; auto.
  - cbn [Json.encode json_representable] in *.
    apply andb_true_iff in Hv as [_ Hv]. rewrite forallb_forall in Hv.
    apply container_ascii; try (unfold is_ascii; lia); [assumption|].
    assert (Hr : Forall (fun kt : pystr * pystr =>
                           Forall is_ascii
                             (Json.encode_basestring_ascii (fst kt)
                              ++ Json.key_separator o ++ snd kt))
                   (map (fun kv : pystr * json =>
                           match kv with
                           | (k, x) => (k, Json.encode o (S level) x)
                           end) d)).
    { rewrite Forall_forall in IH |- *. intros kt Hkt.
      apply in_map_iff in Hkt as ([k x] & <- & Hy).
      specialize (Hv _ Hy). cbn in Hv.
      apply andb_true_iff in Hv as [Hkey Hx]. cbn [fst snd].
      apply Forall_app; split; [now apply basestring_ascii|].
      apply Forall_app; split; [assumption|].
      apply (IH _ Hy Hx). }
    destruct (Json.sort_keys o).
    + apply sort_items_forall in Hr.
      rewrite Forall_forall in Hr |- *. intros p Hp.
      apply in_map_iff in Hp as (kt & <- & Hkt). now apply Hr.
    + rewrite Forall_forall in Hr |- *. intros p Hp.
      apply in_map_iff in Hp as (kt & <- & Hkt). now apply Hr.
Qed.

Lemma dumps_sorted_ascii (v : json) :
  json_representable v = true ->
  Forall is_ascii (Json.dumps Json.opts_sorted v).
Proof.
  intros Hv. apply encode_ascii_layout; [ascii_closed | ascii_closed | exact Hv].
Qed.

Lemma dumps_sorted_compact_ascii (v : json) :
  json_representable v = true ->
  Forall is_ascii (Json.dumps Json.opts_sorted_compact v).
Proof.
  intros Hv. apply encode_ascii_layout; [ascii_closed | ascii_closed | exact Hv].
Qed.
(** ** Bytes and text *)

Lemma all_bytes_Forall (bs : bytes) : all_bytes bs = true <-> Forall is_byte bs.
Proof.
  unfold all_bytes. rewrite forallb_forall, Forall_forall.
  split; intros H x Hx; specialize (H x Hx); unfold is_byte in *.
  - apply andb_true_iff in H as [Ha Hb].
    apply Z.leb_le in Ha. apply Z.ltb_lt in Hb. lia.
  - apply andb_true_iff; split; [apply Z.leb_le | apply Z.ltb_lt]; lia.
Qed.

Lemma ascii_well_formed (s : pystr) :
  Forall is_ascii s -> well_formed_text s = true.
Proof.
  unfold well_formed_text. induction 1 as [|c s Hc _ IH]; [reflexivity|].
  cbn [forallb]. rewrite IH. unfold is_ascii in Hc. unfold is_scalar.
  replace ((0 <=? c) && (c <? 55296)) with true; [reflexivity|].
  symmetry. apply andb_true_iff; split; [apply Z.leb_le | apply Z.ltb_lt]; lia.
Qed.

Lemma hex_ascii (bs : bytes) : Forall is_byte bs -> Forall is_ascii (hex bs).
Proof.
  induction 1 as [|b bs Hb _ IH]; [constructor|].
  unfold is_byte in Hb. cbn [hex flat_map app]. fold (hex bs).
  constructor; [apply hex_digit_ascii; zdm|].
  constructor; [apply hex_digit_ascii; zdm | exact IH].
Qed.

Lemma prefixed_hex_well_formed (bs : bytes) :
  Forall is_byte bs -> well_formed_text (py "0x" ++ hex bs) = true.
Proof.
  intros H. apply ascii_well_formed.
  apply Forall_app; split; [ascii_closed | now apply hex_ascii].
Qed.

Lemma well_formed_app (a b : pystr) :
  well_formed_text (a ++ b) = well_formed_text a && well_formed_text b.
Proof. apply forallb_app. Qed.

Lemma utf8_encode_cp_total (c : Z) :
  if is_scalar c then exists b, utf8_encode_cp c = Ok b
  else utf8_encode_cp c = Raise UnicodeEncodeError.
Proof.
  destruct (is_scalar c) eqn:Hc.
  - apply is_scalar_range in Hc. unfold utf8_encode_cp.
    destruct (Z.lt_ge_cases c 128); [bool_ranges; eauto|].
    destruct (Z.lt_ge_cases c 2048); [bool_ranges; eauto|].
    destruct (Z.lt_ge_cases c 65536); destruct Hc; bool_ranges; eauto.
  - unfold is_scalar in Hc. apply orb_false_iff in Hc as [H1 H2].
    unfold utf8_encode_cp.
    destruct (Z.lt_ge_cases c 0).
    { bool_ranges. reflexivity. }
    destruct (Z.lt_ge_cases c 55296).
    { exfalso. apply andb_false_iff in H1 as [H1|H1];
        [apply Z.leb_gt in H1 | apply Z.ltb_ge in H1]; lia. }
    destruct (Z.lt_ge_cases 57343 c).
    + assert (1114112 <= c).
      { apply andb_false_iff in H2 as [H2|H2];
          [apply Z.ltb_ge in H2 | apply Z.ltb_ge in H2]; lia. }
      bool_ranges. reflexivity.
    + bool_ranges. reflexivity.
Qed.

Lemma utf8_encode_total (s : pystr) :
  if well_formed_text s then exists bs, utf8_encode s = Ok bs
  else utf8_encode s = Raise UnicodeEncodeError.
Proof.
  unfold well_formed_text.
  induction s as [|c s IH]; cbn [forallb utf8_encode]; [eauto|].
  pose proof (utf8_encode_cp_total c) as Hc.
  destruct (is_scalar c); cbn [andb].
  - destruct Hc as [b ->]. cbn [bind].
    destruct (forallb is_scalar s).
    + destruct IH as [bs ->]. cbn [bind]. eauto.
    + now rewrite IH.
  - now rewrite Hc.
Qed.

Lemma str_of_int_well_formed (z : Z) : well_formed_text (str_of_int z) = true.
Proof.
  apply ascii_well_formed.
  eapply Forall_impl; [|apply str_of_int_chars].
  unfold digit_char, is_ascii. lia.
Qed.

(** ** X1: the three hash functions *)

(** X1. On every JSON-representable value within the limits of the
    interpreter [hash_input], [hash_output] and [hash_bundle] return,
    and what they return is [0x] followed by 64 lowercase hexadecimal
    digits, 66 characters in all; [hash_input] and [hash_output] return
    the same text. *)
Theorem published_hashes_format (v : json) :
  json_representable v = true ->
  within_limits v = true ->
  exists h_io h_b,
    TEESignatureGenerator.hash_input v = Ok h_io
    /\ TEESignatureGenerator.hash_output v = Ok h_io
    /\ WalrusUploader.hash_bundle v = Ok h_b
    /\ hash_format h_io = true /\ length h_io = 66%nat
    /\ hash_format h_b = true /\ length h_b = 66%nat.
Proof.
  intros Hv _.
  unfold TEESignatureGenerator.hash_input, TEESignatureGenerator.hash_output,
    WalrusUploader.hash_bundle.
  rewrite (hash_text_ascii _ (dumps_sorted_ascii v Hv)).
  rewrite (hash_text_ascii _ (dumps_sorted_compact_ascii v Hv)).
  do 2 eexists. repeat split; try apply sha256_hex_format;
    rewrite length_app; unfold sha256_hex;
    rewrite hex_length, sha256_length; reflexivity.
Qed.

Lemma published_hashes_format_witness :
  exists h_io h_b,
    TEESignatureGenerator.hash_input nested_example = Ok h_io
    /\ TEESignatureGenerator.hash_output nested_example = Ok h_io
    /\ WalrusUploader.hash_bundle nested_example = Ok h_b
    /\ hash_format h_io = true /\ length h_io = 66%nat
    /\ hash_format h_b = true /\ length h_b = 66%nat.
Proof. apply (published_hashes_format nested_example); reflexivity. Defined.

(** ** X2: the nonce *)

Lemma nonce_hash_format (random : bytes) :
  Forall is_byte random -> length random = 32%nat ->
  hash_format (TEESignatureGenerator.generate_nonce random) = true.
Proof.
  intros Hb Hl. unfold TEESignatureGenerator.generate_nonce.
  change (py "0x") with [48; 120]. cbn [app hash_format].
  now rewrite hex_length, Hl, (hex_lower _ Hb).
Qed.

(** X2. For the 32 random bytes [secrets.token_hex(32)] draws,
    [generate_nonce] returns [0x] and 64 lowercase hexadecimal digits;
    the bytes are read back from the text after the prefix, so two
    different draws never give the same nonce. *)
Theorem generate_nonce_format (random : bytes) :
  all_bytes random = true -> length random = 32%nat ->
  hash_format (TEESignatureGenerator.generate_nonce random) = true
  /\ fromhex (skipn 2 (TEESignatureGenerator.generate_nonce random)) = Ok random
  /\ forall random',
       all_bytes random' = true ->
       TEESignatureGenerator.generate_nonce random'
       = TEESignatureGenerator.generate_nonce random ->
       random' = random.
Proof.
  intros Hb Hl. apply all_bytes_Forall in Hb.
  split; [now apply nonce_hash_format|].
  unfold TEESignatureGenerator.generate_nonce.
  change (py "0x") with [48; 120]. cbn [app skipn].
  split; [now apply fromhex_hex|].
  intros r' Hr' H. apply all_bytes_Forall in Hr'.
  apply hex_inj; [assumption | assumption | congruence].
Qed.

Lemma generate_nonce_format_witness :
  hash_format (TEESignatureGenerator.generate_nonce (repeat 68 32)) = true
  /\ fromhex (skipn 2 (TEESignatureGenerator.generate_nonce (repeat 68 32)))
     = Ok (repeat 68 32)
  /\ forall random',
       all_bytes random' = true ->
       TEESignatureGenerator.generate_nonce random'
       = TEESignatureGenerator.generate_nonce (repeat 68 32) ->
       random' = repeat 68 32.
Proof.
  apply (generate_nonce_format (repeat 68 32)); reflexivity.
Defined.

(** ** X3: the report digest *)

Lemma digest_string_well_formed
    (h_in h_out blob_id blob_hash : pystr) (timestamp : Z)
    (nonce enclave_id mrenclave : pystr) :
  well_formed_text
    (TEESignatureGenerator.digest_string
       h_in h_out blob_id blob_hash timestamp nonce enclave_id mrenclave)
  = well_formed_text h_in && well_formed_text h_out
    && well_formed_text blob_id && well_formed_text blob_hash
    && well_formed_text nonce && well_formed_text enclave_id
    && well_formed_text mrenclave.
Proof.
  unfold TEESignatureGenerator.digest_string. cbn [Json.join].
  change (py "||") with [124; 124].
  rewrite !well_formed_app, str_of_int_well_formed.
  change (well_formed_text [124; 124]) with true.
  destruct (well_formed_text h_in), (well_formed_text h_out),
    (well_formed_text blob_id), (well_formed_text blob_hash),
    (well_formed_text nonce), (well_formed_text enclave_id),
    (well_formed_text mrenclave); reflexivity.
Qed.

Lemma report_digest_of_returns
    (h_in h_out blob_id blob_hash : pystr) (timestamp : Z)
    (nonce enclave_id mrenclave : pystr) :
  well_formed_text h_in = true -> well_formed_text h_out = true ->
  well_formed_text blob_id = true -> well_formed_text blob_hash = true ->
  well_formed_text nonce = true -> well_formed_text enclave_id = true ->
  well_formed_text mrenclave = true ->
  exists d,
    TEESignatureGenerator.report_digest_of
      h_in h_out blob_id blob_hash timestamp nonce enclave_id mrenclave
    = Ok d
    /\ length d = 32%nat.
Proof.
  intros H1 H2 H3 H4 H5 H6 H7.
  unfold TEESignatureGenerator.report_digest_of.
  destruct (utf8_encode_well_formed
              (TEESignatureGenerator.digest_string
                 h_in h_out blob_id blob_hash timestamp nonce
                 enclave_id mrenclave)) as [bs ->].
  - rewrite digest_string_well_formed, H1, H2, H3, H4, H5, H6, H7.
    reflexivity.
  - cbn [bind]. eexists. split; [reflexivity | apply sha256_length].
Qed.

(** X3. For a timestamp of at most 4300 digits, which [str] converts,
    [create_report_digest] returns exactly when its five text arguments
    and the enclave's two identifiers are well-formed text (no lone
    surrogate), and then the digest is 32 bytes long; on any other text
    it raises [UnicodeEncodeError]. *)
Theorem create_report_digest_total (self : TEESignatureGenerator.t)
    (h_in h_out blob_id blob_hash : pystr) (timestamp : Z) (nonce : pystr) :
  int_fits timestamp = true ->
  if well_formed_text h_in && well_formed_text h_out
     && well_formed_text blob_id && well_formed_text blob_hash
     && well_formed_text nonce
     && well_formed_text (TEESignatureGenerator.enclave_id self)
     && well_formed_text (TEESignatureGenerator.mrenclave self)
  then exists d,
         TEESignatureGenerator.create_report_digest
           self h_in h_out blob_id blob_hash timestamp nonce = Ok d
         /\ length d = 32%nat /\ all_bytes d = true
  else TEESignatureGenerator.create_report_digest
         self h_in h_out blob_id blob_hash timestamp nonce
       = Raise UnicodeEncodeError.
Proof.
  intros _.
  unfold TEESignatureGenerator.create_report_digest.
  rewrite <- (digest_string_well_formed
                h_in h_out blob_id blob_hash timestamp nonce
                (TEESignatureGenerator.enclave_id self)
                (TEESignatureGenerator.mrenclave self)).
  unfold TEESignatureGenerator.report_digest_of.
  pose proof (utf8_encode_total
                (TEESignatureGenerator.digest_string
                   h_in h_out blob_id blob_hash timestamp nonce
                   (TEESignatureGenerator.enclave_id self)
                   (TEESignatureGenerator.mrenclave self))) as H.
  destruct (well_formed_text _).
  - destruct H as [bs ->]. cbn [bind]. eexists. split; [reflexivity|].
    split; [apply sha256_length | apply all_bytes_Forall, sha256_bytes].
  - now rewrite H.
Qed.

(** The example fields: a digest of 32 bytes. *)
Lemma create_report_digest_total_witness :
  exists d,
    TEESignatureGenerator.create_report_digest
      signer_example (py "0x11") (py "0x22") (py "blobA") (py "0x33")
      1700000000 (py "0x44") = Ok d
    /\ length d = 32%nat /\ all_bytes d = true.
Proof.
  apply (create_report_digest_total
           signer_example (py "0x11") (py "0x22") (py "blobA") (py "0x33")
           1700000000 (py "0x44")).
  reflexivity.
Defined.

(** ** X4, X5: what [sign_report] and [verify_signature] accept *)

(** X4. A digest that is not 32 bytes long is refused by both ends, in
    two different ways: [sign_report] raises [ValueError], and
    [verify_signature] answers [False] for every signature text. *)
Theorem digest_length_checked (self : TEESignatureGenerator.t) (k : Z)
    (digest : bytes) :
  length digest <> 32%nat ->
  TEESignatureGenerator.sign_report self k digest = Raise ValueError
  /\ forall signature,
       TEESignatureGenerator.verify_signature self digest signature = false.
Proof.
  intros Hl. apply Nat.eqb_neq in Hl.
  unfold TEESignatureGenerator.sign_report,
    TEESignatureGenerator.verify_signature, P256.sign, P256.verify.
  rewrite Hl. cbn [negb bind]. split; [reflexivity|].
  intros s. now destruct (fromhex (skipn 2 s)).
Qed.

Lemma digest_length_checked_witness :
  TEESignatureGenerator.sign_report signer_example 5 (repeat 0 31)
  = Raise ValueError
  /\ forall signature,
       TEESignatureGenerator.verify_signature
         signer_example (repeat 0 31) signature = false.
Proof.
  apply (digest_length_checked signer_example 5 (repeat 0 31)).
  cbn. lia.
Defined.

Lemma der_decode_some (bs : bytes) (r s : Z) :
  P256.der_decode bs = Some (r, s) -> bs = P256.der_encode r s.
Proof.
  unfold P256.der_decode.
  destruct bs as [|tag [|len c]]; try discriminate.
  destruct (tag =? 48); [|discriminate].
  destruct (P256.der_take_int c) as [[r' c1]|]; [|discriminate].
  destruct (P256.der_take_int c1) as [[s' [|? ?]]|]; try discriminate.
  destruct (P256.bytes_eqb _ _) eqn:E; [|discriminate].
  intros H. injection H as -> ->.
  unfold P256.bytes_eqb in E. apply str_eqb_eq in E. now symmetry.
Qed.

Lemma verify_rs_in_range (Q : P256.point) (z r s : Z) :
  P256.verify_rs Q z r s = true ->
  1 <= r < BigZ.to_Z P256.n /\ 1 <= s < BigZ.to_Z P256.n.
Proof.
  unfold P256.verify_rs.
  destruct (_ && _) eqn:E; [|discriminate]. intros _.
  rewrite !andb_true_iff in E. destruct E as [[[H1 H2] H3] H4].
  rewrite BigZ.spec_leb, BigZ.spec_of_Z in H1, H3.
  rewrite BigZ.spec_ltb, BigZ.spec_of_Z in H2, H4.
  apply Z.leb_le in H1, H3. apply Z.ltb_lt in H2, H4.
  change (BigZ.to_Z 1) with 1 in *. lia.
Qed.

(** X5. [verify_signature] answers [True] only when the digest has 32
    bytes and the text after the first two characters is the
    hexadecimal form of the DER encoding of a pair (r, s) with both
    numbers between 1 and n - 1 that the ECDSA equation accepts. *)
Theorem verify_signature_sound (self : TEESignatureGenerator.t)
    (digest : bytes) (signature : pystr) :
  TEESignatureGenerator.verify_signature self digest signature = true ->
  length digest = 32%nat
  /\ exists r s,
       fromhex (skipn 2 signature) = Ok (P256.der_encode r s)
       /\ 1 <= r < BigZ.to_Z P256.n /\ 1 <= s < BigZ.to_Z P256.n
       /\ P256.verify_rs (TEESignatureGenerator.public_key self)
            (hashlib.be_word digest) r s = true.
Proof.
  unfold TEESignatureGenerator.verify_signature. intros H.
  destruct (fromhex (skipn 2 signature)) as [sig|] eqn:Hhex; [|discriminate].
  cbn [bind] in H. unfold P256.verify in H.
  destruct (length digest =? 32)%nat eqn:Hl; cbn [negb] in H; [|discriminate].
  apply Nat.eqb_eq in Hl. split; [exact Hl|].
  destruct (P256.der_decode sig) as [[r s]|] eqn:Hd; [|discriminate].
  destruct (P256.verify_rs _ _ r s) eqn:Hv; [|discriminate].
  exists r, s. apply der_decode_some in Hd. subst sig.
  split; [reflexivity|].
  destruct (verify_rs_in_range _ _ _ _ Hv) as [Hr Hs]. auto.
Qed.

Lemma verify_signature_sound_witness :
  length digest_one = 32%nat
  /\ exists r s,
       fromhex (skipn 2 signature_example) = Ok (P256.der_encode r s)
       /\ 1 <= r < BigZ.to_Z P256.n /\ 1 <= s < BigZ.to_Z P256.n
       /\ P256.verify_rs (TEESignatureGenerator.public_key signer_example)
            (hashlib.be_word digest_one) r s = true.
Proof.
  apply (verify_signature_sound signer_example digest_one signature_example).
  vm_compute. reflexivity.
Defined.

(** ** X6: the DER and hexadecimal layers lose nothing *)

Lemma fold_be_bytes (n : nat) (x acc : Z) :
  0 <= x ->
  fold_left (fun a b => a * 256 + b) (hashlib.be_bytes n x) acc
  = acc * 2 ^ (8 * Z.of_nat n) + x mod 2 ^ (8 * Z.of_nat n).
Proof.
  intros Hx. revert acc.
  induction n as [|n IH]; intros acc.
  - cbn [hashlib.be_bytes fold_left]. change (8 * Z.of_nat 0) with 0.
    rewrite Z.pow_0_r, Z.mod_1_r. lia.
  - cbn [hashlib.be_bytes fold_left]. rewrite IH.
    rewrite Z.shiftr_div_pow2 by lia.
    replace (8 * Z.of_nat (S n)) with (8 * Z.of_nat n + 8) by lia.
    rewrite Z.pow_add_r by lia. change (2 ^ 8) with 256.
    rewrite (Z.rem_mul_r x (2 ^ (8 * Z.of_nat n)) 256) by lia.
    ring.
Qed.

Lemma be_word_be_bytes (n : nat) (x : Z) :
  0 <= x < 2 ^ (8 * Z.of_nat n) ->
  hashlib.be_word (hashlib.be_bytes n x) = x.
Proof.
  intros Hx. unfold hashlib.be_word. rewrite fold_be_bytes by lia.
  rewrite Z.mod_small by lia. lia.
Qed.

Lemma der_int_content_spec (x : Z) :
  0 <= x < 2 ^ 256 ->
  hashlib.be_word (P256.der_int_content x) = x
  /\ (1 <= length (P256.der_int_content x) <= 33)%nat.
Proof.
  intros Hx. unfold P256.der_int_content.
  assert (Hlog : 0 <= Z.log2 x < 256).
  { split; [apply Z.log2_nonneg|].
    destruct (Z.eq_dec x 0) as [->|]; [cbn; lia|].
    apply Z.log2_lt_pow2; lia. }
  set (n := Z.to_nat (Z.log2 x / 8 + 1)).
  assert (Hn : (1 <= n <= 32)%nat) by (subst n; zdm).
  assert (Hx' : 0 <= x < 2 ^ (8 * Z.of_nat n)).
  { split; [lia|].
    destruct (Z.eq_dec x 0) as [->|Hx0]; [apply Z.pow_pos_nonneg; lia|].
    apply Z.log2_lt_pow2; [lia|]. subst n. zdm. }
  pose proof (be_word_be_bytes n x Hx') as Hw.
  pose proof (be_bytes_length n x) as Hl.
  destruct (hashlib.be_bytes n x) as [|b0 bs] eqn:E.
  - cbn [length] in Hl. lia.
  - destruct (128 <=? b0); cbn [length] in *.
    + split; [|lia]. unfold hashlib.be_word in *. cbn [fold_left] in *.
      exact Hw.
    + split; [exact Hw | lia].
Qed.

Lemma der_take_int_der_int (x : Z) (rest : bytes) :
  0 <= x < 2 ^ 256 ->
  P256.der_take_int (P256.der_int x ++ rest) = Some (x, rest).
Proof.
  intros Hx. destruct (der_int_content_spec x Hx) as [Hw Hl].
  unfold P256.der_int. cbn [app P256.der_take_int].
  set (c := P256.der_int_content x) in *.
  rewrite Nat2Z.id.
  replace ((2 =? 2) && (0 <? Z.of_nat (length c))
           && (Z.of_nat (length c) <? 128)
           && (length c <=? length (c ++ rest))%nat) with true.
  - rewrite firstn_app, Nat.sub_diag, firstn_all. cbn [firstn].
    rewrite List.app_nil_r, Hw.
    rewrite skipn_app, Nat.sub_diag, skipn_all. reflexivity.
  - symmetry. rewrite !andb_true_iff. repeat split.
    + apply Z.ltb_lt. lia.
    + apply Z.ltb_lt. lia.
    + apply Nat.leb_le. rewrite length_app. lia.
Qed.

Lemma der_decode_encode (r s : Z) :
  0 <= r < 2 ^ 256 -> 0 <= s < 2 ^ 256 ->
  P256.der_decode (P256.der_encode r s) = Some (r, s).
Proof.
  intros Hr Hs. unfold P256.der_decode.
  unfold P256.der_encode at 1.
  change (48 =? 48) with true. cbn iota.
  rewrite (der_take_int_der_int r _ Hr).
  rewrite <- (List.app_nil_r (P256.der_int s)).
  rewrite (der_take_int_der_int s _ Hs).
  unfold P256.bytes_eqb. now rewrite str_eqb_refl.
Qed.

(** X6. For every 32-byte digest, what [sign_report] returns is read
    back by [verify_signature] without loss: the hexadecimal text and
    the DER encoding give back the pair (r, s) that was signed, so the
    answer is the ECDSA equation evaluated on that very pair. *)
Theorem sign_report_read_back (self : TEESignatureGenerator.t) (k : Z)
    (digest : bytes) :
  length digest = 32%nat ->
  exists signature,
    TEESignatureGenerator.sign_report self k digest = Ok signature
    /\ TEESignatureGenerator.verify_signature self digest signature
       = let rs := P256.sign_rs (TEESignatureGenerator.private_key self) k
                     (hashlib.be_word digest) in
         P256.verify_rs (TEESignatureGenerator.public_key self)
           (hashlib.be_word digest) (fst rs) (snd rs).
Proof.
  intros Hl. unfold TEESignatureGenerator.sign_report, P256.sign.
  rewrite Hl. cbn [Nat.eqb negb].
  pose proof (sign_rs_range (TEESignatureGenerator.private_key self) k
                (hashlib.be_word digest)) as [Hr Hs].
  destruct (P256.sign_rs _ _ _) as [r s]. cbn [fst snd bind] in *.
  eexists. split; [reflexivity|].
  rewrite verify_signature_hex by now apply der_encode_range.
  unfold P256.verify. rewrite Hl. cbn [Nat.eqb negb].
  rewrite (der_decode_encode r s Hr Hs).
  now destruct (P256.verify_rs _ _ r s).
Qed.

Lemma sign_report_read_back_witness :
  exists signature,
    TEESignatureGenerator.sign_report signer_example 5 digest_one
    = Ok signature
    /\ TEESignatureGenerator.verify_signature signer_example digest_one
         signature
       = let rs := P256.sign_rs
                     (TEESignatureGenerator.private_key signer_example) 5
                     (hashlib.be_word digest_one) in
         P256.verify_rs (TEESignatureGenerator.public_key signer_example)
           (hashlib.be_word digest_one) (fst rs) (snd rs).
Proof.
  apply (sign_report_read_back signer_example 5 digest_one). reflexivity.
Defined.

(** ** X7: the proof package *)

Ltac representable :=
  cbn [json_representable forallb];
  repeat (apply andb_true_iff; split);
  first [ reflexivity | assumption
        | apply prefixed_hex_well_formed; assumption
        | apply ascii_well_formed, hex_ascii; assumption ].

Lemma hash_text_well_formed (text h : pystr) :
  hash_text text = Ok h -> well_formed_text h = true.
Proof.
  unfold hash_text. intros H. inv_bind H. apply Ok_inj in H. subst h.
  apply prefixed_hex_well_formed, sha256_bytes.
Qed.

Lemma generate_attestation_returns (self : TEESignatureGenerator.t)
    (e : TEESignatureGenerator.env) (digest : bytes) :
  well_formed_text (TEESignatureGenerator.enclave_id self) = true ->
  well_formed_text (TEESignatureGenerator.mrenclave self) = true ->
  Forall is_byte (TEESignatureGenerator.mrsigner_bytes e) ->
  Forall is_byte digest ->
  exists text,
    TEESignatureGenerator.generate_attestation self e digest
    = Ok (py "0x" ++ sha256_hex text).
Proof.
  intros He Hm Hs Hd. unfold TEESignatureGenerator.generate_attestation.
  eexists. apply hash_text_ascii, dumps_sorted_ascii. representable.
Qed.

(** What a returned proof was built from. *)
Lemma create_tee_proof_inv (self : TEESignatureGenerator.t)
    (e : TEESignatureGenerator.env) (inference_input inference_output : json)
    (blob_id blob_hash : pystr) (proof : dict) :
  TEESignatureGenerator.create_tee_proof
    self e inference_input inference_output blob_id blob_hash = Ok proof ->
  exists h_in h_out digest signature attestation,
    TEESignatureGenerator.hash_input inference_input = Ok h_in
    /\ TEESignatureGenerator.hash_output inference_output = Ok h_out
    /\ TEESignatureGenerator.sign_report
         self (TEESignatureGenerator.ecdsa_k e) digest = Ok signature
    /\ TEESignatureGenerator.generate_attestation self e digest
       = Ok attestation
    /\ proof
       = [ (py "enclave_id", JStr (TEESignatureGenerator.enclave_id self));
           (py "enclave_pubkey",
            JStr (TEESignatureGenerator.enclave_pubkey self));
           (py "mrenclave", JStr (TEESignatureGenerator.mrenclave self));
           (py "sig", JStr signature);
           (py "attestation", JStr attestation);
           (py "timestamp", JInt (TEESignatureGenerator.now e));
           (py "nonce",
            JStr (TEESignatureGenerator.generate_nonce
                    (TEESignatureGenerator.nonce_bytes e)));
           (py "h_in", JStr h_in);
           (py "h_out", JStr h_out);
           (py "blob_id", JStr blob_id);
           (py "blob_hash", JStr blob_hash) ].
Proof.
  unfold TEESignatureGenerator.create_tee_proof. intros H.
  apply bind_ok in H as (h_in & Hin & H).
  apply bind_ok in H as (h_out & Hout & H).
  apply bind_ok in H as (d & Hd & H).
  apply bind_ok in H as (signature & Hs & H).
  apply bind_ok in H as (attestation & Ha & H).
  apply Ok_inj in H. subst proof.
  exists h_in, h_out, d, signature, attestation. auto.
Qed.

Lemma tee_proof_exists (self : TEESignatureGenerator.t)
    (e : TEESignatureGenerator.env) (inference_input inference_output : json)
    (blob_id blob_hash : pystr) :
  json_representable inference_input = true ->
  json_representable inference_output = true ->
  well_formed_text blob_id = true ->
  well_formed_text blob_hash = true ->
  well_formed_text (TEESignatureGenerator.enclave_id self) = true ->
  well_formed_text (TEESignatureGenerator.mrenclave self) = true ->
  Forall is_byte (TEESignatureGenerator.nonce_bytes e) ->
  Forall is_byte (TEESignatureGenerator.mrsigner_bytes e) ->
  exists proof,
    TEESignatureGenerator.create_tee_proof
      self e inference_input inference_output blob_id blob_hash = Ok proof.
Proof.
  intros Hin Hout Hid Hhash Hen Hmr Hnb Hsb.
  unfold TEESignatureGenerator.create_tee_proof.
  unfold TEESignatureGenerator.hash_input, TEESignatureGenerator.hash_output.
  rewrite (hash_text_ascii _ (dumps_sorted_ascii _ Hin)).
  rewrite (hash_text_ascii _ (dumps_sorted_ascii _ Hout)). cbn [bind].
  set (h_in := py "0x" ++ sha256_hex (Json.dumps Json.opts_sorted inference_input)).
  set (h_out := py "0x" ++ sha256_hex (Json.dumps Json.opts_sorted inference_output)).
  assert (Hhin : well_formed_text h_in = true)
    by apply prefixed_hex_well_formed, sha256_bytes.
  assert (Hhout : well_formed_text h_out = true)
    by apply prefixed_hex_well_formed, sha256_bytes.
  set (nonce := TEESignatureGenerator.generate_nonce
                  (TEESignatureGenerator.nonce_bytes e)) in *.
  assert (Hnonce : well_formed_text nonce = true)
    by now apply prefixed_hex_well_formed.
  destruct (report_digest_of_returns h_in h_out blob_id blob_hash
              (TEESignatureGenerator.now e) nonce
              (TEESignatureGenerator.enclave_id self)
              (TEESignatureGenerator.mrenclave self)
              Hhin Hhout Hid Hhash Hnonce Hen Hmr) as (d & Hd & Hdl).
  unfold TEESignatureGenerator.create_report_digest. rewrite Hd. cbn [bind].
  unfold TEESignatureGenerator.sign_report.
  destruct (sign_returns (TEESignatureGenerator.private_key self)
              (TEESignatureGenerator.ecdsa_k e) d Hdl) as [sig Hsig].
  rewrite Hsig. cbn [bind].
  assert (Hdb : Forall is_byte d).
  { unfold TEESignatureGenerator.report_digest_of in Hd. inv_bind Hd.
    apply Ok_inj in Hd. subst d. apply sha256_bytes. }
  destruct (generate_attestation_returns self e d Hen Hmr Hsb Hdb)
    as [text ->].
  cbn [bind]. eauto.
Qed.

Lemma tee_proof_representable (self : TEESignatureGenerator.t)
    (e : TEESignatureGenerator.env) (inference_input inference_output : json)
    (blob_id blob_hash : pystr) (proof : dict) :
  TEESignatureGenerator.create_tee_proof
    self e inference_input inference_output blob_id blob_hash = Ok proof ->
  well_formed_text blob_id = true ->
  well_formed_text blob_hash = true ->
  well_formed_text (TEESignatureGenerator.enclave_id self) = true ->
  well_formed_text (TEESignatureGenerator.enclave_pubkey self) = true ->
  well_formed_text (TEESignatureGenerator.mrenclave self) = true ->
  Forall is_byte (TEESignatureGenerator.nonce_bytes e) ->
  json_representable (JDict proof) = true.
Proof.
  intros H Hid Hhash Hen Hpk Hmr Hnb.
  apply create_tee_proof_inv in H
    as (h_in & h_out & d & signature & attestation & Hhin & Hhout & Hs & Ha
        & ->).
  apply hash_text_well_formed in Hhin, Hhout, Ha.
  assert (Hsig : well_formed_text signature = true).
  { unfold TEESignatureGenerator.sign_report in Hs.
    apply bind_ok in Hs as (sig & Hsig & Hs). apply Ok_inj in Hs. subst.
    apply prefixed_hex_well_formed. exact (sign_bytes _ _ _ _ Hsig). }
  assert (Hnonce : well_formed_text
                     (TEESignatureGenerator.generate_nonce
                        (TEESignatureGenerator.nonce_bytes e)) = true)
    by now apply prefixed_hex_well_formed.
  cbn [json_representable]. apply andb_true_iff. split; [reflexivity|].
  representable.
Qed.

(** X7. With JSON-representable input and output within the limits of
    the interpreter, clock readings of at most 4300 digits, well-formed
    text for the blob id, the blob hash and the enclave's identifiers,
    and the random bytes the environment draws, [create_tee_proof]
    returns: its
    result carries exactly the eleven fields the report schema requires
    of a [tee_proof], in that order, is itself JSON-representable, and
    its [nonce], [h_in], [h_out] and [attestation] are [0x] followed by
    64 lowercase hexadecimal digits. *)
Theorem create_tee_proof_returns (self : TEESignatureGenerator.t)
    (e : TEESignatureGenerator.env) (inference_input inference_output : json)
    (blob_id blob_hash : pystr) :
  json_representable inference_input = true ->
  json_representable inference_output = true ->
  within_limits inference_input = true ->
  within_limits inference_output = true ->
  int_fits (TEESignatureGenerator.now e) = true ->
  int_fits (TEESignatureGenerator.attestation_now e) = true ->
  well_formed_text blob_id = true ->
  well_formed_text blob_hash = true ->
  well_formed_text (TEESignatureGenerator.enclave_id self) = true ->
  well_formed_text (TEESignatureGenerator.enclave_pubkey self) = true ->
  well_formed_text (TEESignatureGenerator.mrenclave self) = true ->
  all_bytes (TEESignatureGenerator.nonce_bytes e) = true ->
  length (TEESignatureGenerator.nonce_bytes e) = 32%nat ->
  all_bytes (TEESignatureGenerator.mrsigner_bytes e) = true ->
  exists proof,
    TEESignatureGenerator.create_tee_proof
      self e inference_input inference_output blob_id blob_hash = Ok proof
    /\ keys proof
       = schema_required
           (schema_property config.RESOLUTION_SCHEMA (py "tee_proof"))
    /\ json_representable (JDict proof) = true
    /\ forall k,
         In k [py "nonce"; py "h_in"; py "h_out"; py "attestation"] ->
         exists h, dict_lookup proof k = Some (JStr h) /\ hash_format h = true.
Proof.
  intros Hin Hout _ _ _ _ Hid Hhash Hen Hpk Hmr Hnb Hnl Hsb.
  apply all_bytes_Forall in Hnb, Hsb.
  destruct (tee_proof_exists self e inference_input inference_output
              blob_id blob_hash Hin Hout Hid Hhash Hen Hmr Hnb Hsb)
    as [proof H].
  exists proof. split; [exact H|].
  pose proof (tee_proof_representable _ _ _ _ _ _ _ H Hid Hhash Hen Hpk Hmr Hnb)
    as Hrep.
  apply create_tee_proof_inv in H
    as (h_in & h_out & d & signature & attestation & Hhin & Hhout & Hs & Ha
        & ->).
  split; [reflexivity|]. split; [exact Hrep|].
  intros k Hk. cbn [In] in Hk.
  destruct Hk as [<-|[<-|[<-|[<-|[]]]]]; eexists; (split; [reflexivity|]).
  - now apply nonce_hash_format.
  - exact (hash_text_format _ _ Hhin).
  - exact (hash_text_format _ _ Hhout).
  - exact (hash_text_format _ _ Ha).
Qed.

Lemma create_tee_proof_returns_witness :
  exists proof,
    TEESignatureGenerator.create_tee_proof
      signer_example env_example nested_example one_member
      (py "blobA") (py "0x33") = Ok proof
    /\ keys proof
       = schema_required
           (schema_property config.RESOLUTION_SCHEMA (py "tee_proof"))
    /\ json_representable (JDict proof) = true
    /\ forall k,
         In k [py "nonce"; py "h_in"; py "h_out"; py "attestation"] ->
         exists h, dict_lookup proof k = Some (JStr h) /\ hash_format h = true.
Proof.
  apply (create_tee_proof_returns
           signer_example env_example nested_example one_member
           (py "blobA") (py "0x33")); reflexivity.
Defined.

(** ** X8 to X12: the sealed evidence *)

Lemma utf8_encode_cp_bytes (c : Z) (b : bytes) :
  utf8_encode_cp c = Ok b -> Forall is_byte b.
Proof.
  unfold utf8_encode_cp.
  destruct ((0 <=? c) && (c <? 128)) eqn:H1.
  { apply andb_range in H1. intros H. apply Ok_inj in H. subst b.
    repeat constructor; lia. }
  destruct ((128 <=? c) && (c <? 2048)) eqn:H2.
  { apply andb_range in H2. intros H. apply Ok_inj in H. subst b.
    constructor; [unfold is_byte; zdm|].
    constructor; [unfold is_byte; zdm | constructor]. }
  destruct ((2048 <=? c) && (c <? 65536)) eqn:H3.
  { apply andb_range in H3.
    destruct ((55296 <=? c) && (c <=? 57343)); [discriminate|].
    intros H. apply Ok_inj in H. subst b.
    constructor; [unfold is_byte; zdm|].
    constructor; [unfold is_byte; zdm|].
    constructor; [unfold is_byte; zdm | constructor]. }
  destruct ((65536 <=? c) && (c <? 1114112)) eqn:H4; [|discriminate].
  apply andb_range in H4. intros H. apply Ok_inj in H. subst b.
  constructor; [unfold is_byte; zdm|].
  constructor; [unfold is_byte; zdm|].
  constructor; [unfold is_byte; zdm|].
  constructor; [unfold is_byte; zdm | constructor].
Qed.

Lemma utf8_encode_bytes (s : pystr) (bs : bytes) :
  utf8_encode s = Ok bs -> Forall is_byte bs.
Proof.
  revert bs; induction s as [|c s IH]; intros bs H; cbn [utf8_encode] in H.
  - apply Ok_inj in H. subst bs. constructor.
  - inv_bind H. inv_bind H. apply Ok_inj in H. subst bs.
    apply Forall_app; split; [now apply (utf8_encode_cp_bytes c) | now apply IH].
Qed.

Lemma lxor_byte (a b : Z) : is_byte a -> is_byte b -> is_byte (Z.lxor a b).
Proof.
  unfold is_byte. intros Ha Hb.
  assert (H0 : 0 <= Z.lxor a b) by (apply Z.lxor_nonneg; lia).
  split; [exact H0|].
  destruct (Z.eq_dec (Z.lxor a b) 0) as [->|Hne]; [lia|].
  change 256 with (2 ^ 8). apply Z.log2_lt_pow2; [lia|].
  pose proof (Z.log2_lxor a b ltac:(lia) ltac:(lia)) as Hl.
  assert (Z.log2 a < 8).
  { destruct (Z.eq_dec a 0) as [->|]; [cbn; lia|].
    apply Z.log2_lt_pow2; lia. }
  assert (Z.log2 b < 8).
  { destruct (Z.eq_dec b 0) as [->|]; [cbn; lia|].
    apply Z.log2_lt_pow2; lia. }
  lia.
Qed.

Lemma nth_byte (key : bytes) (i : nat) :
  Forall is_byte key -> is_byte (nth i key 0).
Proof.
  intros H. revert i. induction H as [|k key Hk _ IH]; intros [|i];
    cbn [nth]; auto; unfold is_byte; lia.
Qed.

Lemma xor_with_key_shape (key data : bytes) (i : nat) :
  Forall is_byte key -> Forall is_byte data ->
  length (SealEncryptor.xor_with_key key i data) = length data
  /\ Forall is_byte (SealEncryptor.xor_with_key key i data).
Proof.
  intros Hk Hd. revert i.
  induction Hd as [|x data Hx _ IH]; intros i;
    cbn [SealEncryptor.xor_with_key length]; [split; constructor|].
  destruct (IH (S i)) as [Hl Hb]. split; [now rewrite Hl|].
  constructor; [|exact Hb]. apply lxor_byte; [exact Hx | now apply nth_byte].
Qed.

(** X8. Whenever [encrypt_evidence] returns, the blob is the twelve
    bytes of the format tag followed by exactly as many bytes as the
    UTF-8 text of [json.dumps(evidence, indent=2)], every element of it
    is a byte, and the metadata agree with it: original size, encrypted
    size (twelve more), the SHA-256 of the plaintext as content hash and
    the policy identifier of the configuration. *)
Theorem encrypt_evidence_layout (c : SealEncryptor.SealConfig) (e : dict)
    (m : pystr) (enc : SealEncryptor.EncryptedEvidence) :
  SealEncryptor.encrypt_evidence c e m = Ok enc ->
  exists plaintext body,
    utf8_encode (Json.dumps Json.opts_indent2 (JDict e)) = Ok plaintext
    /\ SealEncryptor.encrypted_blob enc = SealEncryptor.header ++ body
    /\ length body = length plaintext
    /\ all_bytes (SealEncryptor.encrypted_blob enc) = true
    /\ dict_lookup (SealEncryptor.encryption_metadata enc)
         (py "original_size_bytes")
       = Some (JInt (Z.of_nat (length plaintext)))
    /\ dict_lookup (SealEncryptor.encryption_metadata enc)
         (py "encrypted_size_bytes")
       = Some (JInt (Z.of_nat (length plaintext) + 12))
    /\ dict_lookup (SealEncryptor.encryption_metadata enc) (py "content_hash")
       = Some (JStr (sha256_hex plaintext))
    /\ dict_lookup (SealEncryptor.encryption_metadata enc)
         (py "seal_policy_id")
       = Some (JStr (SealEncryptor.seal_policy_id c))
    /\ SealEncryptor.ee_seal_policy_id enc = SealEncryptor.seal_policy_id c.
Proof.
  intros H. unfold SealEncryptor.encrypt_evidence in H.
  apply bind_ok in H. destruct H as (summary & Hsum & H).
  apply bind_ok in H. destruct H as (plaintext & Hplain & H).
  apply bind_ok in H. destruct H as (blob & Hblob & H).
  apply Ok_inj in H. subst enc.
  unfold SealEncryptor._simulate_seal_encryption in Hblob.
  apply bind_ok in Hblob. destruct Hblob as (key & Hkey & Hblob).
  apply Ok_inj in Hblob. subst blob.
  unfold SealEncryptor.derive_key in Hkey.
  apply bind_ok in Hkey. destruct Hkey as (seed & Hseed & Hkey).
  apply Ok_inj in Hkey. subst key.
  destruct (xor_with_key_shape (hashlib.sha256 seed) plaintext 0
              (sha256_bytes _) (utf8_encode_bytes _ _ Hplain)) as [Hl Hb].
  exists plaintext,
    (SealEncryptor.xor_with_key (hashlib.sha256 seed) 0 plaintext).
  cbn [SealEncryptor.encrypted_blob SealEncryptor.encryption_metadata
       SealEncryptor.ee_seal_policy_id].
  split; [exact Hplain|]. split; [reflexivity|]. split; [exact Hl|].
  split.
  { apply all_bytes_Forall, Forall_app. split; [|exact Hb].
    apply all_bytes_Forall. reflexivity. }
  split; [reflexivity|]. split.
  { change (dict_lookup _ (py "encrypted_size_bytes"))
      with (Some (JInt (Z.of_nat
              (length (SealEncryptor.header
                       ++ SealEncryptor.xor_with_key
                            (hashlib.sha256 seed) 0 plaintext))))).
    rewrite length_app, Hl. do 2 f_equal.
    change (length SealEncryptor.header) with 12%nat. lia. }
  repeat split.
Qed.

Lemma encrypt_evidence_layout_witness :
  exists enc plaintext body,
    SealEncryptor.encrypt_evidence
      config_example evidence_example (py "0xmarket123") = Ok enc
    /\ utf8_encode (Json.dumps Json.opts_indent2 (JDict evidence_example))
       = Ok plaintext
    /\ SealEncryptor.encrypted_blob enc = SealEncryptor.header ++ body
    /\ length body = length plaintext
    /\ all_bytes (SealEncryptor.encrypted_blob enc) = true
    /\ dict_lookup (SealEncryptor.encryption_metadata enc)
         (py "original_size_bytes")
       = Some (JInt (Z.of_nat (length plaintext)))
    /\ dict_lookup (SealEncryptor.encryption_metadata enc)
         (py "encrypted_size_bytes")
       = Some (JInt (Z.of_nat (length plaintext) + 12))
    /\ dict_lookup (SealEncryptor.encryption_metadata enc) (py "content_hash")
       = Some (JStr (sha256_hex plaintext))
    /\ dict_lookup (SealEncryptor.encryption_metadata enc)
         (py "seal_policy_id")
       = Some (JStr (SealEncryptor.seal_policy_id config_example))
    /\ SealEncryptor.ee_seal_policy_id enc
       = SealEncryptor.seal_policy_id config_example.
Proof.
  destruct encrypt_example_returns as [enc Henc].
  destruct (encrypt_evidence_layout
              config_example evidence_example (py "0xmarket123") enc Henc)
    as (plaintext & body & H).
  exists enc, plaintext, body. split; [exact Henc | exact H].
Defined.

(** X9. The content hash can be checked after decryption: for
    JSON-representable evidence, serialising what [decrypt_evidence]
    returns with [json.dumps(..., indent=2)] and hashing its UTF-8 bytes
    gives the [content_hash] that [encrypt_evidence] recorded. *)
Theorem content_hash_recomputable (c : SealEncryptor.SealConfig) (e : dict)
    (m : pystr) (enc : SealEncryptor.EncryptedEvidence) :
  json_representable (JDict e) = true ->
  SealEncryptor.encrypt_evidence c e m = Ok enc ->
  exists evidence text,
    SealEncryptor.decrypt_evidence c (SealEncryptor.encrypted_blob enc) m
    = Ok evidence
    /\ utf8_encode (Json.dumps Json.opts_indent2 evidence) = Ok text
    /\ dict_lookup (SealEncryptor.encryption_metadata enc) (py "content_hash")
       = Some (JStr (sha256_hex text)).
Proof.
  intros Hwf H. pose proof (decrypt_encrypted c e m enc Hwf H) as Hdec.
  unfold SealEncryptor.encrypt_evidence in H.
  apply bind_ok in H. destruct H as (summary & Hsum & H).
  apply bind_ok in H. destruct H as (plaintext & Hplain & H).
  apply bind_ok in H. destruct H as (blob & Hblob & H).
  apply Ok_inj in H. subst enc.
  exists (JDict e), plaintext.
  split; [exact Hdec|]. split; [exact Hplain|]. reflexivity.
Qed.

Lemma content_hash_recomputable_witness :
  exists enc evidence text,
    SealEncryptor.encrypt_evidence
      config_example evidence_example (py "0xmarket123") = Ok enc
    /\ SealEncryptor.decrypt_evidence
         config_example (SealEncryptor.encrypted_blob enc) (py "0xmarket123")
       = Ok evidence
    /\ utf8_encode (Json.dumps Json.opts_indent2 evidence) = Ok text
    /\ dict_lookup (SealEncryptor.encryption_metadata enc) (py "content_hash")
       = Some (JStr (sha256_hex text)).
Proof.
  destruct encrypt_example_returns as [enc Henc].
  destruct (content_hash_recomputable
              config_example evidence_example (py "0xmarket123") enc
              eq_refl Henc) as (evidence & text & H).
  exists enc, evidence, text. split; [exact Henc | exact H].
Defined.

(** X10. The public summary is a function of the market id and of three
    entries of the evidence only: two evidence objects that agree on
    [outcome], [resolution_date] and [tee_attestation] get the same
    summary (or the same error), whatever else they hold. *)
Theorem public_summary_reads_three_fields (e1 e2 : dict) (m : pystr) :
  (forall k,
     In k [py "outcome"; py "resolution_date"; py "tee_attestation"] ->
     dict_lookup e1 k = dict_lookup e2 k) ->
  SealEncryptor._create_public_summary e1 m
  = SealEncryptor._create_public_summary e2 m.
Proof.
  intros H. unfold SealEncryptor._create_public_summary, dict_get.
  rewrite (H (py "outcome")), (H (py "resolution_date")),
    (H (py "tee_attestation")) by (cbn [In]; auto).
  reflexivity.
Qed.

Lemma public_summary_reads_three_fields_witness :
  SealEncryptor._create_public_summary evidence_example (py "0xmarket123")
  = SealEncryptor._create_public_summary
      evidence_example_other_reasoning (py "0xmarket123").
Proof.
  apply (public_summary_reads_three_fields
           evidence_example evidence_example_other_reasoning
           (py "0xmarket123")).
  intros k [<-|[<-|[<-|[]]]]; reflexivity.
Defined.

Lemma utf8_decode_error (n : nat) :
  forall (bs : bytes) (e : exn),
    (length bs <= n)%nat -> utf8_decode bs = Raise e ->
    e = UnicodeDecodeError.
Proof.
  induction n as [|n IH]; intros bs e Hl H.
  - destruct bs; [discriminate | cbn [length] in Hl; lia].
  - destruct bs as [|b1 r1]; [discriminate|].
    cbn [utf8_decode] in H. cbn [length] in Hl.
    repeat match type of H with
    | (if ?c then _ else _) = _ => destruct c
    | match ?r with [] => _ | _ :: _ => _ end = _ =>
        destruct r; cbn [length] in Hl
    | bind (utf8_decode ?r) _ = Raise _ =>
        let E := fresh "E" in
        destruct (utf8_decode r) eqn:E;
          [discriminate H
          | cbn [bind] in H; injection H as <-;
            apply IH in E; [exact E | lia]]
    | Raise _ = Raise _ => injection H as <-; reflexivity
    end.
Qed.

Lemma loads_error (s : pystr) (e : exn) :
  JsonDecoder.loads s = Raise e -> e = JSONDecodeError.
Proof.
  unfold JsonDecoder.loads.
  destruct (startswith s [65279]); [congruence|].
  destruct (JsonDecoder.scan_once _ _) as [[v rest]|]; [|congruence].
  destruct (JsonDecoder.skip_ws rest); [discriminate | congruence].
Qed.

(** X11. For a market id that is well-formed text, and a decrypted
    text (when there is one) within the limits of the interpreter,
    [decrypt_evidence] fails in four ways and no other: a blob without
    the format tag raises [ValueError]; a policy identifier that is not
    well-formed text raises [UnicodeEncodeError] while the key is
    derived; bytes that are not UTF-8 after the XOR raise
    [UnicodeDecodeError]; text that is not JSON raises
    [JSONDecodeError]. A wrong key therefore shows up only as one of
    the last two, or not at all. *)
Theorem decrypt_evidence_errors (c : SealEncryptor.SealConfig)
    (blob : bytes) (m : pystr) (e : exn) :
  well_formed_text m = true ->
  (forall text,
     decrypted_text c blob m = Ok text -> text_within_limits text = true) ->
  SealEncryptor.decrypt_evidence c blob m = Raise e ->
  (e = ValueError /\ startswith blob SealEncryptor.header = false)
  \/ (e = UnicodeEncodeError
      /\ startswith blob SealEncryptor.header = true
      /\ well_formed_text (SealEncryptor.seal_policy_id c) = false)
  \/ (e = UnicodeDecodeError
      /\ startswith blob SealEncryptor.header = true
      /\ decrypted_text c blob m = Raise UnicodeDecodeError)
  \/ (e = JSONDecodeError
      /\ startswith blob SealEncryptor.header = true
      /\ exists text,
           decrypted_text c blob m = Ok text
           /\ JsonDecoder.loads text = Raise JSONDecodeError).
Proof.
  intros Hm _. unfold SealEncryptor.decrypt_evidence, decrypted_text.
  destruct (startswith blob SealEncryptor.header); cbn [negb].
  2:{ intros H. injection H as <-. left. auto. }
  unfold SealEncryptor.derive_key.
  pose proof (utf8_encode_total (SealEncryptor.seal_policy_id c ++ py ":" ++ m))
    as Hk.
  rewrite !well_formed_app, Hm in Hk.
  change (well_formed_text (py ":")) with true in Hk.
  rewrite !andb_true_r in Hk.
  destruct (well_formed_text (SealEncryptor.seal_policy_id c)).
  - destruct Hk as [seed ->]. cbn [bind].
    destruct (utf8_decode _) as [text|e'] eqn:Hd; cbn [bind].
    + intros H. pose proof (loads_error _ _ H) as ->.
      right. right. right. eauto.
    + intros H. injection H as <-.
      apply (utf8_decode_error _ _ _ (Nat.le_refl _)) in Hd. subst e'.
      right. right. left. auto.
  - rewrite Hk. cbn [bind]. intros H. injection H as <-.
    right. left. auto.
Qed.

(** A tagged blob whose single byte decrypts to an opening brace. *)
Lemma decrypt_evidence_errors_witness :
  (JSONDecodeError = ValueError
   /\ startswith (SealEncryptor.header ++ [56]) SealEncryptor.header = false)
  \/ (JSONDecodeError = UnicodeEncodeError
      /\ startswith (SealEncryptor.header ++ [56]) SealEncryptor.header = true
      /\ well_formed_text (SealEncryptor.seal_policy_id config_example)
         = false)
  \/ (JSONDecodeError = UnicodeDecodeError
      /\ startswith (SealEncryptor.header ++ [56]) SealEncryptor.header = true
      /\ decrypted_text config_example (SealEncryptor.header ++ [56])
           (py "0xmarket123") = Raise UnicodeDecodeError)
  \/ (JSONDecodeError = JSONDecodeError
      /\ startswith (SealEncryptor.header ++ [56]) SealEncryptor.header = true
      /\ exists text,
           decrypted_text config_example (SealEncryptor.header ++ [56])
             (py "0xmarket123") = Ok text
           /\ JsonDecoder.loads text = Raise JSONDecodeError).
Proof.
  apply (decrypt_evidence_errors config_example (SealEncryptor.header ++ [56])
           (py "0xmarket123") JSONDecodeError).
  - reflexivity.
  - intros text H. vm_compute in H. injection H as <-. reflexivity.
  - vm_compute. reflexivity.
Defined.

(** X12. The simulated cipher is its own inverse: running
    [_simulate_seal_encryption] on the body of a blob it produced (the
    bytes after the twelve-byte tag) returns the tag followed by the
    plaintext. Encrypting needs nothing that decrypting lacks. *)
Theorem simulate_seal_encryption_involutive (c : SealEncryptor.SealConfig)
    (data : bytes) (m : pystr) (blob : bytes) :
  SealEncryptor._simulate_seal_encryption c data m = Ok blob ->
  SealEncryptor._simulate_seal_encryption c (skipn 12 blob) m
  = Ok (SealEncryptor.header ++ data).
Proof.
  unfold SealEncryptor._simulate_seal_encryption. intros H.
  inv_bind H. apply Ok_inj in H. subst blob. rewrite Hx. cbn [bind].
  destruct (header_skip (SealEncryptor.xor_with_key x 0 data)) as [_ ->].
  now rewrite xor_with_key_involutive.
Qed.

Lemma simulate_seal_encryption_involutive_witness :
  exists blob,
    SealEncryptor._simulate_seal_encryption
      config_example (py "secret") (py "0xmarket123") = Ok blob
    /\ SealEncryptor._simulate_seal_encryption
         config_example (skipn 12 blob) (py "0xmarket123")
       = Ok (SealEncryptor.header ++ py "secret").
Proof.
  destruct (SealEncryptor._simulate_seal_encryption
              config_example (py "secret") (py "0xmarket123"))
    as [blob|e] eqn:H.
  - exists blob. split; [reflexivity|].
    apply (simulate_seal_encryption_involutive
             config_example (py "secret") (py "0xmarket123") blob H).
  - vm_compute in H. discriminate H.
Defined.

(** ** X13: when [validate_output] raises *)

Lemma as_number_zero : as_number (JFloat (py "0.0")) = Some (Finite 0 (-1)).
Proof. reflexivity. Qed.

Lemma as_number_one : as_number (JFloat (py "1.0")) = Some (Finite 10 (-1)).
Proof. reflexivity. Qed.

(** X13. [validate_output] never raises anything but [TypeError], and
    it raises exactly on the outputs that carry the three required keys
    and whose [resolution] is not a mapping it can read: a number, a
    boolean or null; a sequence or a text in which both names are
    "found" and which cannot be indexed by a name; or a mapping whose
    confidence is not a number. On every other output it answers
    [True] or [False]. *)
Theorem validate_output_raises (output : dict) (e : exn) :
  GPT5Inference.validate_output output = Raise e
  <-> e = TypeError /\ raises_type_error output = true.
Proof.
  unfold GPT5Inference.validate_output, raises_type_error,
    GPT5Inference.required_fields.
  cbn [forallb GPT5Inference.getitem]. rewrite andb_true_r.
  unfold dict_contains at 1 2 3 4 5 6.
  destruct (dict_lookup output (py "resolution")) as [res|];
    [|cbn; split; [discriminate | intros [_ H]; discriminate H]].
  destruct (dict_lookup output (py "sources"));
    [|cbn; split; [discriminate | intros [_ H]; discriminate H]].
  destruct (dict_lookup output (py "rationale"));
    [|cbn; split; [discriminate | intros [_ H]; discriminate H]].
  cbn [andb negb GPT5Inference.getitem of_option bind].
  destruct res as [|b|z|r|s|l|items];
    cbn [GPT5Inference.str_in GPT5Inference.getitem bind];
    try (split; [intros H; injection H as <-; auto | intros [-> _]; reflexivity]).
  - (* a text *)
    destruct (str_contains s (py "value")); cbn [bind negb orb andb];
      [|split; [discriminate | intros [_ H]; discriminate H]].
    destruct (str_contains s (py "confidence")); cbn [bind negb orb andb];
      [|split; [discriminate | intros [_ H]; discriminate H]].
    split; [intros H; injection H as <-; auto | intros [-> _]; reflexivity].
  - (* a sequence *)
    destruct (existsb _ l); cbn [bind negb orb andb];
      [|split; [discriminate | intros [_ H]; discriminate H]].
    destruct (existsb _ l); cbn [bind negb orb andb];
      [|split; [discriminate | intros [_ H]; discriminate H]].
    split; [intros H; injection H as <-; auto | intros [-> _]; reflexivity].
  - (* a mapping *)
    unfold dict_contains.
    destruct (dict_lookup items (py "value")) as [value|];
      cbn [bind negb orb andb];
      [|split; [discriminate | intros [_ H]; discriminate H]].
    destruct (dict_lookup items (py "confidence")) as [confidence|];
      cbn [bind negb orb andb of_option];
      [|split; [discriminate | intros [_ H]; discriminate H]].
    unfold py_le. rewrite as_number_zero, as_number_one.
    destruct (as_number confidence) as [x|]; cbn [bind].
    + split; [|intros [_ H]; discriminate H].
      destruct (num_compare (Finite 0 (-1)) x) as [[| |]|]; cbn [bind andb negb];
        try discriminate;
        destruct (num_compare x (Finite 10 (-1))) as [[| |]|];
        cbn [bind andb negb]; try discriminate;
        destruct (py_eq_int value 0 || py_eq_int value 1); discriminate.
    + split; [intros H; injection H as <-; auto | intros [-> _]; reflexivity].
Qed.

Example validate_output_raises_example :
  TypeError = TypeError /\ raises_type_error output_with_text_confidence = true.
Proof.
  apply (validate_output_raises output_with_text_confidence TypeError).
  reflexivity.
Defined.

(** ** X14 to X16: the prompt hash *)

(** X14. [create_prompt_hash] returns the bare hexadecimal digest: 64
    lowercase hexadecimal digits, which never begin with [0x] (the
    prefix is added later, by [infer]). It returns for all well-formed
    prompts and raises [UnicodeEncodeError] on the others. *)
Theorem create_prompt_hash_format (system_prompt user_prompt : pystr) :
  if well_formed_text system_prompt && well_formed_text user_prompt
  then exists h,
         OpenAIInference.create_prompt_hash system_prompt user_prompt = Ok h
         /\ length h = 64%nat
         /\ forallb is_hex_lower h = true
         /\ startswith h (py "0x") = false
         /\ hash_format (py "0x" ++ h) = true
  else OpenAIInference.create_prompt_hash system_prompt user_prompt
       = Raise UnicodeEncodeError.
Proof.
  unfold OpenAIInference.create_prompt_hash.
  pose proof (utf8_encode_total
                (OpenAIInference.combined_prompt system_prompt user_prompt))
    as H.
  unfold OpenAIInference.combined_prompt in *.
  rewrite !well_formed_app in H.
  change (well_formed_text (py "|||")) with true in H. cbn [andb] in H.
  destruct (well_formed_text system_prompt && well_formed_text user_prompt).
  - destruct H as [data ->]. cbn [bind]. eexists. split; [reflexivity|].
    pose proof (sha256_hex_format data) as Hf.
    pose proof (sha256_length data) as Hl.
    pose proof (hex_lower _ (sha256_bytes data)) as Hd.
    unfold sha256_hex in *.
    assert (Hlen : length (hex (hashlib.sha256 data)) = 64%nat)
      by (rewrite hex_length, Hl; reflexivity).
    repeat split; try assumption.
    destruct (hex (hashlib.sha256 data)) as [|c1 [|c2 h]];
      [discriminate Hlen | discriminate Hlen |].
    cbn [forallb] in Hd. apply andb_true_iff in Hd as [_ Hd].
    apply andb_true_iff in Hd as [Hd _].
    change (py "0x") with [48; 120]. cbn [startswith].
    destruct (Z.eqb_spec c2 120) as [->|]; [discriminate Hd|].
    now rewrite andb_false_r.
  - now rewrite H.
Qed.

(** X15. The text that [create_prompt_hash] hashes determines both
    prompts as long as the system prompt holds no vertical bar: two
    pairs of prompts with bar-free system prompts and the same combined
    text are the same pair. *)
Theorem combined_prompt_injective (s1 s2 u1 u2 : pystr) :
  bar_free s1 -> bar_free s2 ->
  OpenAIInference.combined_prompt s1 u1 = OpenAIInference.combined_prompt s2 u2 ->
  s1 = s2 /\ u1 = u2.
Proof.
  unfold OpenAIInference.combined_prompt. change (py "|||") with [124; 124; 124].
  cbn [app]. intros H1 H2 H.
  destruct (split_at_bar _ _ _ _ H1 H2 H) as [-> Hr].
  split; [reflexivity|]. now injection Hr.
Qed.

Lemma combined_prompt_injective_witness :
  py "system" = py "system" /\ py "user" = py "user".
Proof.
  apply (combined_prompt_injective
           (py "system") (py "system") (py "user") (py "user")).
  - intros H; vm_compute in H.
    repeat (destruct H as [H|H]; [discriminate H|]). exact H.
  - intros H; vm_compute in H.
    repeat (destruct H as [H|H]; [discriminate H|]). exact H.
  - reflexivity.
Defined.

(** X16. The separator is not escaped: moving the text around a
    [|||] from the end of the system prompt to the start of the user
    prompt changes the pair of prompts and leaves the combined text,
    and with it the prompt hash, as it was. *)
Theorem create_prompt_hash_ambiguous (a b c : pystr) :
  a ++ py "|||" ++ b <> a
  /\ OpenAIInference.combined_prompt (a ++ py "|||" ++ b) c
     = OpenAIInference.combined_prompt a (b ++ py "|||" ++ c)
  /\ OpenAIInference.create_prompt_hash (a ++ py "|||" ++ b) c
     = OpenAIInference.create_prompt_hash a (b ++ py "|||" ++ c).
Proof.
  assert (H : OpenAIInference.combined_prompt (a ++ py "|||" ++ b) c
              = OpenAIInference.combined_prompt a (b ++ py "|||" ++ c)).
  { unfold OpenAIInference.combined_prompt. now rewrite <- !app_assoc. }
  split; [|split; [exact H|]].
  - intros E. apply (f_equal (@length Z)) in E.
    rewrite !length_app in E. change (length (py "|||")) with 3%nat in E. lia.
  - unfold OpenAIInference.create_prompt_hash. now rewrite H.
Qed.

(** ** X17 to X20: the Walrus command line *)

Lemma startswith_split (a b : pystr) :
  startswith a b = true -> a = b ++ skipn (length b) a.
Proof.
  revert a; induction b as [|y b IH]; intros a H; [reflexivity|].
  destruct a as [|x a]; [discriminate|]. cbn [startswith] in H.
  apply andb_true_iff in H as [Hx Ha]. apply Z.eqb_eq in Hx. subst y.
  cbn [length skipn app]. f_equal. now apply IH.
Qed.

Lemma find_sep_split (sep s before after : pystr) :
  find_sep sep s = Some (before, after) -> s = before ++ sep ++ after.
Proof.
  revert before after; induction s as [|c s IH]; intros before after H.
  - cbn [find_sep] in H. destruct (startswith [] sep) eqn:E; [|discriminate].
    injection H as <- <-. apply (startswith_split _ _ E).
  - cbn [find_sep] in H.
    destruct (startswith (c :: s) sep) eqn:E.
    + injection H as <- <-. apply (startswith_split _ _ E).
    + destruct (find_sep sep s) as [[b a]|]; [|discriminate].
      injection H as <- <-. cbn [app]. f_equal. now apply IH.
Qed.

Lemma no_char_In (c : Z) (s : pystr) : no_char c s = true <-> ~ In c s.
Proof.
  unfold no_char. rewrite negb_true_iff. split.
  - intros H Hin. assert (existsb (Z.eqb c) s = true); [|congruence].
    apply existsb_exists. exists c. split; [exact Hin | apply Z.eqb_refl].
  - intros H. destruct (existsb (Z.eqb c) s) eqn:E; [|reflexivity].
    apply existsb_exists in E as (x & Hx & Hc). apply Z.eqb_eq in Hc.
    subst x. contradiction.
Qed.

Lemma no_char_app (c : Z) (a b : pystr) :
  no_char c (a ++ b) = no_char c a && no_char c b.
Proof. unfold no_char. now rewrite existsb_app, negb_orb. Qed.

Lemma str_contains_app (a b c : pystr) : str_contains (a ++ b ++ c) b = true.
Proof.
  induction a as [|x a IH]; cbn [app].
  - destruct (b ++ c) eqn:E; cbn [str_contains];
      rewrite <- E, startswith_app; reflexivity.
  - cbn [str_contains]. rewrite IH. apply orb_true_r.
Qed.

Lemma str_contains_split (s sep : pystr) :
  str_contains s sep = true -> exists a c, s = a ++ sep ++ c.
Proof.
  induction s as [|x s IH]; cbn [str_contains]; intros H.
  - rewrite orb_false_r in H. apply startswith_split in H.
    exists [], (skipn (length sep) []). exact H.
  - apply orb_true_iff in H as [H|H].
    + apply startswith_split in H. exists [], (skipn (length sep) (x :: s)).
      exact H.
    + destruct (IH H) as (a & c & ->). exists (x :: a), c. reflexivity.
Qed.

(** *** Lines *)

Lemma split_lines_cons (s : pystr) :
  exists line rest, split_lines s = line :: rest.
Proof.
  induction s as [|c s (line & rest & IH)]; cbn [split_lines]; [eauto|].
  destruct (c =? 10); [eauto|]. rewrite IH. eauto.
Qed.

Lemma split_lines_no_newline (s : pystr) :
  Forall (fun line => ~ In 10 line) (split_lines s).
Proof.
  induction s as [|c s IH]; cbn [split_lines].
  - constructor; [intros []|constructor].
  - destruct (Z.eqb_spec c 10) as [->|Hc].
    + constructor; [intros []|exact IH].
    + destruct (split_lines_cons s) as (line & rest & Hs).
      rewrite Hs in *. inversion IH; subst. constructor; [|assumption].
      intros [H|H]; [congruence | contradiction].
Qed.

Lemma split_lines_first (s line : pystr) (rest : list pystr) :
  split_lines s = line :: rest -> exists b, s = line ++ b.
Proof.
  revert line rest; induction s as [|c s IH]; intros line rest H;
    cbn [split_lines] in H.
  - injection H as <- <-. exists []. reflexivity.
  - destruct (c =? 10).
    + injection H as <- <-. exists (c :: s). reflexivity.
    + destruct (split_lines_cons s) as (l0 & r0 & Hs). rewrite Hs in H.
      injection H as <- <-. destruct (IH _ _ Hs) as [b ->].
      exists b. reflexivity.
Qed.

(** Every line is a piece of the text. *)
Lemma split_lines_piece (s line : pystr) :
  In line (split_lines s) -> exists a b, s = a ++ line ++ b.
Proof.
  revert line; induction s as [|c s IH]; intros line H; cbn [split_lines] in H.
  - destruct H as [<-|[]]. exists [], []. reflexivity.
  - destruct (c =? 10).
    + destruct H as [<-|H].
      * exists [], (c :: s). reflexivity.
      * destruct (IH _ H) as (a & b & ->). exists (c :: a), b. reflexivity.
    + destruct (split_lines_cons s) as (l0 & rest & Hs). rewrite Hs in H.
      destruct H as [<-|H].
      * destruct (split_lines_first _ _ _ Hs) as [b ->].
        exists [], b. reflexivity.
      * destruct (IH line) as (a & b & ->); [rewrite Hs; now right|].
        exists (c :: a), b. reflexivity.
Qed.

Lemma split_lines_line (line t : pystr) :
  ~ In 10 line -> split_lines (line ++ 10 :: t) = line :: split_lines t.
Proof.
  induction line as [|c line IH]; intros H; cbn [app split_lines].
  - reflexivity.
  - destruct (Z.eqb_spec c 10) as [->|Hc]; [exfalso; apply H; now left|].
    rewrite IH; [reflexivity|]. intros Hin. apply H. now right.
Qed.

Lemma split_lines_last (line : pystr) :
  ~ In 10 line -> split_lines line = [line].
Proof.
  induction line as [|c line IH]; intros H; cbn [split_lines]; [reflexivity|].
  destruct (Z.eqb_spec c 10) as [->|Hc]; [exfalso; apply H; now left|].
  rewrite IH; [reflexivity|]. intros Hin. apply H. now right.
Qed.

Lemma split_lines_text (pre : list pystr) (rest : pystr) :
  Forall (fun line => ~ In 10 line) pre ->
  split_lines (lines_text pre ++ rest) = pre ++ split_lines rest.
Proof.
  induction 1 as [|line pre Hl _ IH]; [reflexivity|].
  unfold lines_text in *. cbn [flat_map app].
  rewrite <- !app_assoc. cbn [app]. rewrite split_lines_line by exact Hl.
  now rewrite IH.
Qed.

(** *** White space *)

Lemma lstrip_fixed (c : Z) (r : pystr) :
  isspace c = false -> lstrip (c :: r) = c :: r.
Proof. intros H. cbn [lstrip]. now rewrite H. Qed.

Lemma lstrip_head (s : pystr) :
  lstrip s = [] \/ exists c r, lstrip s = c :: r /\ isspace c = false.
Proof.
  induction s as [|c s IH]; cbn [lstrip]; [now left|].
  destruct (isspace c) eqn:E; [exact IH | right; eauto].
Qed.

Lemma lstrip_idem (s : pystr) : lstrip (lstrip s) = lstrip s.
Proof.
  destruct (lstrip_head s) as [->|(c & r & -> & Hc)]; [reflexivity|].
  now apply lstrip_fixed.
Qed.

Lemma lstrip_app_last (w : pystr) (c : Z) :
  isspace c = false -> lstrip (w ++ [c]) = lstrip w ++ [c].
Proof.
  intros Hc. induction w as [|x w IH]; cbn [app lstrip].
  - now rewrite Hc.
  - destruct (isspace x); [exact IH | reflexivity].
Qed.

Lemma lstrip_blank (pad s : pystr) :
  Forall (fun c => isspace c = true) pad -> lstrip (pad ++ s) = lstrip s.
Proof.
  induction 1 as [|c pad Hc _ IH]; [reflexivity|].
  cbn [app lstrip]. now rewrite Hc.
Qed.

Lemma lstrip_In (x : Z) (s : pystr) : In x (lstrip s) -> In x s.
Proof.
  induction s as [|c s IH]; cbn [lstrip]; [auto|].
  destruct (isspace c); [|auto]. intros H. right. auto.
Qed.

Lemma strip_In (x : Z) (s : pystr) : In x (strip s) -> In x s.
Proof.
  unfold strip. intros H. apply in_rev, lstrip_In, in_rev in H.
  now apply lstrip_In.
Qed.

Lemma strip_idem (s : pystr) : strip (strip s) = strip s.
Proof.
  unfold strip.
  destruct (lstrip_head s) as [->|(c & r & -> & Hc)]; [reflexivity|].
  cbn [rev]. rewrite (lstrip_app_last _ _ Hc), rev_app_distr.
  cbn [rev app]. rewrite (lstrip_fixed _ _ Hc). cbn [rev].
  rewrite rev_involutive, (lstrip_app_last _ _ Hc), lstrip_idem.
  now rewrite rev_app_distr.
Qed.

Lemma rev_last (s : pystr) (d : Z) :
  s <> [] -> exists r, rev s = last s d :: r.
Proof.
  intros H. exists (rev (removelast s)).
  rewrite <- rev_unit. f_equal. now apply app_removelast_last.
Qed.

Lemma strip_padded (pad1 id pad2 : pystr) :
  blank_text pad1 = true -> blank_text pad2 = true ->
  isspace (hd 32 id) = false -> isspace (last id 32) = false ->
  strip (pad1 ++ id ++ pad2) = id.
Proof.
  intros H1 H2 Hh Hl.
  assert (Hb : forall pad, blank_text pad = true ->
                           Forall (fun c => isspace c = true) pad).
  { intros pad H. unfold blank_text in H. rewrite forallb_forall in H.
    apply Forall_forall. intros c Hc. specialize (H c Hc).
    now apply andb_true_iff in H as [H _]. }
  destruct id as [|c id]; [discriminate Hh|]. cbn [hd] in Hh.
  unfold strip. rewrite (lstrip_blank _ _ (Hb _ H1)).
  cbn [app]. rewrite (lstrip_fixed _ _ Hh).
  change (c :: id ++ pad2) with ((c :: id) ++ pad2).
  rewrite rev_app_distr, lstrip_blank.
  2:{ apply Forall_rev. now apply Hb. }
  destruct (rev_last (c :: id) 32) as [r Hr]; [discriminate|].
  rewrite Hr, (lstrip_fixed _ _ Hl), <- Hr. apply rev_involutive.
Qed.

(** *** The marker *)

Lemma marker_has_colon (s : pystr) :
  startswith s WalrusCLI.marker = true -> In 58 s.
Proof.
  intros H. apply startswith_split in H. rewrite H.
  apply in_or_app. left. vm_compute. tauto.
Qed.

Lemma find_sep_none (s : pystr) :
  no_char 58 s = true -> find_sep WalrusCLI.marker s = None.
Proof.
  intros H. apply no_char_In in H.
  induction s as [|c s IH]; cbn [find_sep].
  - reflexivity.
  - destruct (startswith (c :: s) WalrusCLI.marker) eqn:E.
    + exfalso. apply H. now apply marker_has_colon.
    + rewrite IH; [reflexivity|]. intros Hin. apply H. now right.
Qed.

Lemma marker_not_in_lead (c : Z) (lead rest : pystr) :
  ~ In 58 (c :: lead) ->
  startswith ((c :: lead) ++ WalrusCLI.marker ++ rest) WalrusCLI.marker = false.
Proof.
  intros H.
  destruct (startswith _ _) eqn:E; [exfalso|reflexivity].
  apply startswith_split in E.
  apply (f_equal (fun l => nth 7 l 0)) in E.
  change (nth 7 (WalrusCLI.marker ++ _) 0) with 58 in E.
  destruct (Nat.lt_ge_cases 7 (length (c :: lead))) as [Hlt|Hge].
  - rewrite app_nth1 in E by exact Hlt.
    apply H. rewrite <- E. now apply nth_In.
  - rewrite app_nth2 in E by lia.
    cbn [length] in *.
    assert (Hj : (7 - S (length lead) < 7)%nat) by lia.
    rewrite app_nth1 in E by (change (length WalrusCLI.marker) with 8%nat; lia).
    remember (7 - S (length lead))%nat as j.
    do 7 (destruct j as [|j]; [vm_compute in E; discriminate E|]). lia.
Qed.

Lemma find_sep_lead (lead rest : pystr) :
  no_char 58 lead = true ->
  find_sep WalrusCLI.marker (lead ++ WalrusCLI.marker ++ rest)
  = Some (lead, rest).
Proof.
  intros H. apply no_char_In in H.
  induction lead as [|c lead IH].
  - cbn [app]. destruct (WalrusCLI.marker ++ rest) eqn:E; [discriminate E|].
    cbn [find_sep]. rewrite <- E, startswith_app. reflexivity.
  - change (find_sep WalrusCLI.marker ((c :: lead) ++ WalrusCLI.marker ++ rest))
      with (if startswith ((c :: lead) ++ WalrusCLI.marker ++ rest)
                 WalrusCLI.marker
            then Some ([], skipn (length WalrusCLI.marker)
                             ((c :: lead) ++ WalrusCLI.marker ++ rest))
            else match find_sep WalrusCLI.marker
                         (lead ++ WalrusCLI.marker ++ rest) with
                 | Some (before, after) => Some (c :: before, after)
                 | None => None
                 end).
    rewrite (marker_not_in_lead c lead rest H).
    rewrite IH; [reflexivity|]. intros Hin. apply H. now right.
Qed.

Lemma blank_no_colon (pad : pystr) :
  blank_text pad = true -> no_char 58 pad = true /\ no_char 10 pad = true.
Proof.
  unfold blank_text. rewrite forallb_forall. intros H.
  split; apply no_char_In; intros Hin; specialize (H _ Hin);
    vm_compute in H; discriminate H.
Qed.

Lemma first_blob_id_skips (pre more : list pystr) (line : pystr) :
  forallb plain_line pre = true ->
  str_contains line WalrusCLI.marker = true ->
  WalrusCLI.first_blob_id (pre ++ line :: more)
  = Some (strip (split_item_1 WalrusCLI.marker line)).
Proof.
  intros Hpre Hline. induction pre as [|l pre IH]; cbn [app WalrusCLI.first_blob_id].
  - now rewrite Hline.
  - cbn [forallb] in Hpre. apply andb_true_iff in Hpre as [Hl Hpre].
    unfold plain_line in Hl. apply andb_true_iff in Hl as [_ Hl].
    apply negb_true_iff in Hl. rewrite Hl. now apply IH.
Qed.

Lemma first_blob_id_some (lines : list pystr) (id : pystr) :
  WalrusCLI.first_blob_id lines = Some id ->
  exists line,
    In line lines /\ str_contains line WalrusCLI.marker = true
    /\ id = strip (split_item_1 WalrusCLI.marker line).
Proof.
  induction lines as [|l lines IH]; cbn [WalrusCLI.first_blob_id];
    [discriminate|].
  destruct (str_contains l WalrusCLI.marker) eqn:E.
  - intros H. injection H as <-. exists l. repeat split; auto. now left.
  - intros H. destruct (IH H) as (line & Hin & Hc & Hid).
    exists line. repeat split; auto. now right.
Qed.

Lemma split_item_1_In (x : Z) (sep s : pystr) :
  In x (split_item_1 sep s) -> In x s.
Proof.
  unfold split_item_1.
  destruct (find_sep sep s) as [[before after]|] eqn:E; [|intros []].
  apply find_sep_split in E. subst s. intros H.
  apply in_or_app. right. apply in_or_app. right.
  destruct (find_sep sep after) as [[piece rest]|] eqn:E2; [|exact H].
  apply find_sep_split in E2. subst after. apply in_or_app. now left.
Qed.

(** X17. What [upload_to_walrus] returns: the hash is [hash_bundle] of
    the bundle, and the blob id is not empty, has no white space at
    either end and no line feed inside; it is returned only when the run
    succeeded and its output mentions [Blob ID:]. *)
Theorem upload_to_walrus_result (store : pystr -> WalrusCLI.completed)
    (bundle : json) (blob_id blob_hash : pystr) :
  WalrusCLI.upload_to_walrus store bundle
  = Returned (blob_id, blob_hash) ->
  WalrusUploader.hash_bundle bundle = Ok blob_hash
  /\ blob_id <> []
  /\ strip blob_id = blob_id
  /\ ~ In 10 blob_id
  /\ exists output,
       store (Json.dumps Json.opts_indent2 bundle) = WalrusCLI.Completed output
       /\ str_contains output WalrusCLI.marker = true.
Proof.
  unfold WalrusCLI.upload_to_walrus.
  destruct (store _) as [output|stderr]; [|discriminate].
  destruct (WalrusCLI.first_blob_id (split_lines output)) as [[|c s]|] eqn:E;
    try discriminate.
  destruct (WalrusUploader.hash_bundle bundle) as [h|]; [|discriminate].
  intros H. injection H as <- <-.
  apply first_blob_id_some in E as (line & Hin & Hc & Hid).
  split; [reflexivity|]. split; [discriminate|].
  split; [rewrite Hid; apply strip_idem|]. split.
  - intros H10. rewrite Hid in H10.
    apply strip_In, split_item_1_In in H10.
    pose proof (split_lines_no_newline output) as Hn.
    rewrite Forall_forall in Hn. exact (Hn _ Hin H10).
  - exists output. split; [reflexivity|].
    apply split_lines_piece in Hin as (a & b & ->).
    apply str_contains_split in Hc as (a' & c' & ->).
    rewrite <- !app_assoc.
    replace (a ++ a' ++ WalrusCLI.marker ++ c' ++ b)
      with ((a ++ a') ++ WalrusCLI.marker ++ c' ++ b)
      by now rewrite <- app_assoc.
    apply str_contains_app.
Qed.


Lemma upload_example_returns :
  WalrusCLI.upload_to_walrus store_example nested_example
  = Returned (py "Cu7KD1o8bwuW-rCVihj40Nu",
              py "0x" ++ sha256_hex
                (Json.dumps Json.opts_sorted_compact nested_example)).
Proof. vm_compute. reflexivity. Qed.

(** X18. The output the command line prints is read as intended: when
    the lines before the first line with the marker hold no marker, and
    that line is some text without a colon, [Blob ID:], white space, an
    id without colon or surrounding white space, and white space, then
    [upload_to_walrus] returns that id together with [hash_bundle] of
    the bundle, whatever follows the line. *)
Theorem upload_to_walrus_reads_blob_id (store : pystr -> WalrusCLI.completed)
    (bundle : json) (pre : list pystr) (lead pad1 id pad2 tail : pystr) :
  store (Json.dumps Json.opts_indent2 bundle)
  = WalrusCLI.Completed
      (lines_text pre ++ blob_id_line lead pad1 id pad2 ++ tail) ->
  forallb plain_line pre = true ->
  no_char 58 lead && no_char 10 lead = true ->
  blank_text pad1 = true ->
  blank_text pad2 = true ->
  clean_id id = true ->
  line_end tail = true ->
  WalrusCLI.upload_to_walrus store bundle
  = match WalrusUploader.hash_bundle bundle with
    | Ok blob_hash => Returned (id, blob_hash)
    | Raise e => Raised e
    end.
Proof.
  intros Hstore Hpre Hlead Hp1 Hp2 Hid Htail.
  apply andb_true_iff in Hlead as [Hlead58 Hlead10].
  unfold clean_id in Hid. rewrite !andb_true_iff in Hid.
  destruct Hid as [[[Hh Hl] Hid58] Hid10].
  apply negb_true_iff in Hh, Hl.
  destruct (blank_no_colon _ Hp1) as [Hp1c Hp1n].
  destruct (blank_no_colon _ Hp2) as [Hp2c Hp2n].
  assert (Hline10 : ~ In 10 (blob_id_line lead pad1 id pad2)).
  { apply no_char_In. unfold blob_id_line.
    rewrite !no_char_app, Hlead10, Hp1n, Hid10, Hp2n. reflexivity. }
  assert (Hitem : strip (split_item_1 WalrusCLI.marker
                           (blob_id_line lead pad1 id pad2)) = id).
  { unfold split_item_1, blob_id_line.
    rewrite (find_sep_lead _ _ Hlead58).
    rewrite find_sep_none
      by (rewrite !no_char_app, Hp1c, Hid58, Hp2c; reflexivity).
    now apply strip_padded. }
  assert (Hlines : exists more,
             split_lines (lines_text pre ++ blob_id_line lead pad1 id pad2
                          ++ tail)
             = pre ++ blob_id_line lead pad1 id pad2 :: more).
  { rewrite split_lines_text.
    2:{ rewrite forallb_forall in Hpre. apply Forall_forall.
        intros l Hl'. specialize (Hpre l Hl'). unfold plain_line in Hpre.
        apply andb_true_iff in Hpre as [Hn _]. now apply no_char_In. }
    destruct tail as [|c tail].
    - rewrite List.app_nil_r, (split_lines_last _ Hline10). eauto.
    - cbn [line_end] in Htail. apply Z.eqb_eq in Htail. subst c.
      rewrite (split_lines_line _ _ Hline10). eauto. }
  destruct Hlines as [more Hlines].
  unfold WalrusCLI.upload_to_walrus. rewrite Hstore, Hlines.
  rewrite first_blob_id_skips; [|exact Hpre|].
  2:{ unfold blob_id_line. apply str_contains_app. }
  rewrite Hitem. destruct id as [|c id]; [discriminate Hh|]. reflexivity.
Qed.

Lemma upload_to_walrus_reads_blob_id_witness :
  WalrusCLI.upload_to_walrus store_example nested_example
  = match WalrusUploader.hash_bundle nested_example with
    | Ok blob_hash =>
        Returned (py "Cu7KD1o8bwuW-rCVihj40Nu", blob_hash)
    | Raise e => Raised e
    end.
Proof.
  apply (upload_to_walrus_reads_blob_id
           store_example nested_example
           [py "Success: blob stored"; py "Size: 1 KiB"]
           [] (py " ") (py "Cu7KD1o8bwuW-rCVihj40Nu") [] (10 :: py "Cost: 1 WAL"));
    reflexivity.
Defined.

Lemma upload_to_walrus_result_witness :
  exists blob_id blob_hash,
    WalrusCLI.upload_to_walrus store_example nested_example
    = Returned (blob_id, blob_hash)
    /\ WalrusUploader.hash_bundle nested_example = Ok blob_hash
    /\ blob_id <> []
    /\ strip blob_id = blob_id
    /\ ~ In 10 blob_id
    /\ exists output,
         store_example (Json.dumps Json.opts_indent2 nested_example)
         = WalrusCLI.Completed output
         /\ str_contains output WalrusCLI.marker = true.
Proof.
  pose proof upload_example_returns as H.
  do 2 eexists. split; [exact H|].
  apply (upload_to_walrus_result store_example nested_example _ _ H).
Defined.

(** X19. A blob that is stored and read back verifies: when
    [upload_to_walrus] returned a blob id and a hash for a
    JSON-representable bundle, and reading that id yields the text the
    upload wrote, [verify_upload] with the returned hash answers
    [True]. *)
Theorem verify_upload_round_trip
    (store read : pystr -> WalrusCLI.completed) (bundle : json)
    (blob_id blob_hash : pystr) :
  json_representable bundle = true ->
  WalrusCLI.upload_to_walrus store bundle
  = Returned (blob_id, blob_hash) ->
  read blob_id = WalrusCLI.Completed (Json.dumps Json.opts_indent2 bundle) ->
  WalrusCLI.verify_upload read blob_id blob_hash = true.
Proof.
  intros Hv Hup Hread.
  assert (Hh : WalrusUploader.hash_bundle bundle = Ok blob_hash).
  { unfold WalrusCLI.upload_to_walrus in Hup.
    destruct (store _); [|discriminate].
    destruct (WalrusCLI.first_blob_id _) as [[|c s]|]; try discriminate.
    destruct (WalrusUploader.hash_bundle bundle); [|discriminate].
    now injection Hup as _ <-. }
  unfold WalrusCLI.verify_upload. rewrite Hread.
  rewrite (loads_dumps_indent2 _ Hv). cbn [bind]. rewrite Hh.
  apply str_eqb_refl.
Qed.

Lemma verify_upload_round_trip_witness :
  exists blob_id blob_hash,
    WalrusCLI.upload_to_walrus store_example nested_example
    = Returned (blob_id, blob_hash)
    /\ WalrusCLI.verify_upload
         (read_example (Json.dumps Json.opts_indent2 nested_example))
         blob_id blob_hash = true.
Proof.
  pose proof upload_example_returns as H.
  do 2 eexists. split; [exact H|].
  apply (verify_upload_round_trip
           store_example
           (read_example (Json.dumps Json.opts_indent2 nested_example))
           nested_example _ _);
    [reflexivity | exact H | reflexivity].
Defined.

(** X20. [verify_upload] compares content, not layout: it answers
    [True] for the hash of a bundle whenever the text read back is the
    indented text of a value that differs from the bundle only in the
    order of the members of its mappings. *)
Theorem verify_upload_ignores_member_order
    (read : pystr -> WalrusCLI.completed) (blob_id expected_hash : pystr)
    (bundle stored : json) :
  json_representable stored = true ->
  unique_keys bundle = true -> key_permuted bundle stored ->
  WalrusUploader.hash_bundle bundle = Ok expected_hash ->
  read blob_id = WalrusCLI.Completed (Json.dumps Json.opts_indent2 stored) ->
  WalrusCLI.verify_upload read blob_id expected_hash = true.
Proof.
  intros Hs Hu Hp Hh Hread.
  unfold WalrusCLI.verify_upload. rewrite Hread.
  rewrite (loads_dumps_indent2 _ Hs). cbn [bind].
  unfold WalrusUploader.hash_bundle in *. unfold Json.dumps in *.
  rewrite <- (encode_key_permuted Json.opts_sorted_compact eq_refl
                bundle stored 0%nat Hu Hp).
  rewrite Hh. apply str_eqb_refl.
Qed.

Lemma nested_example_permuted :
  key_permuted nested_example nested_example_reordered.
Proof.
  unfold nested_example, nested_example_reordered.
  eapply kp_dict.
  - exact (Permutation_rev
             [ (py "b", JInt 2);
               (py "a", JDict [(py "y", JList [JInt 1; JNull]);
                               (py "x", JFloat (py "0.85"))]);
               (py "c", JStr (py "text")) ]).
  - repeat constructor.
    eapply kp_dict; [apply perm_swap | repeat constructor].
Defined.

Lemma verify_upload_ignores_member_order_witness :
  exists expected_hash,
    WalrusUploader.hash_bundle nested_example = Ok expected_hash
    /\ WalrusCLI.verify_upload
         (read_example (Json.dumps Json.opts_indent2 nested_example_reordered))
         (py "blobA") expected_hash = true.
Proof.
  destruct (WalrusUploader.hash_bundle nested_example) as [h|e] eqn:H.
  - exists h. split; [reflexivity|].
    apply (verify_upload_ignores_member_order
             (read_example
                (Json.dumps Json.opts_indent2 nested_example_reordered))
             (py "blobA") h nested_example nested_example_reordered);
      [reflexivity | reflexivity | exact nested_example_permuted
      | exact H | reflexivity].
  - vm_compute in H. discriminate H.
Defined.

(** ** X21 to X24: the resolution report *)

Lemma lift_returned {A} (r : result A) (a : A) :
  lift r = Returned a -> r = Ok a.
Proof. destruct r; cbn [lift]; congruence. Qed.

Lemma obind_returned {A B} (r : outcome A) (k : A -> outcome B) (b : B) :
  obind r k = Returned b -> exists a, r = Returned a /\ k a = Returned b.
Proof. destruct r; cbn [obind]; intros H; try discriminate. eauto. Qed.

Lemma lift_bind_returned {A B} (r : result A) (k : A -> outcome B) (b : B) :
  obind (lift r) k = Returned b -> exists a, r = Ok a /\ k a = Returned b.
Proof.
  intros H. apply obind_returned in H as (a & Ha & H).
  apply lift_returned in Ha. eauto.
Qed.

Lemma getitem_dict (v : json) (k : pystr) (x : json) :
  GPT5Inference.getitem v k = Ok x ->
  exists d, v = JDict d /\ dict_lookup d k = Some x.
Proof.
  destruct v; cbn [GPT5Inference.getitem]; try discriminate.
  destruct (dict_lookup items k) eqn:E; cbn [of_option]; [|discriminate].
  intros H. apply Ok_inj in H. subst. eauto.
Qed.

(** *** [dict_set] *)

Lemma str_eqb_sym (a b : pystr) : str_eqb a b = str_eqb b a.
Proof.
  destruct (str_eqb a b) eqn:E1, (str_eqb b a) eqn:E2; try reflexivity.
  - apply str_eqb_eq in E1. subst. now rewrite str_eqb_refl in E2.
  - apply str_eqb_eq in E2. subst. now rewrite str_eqb_refl in E1.
Qed.

Lemma lookup_set_same (d : dict) (k : pystr) (v : json) :
  dict_lookup (JsonDecoder.dict_set d k v) k = Some v.
Proof.
  induction d as [|[k' v'] d IH]; cbn [JsonDecoder.dict_set dict_lookup].
  - now rewrite str_eqb_refl.
  - destruct (str_eqb k' k) eqn:E; cbn [dict_lookup]; rewrite E; auto.
Qed.

Lemma lookup_set_other (d : dict) (k k' : pystr) (v : json) :
  str_eqb k k' = false ->
  dict_lookup (JsonDecoder.dict_set d k v) k' = dict_lookup d k'.
Proof.
  intros Hk.
  induction d as [|[k0 v0] d IH]; cbn [JsonDecoder.dict_set dict_lookup].
  - now rewrite Hk.
  - destruct (str_eqb k0 k) eqn:E; cbn [dict_lookup]; [|now rewrite IH].
    apply str_eqb_eq in E. subst k0. now rewrite Hk.
Qed.

Lemma keys_set (d : dict) (k : pystr) (v : json) :
  keys (JsonDecoder.dict_set d k v)
  = if existsb (str_eqb k) (keys d) then keys d else keys d ++ [k].
Proof.
  unfold keys. induction d as [|[k' v'] d IH]; [reflexivity|].
  cbn [JsonDecoder.dict_set map fst existsb].
  rewrite (str_eqb_sym k k').
  destruct (str_eqb k' k) eqn:E; cbn [orb map fst]; [reflexivity|].
  rewrite IH. now destruct (existsb (str_eqb k) (map fst d)).
Qed.

Lemma existsb_app_one (k x : pystr) (l : list pystr) :
  existsb (str_eqb x) (l ++ [k]) = existsb (str_eqb x) l || str_eqb x k.
Proof. rewrite existsb_app. cbn [existsb]. now rewrite orb_false_r. Qed.

Lemma distinct_app_one (l : list pystr) (k : pystr) :
  distinct l = true -> existsb (str_eqb k) l = false ->
  distinct (l ++ [k]) = true.
Proof.
  induction l as [|x l IH]; cbn [distinct app existsb]; [reflexivity|].
  intros Hd Hk. apply andb_true_iff in Hd as [Hx Hd].
  apply orb_false_iff in Hk as [Hkx Hk].
  rewrite existsb_app_one, (str_eqb_sym x k), Hkx, orb_false_r, Hx.
  cbn [andb]. now apply IH.
Qed.

Lemma set_representable (d : dict) (k : pystr) (v : json) :
  json_representable (JDict d) = true ->
  well_formed_text k = true -> json_representable v = true ->
  json_representable (JDict (JsonDecoder.dict_set d k v)) = true.
Proof.
  cbn [json_representable]. intros Hd Hk Hv.
  apply andb_true_iff in Hd as [Hdist Hall]. apply andb_true_iff. split.
  - rewrite keys_set. destruct (existsb (str_eqb k) (keys d)) eqn:E;
      [assumption | now apply distinct_app_one].
  - clear Hdist. induction d as [|[k' v'] d IH];
      cbn [JsonDecoder.dict_set forallb] in *.
    + now rewrite Hk, Hv.
    + apply andb_true_iff in Hall as [Hkv Hall].
      destruct (str_eqb k' k) eqn:E; cbn [forallb].
      * apply andb_true_iff in Hkv as [Hk' _]. now rewrite Hk', Hv, Hall.
      * now rewrite Hkv, IH.
Qed.

Lemma lookup_representable (d : dict) (k : pystr) (v : json) :
  json_representable (JDict d) = true -> dict_lookup d k = Some v ->
  json_representable v = true.
Proof.
  cbn [json_representable]. intros H Hl. apply andb_true_iff in H as [_ H].
  induction d as [|[k' v'] d IH]; [discriminate|].
  cbn [forallb dict_lookup] in *. apply andb_true_iff in H as [Hkv H].
  destruct (str_eqb k' k); [|now apply IH].
  injection Hl as <-. now apply andb_true_iff in Hkv as [_ Hv].
Qed.

Lemma bundle_metadata_lookup (md : dict) (timestamp : Z)
    (market_id category : pystr) :
  dict_lookup (bundle_metadata md timestamp market_id category) (py "timestamp")
  = Some (JInt timestamp)
  /\ dict_lookup (bundle_metadata md timestamp market_id category)
       (py "market_id") = Some (JStr market_id)
  /\ dict_lookup (bundle_metadata md timestamp market_id category)
       (py "category") = Some (JStr category).
Proof.
  unfold bundle_metadata. repeat split.
  - rewrite !lookup_set_other by reflexivity. apply lookup_set_same.
  - rewrite lookup_set_other by reflexivity. apply lookup_set_same.
  - apply lookup_set_same.
Qed.

Lemma bundle_metadata_representable (md : dict) (timestamp : Z)
    (market_id category : pystr) :
  json_representable (JDict md) = true ->
  well_formed_text market_id = true -> well_formed_text category = true ->
  json_representable (JDict (bundle_metadata md timestamp market_id category))
  = true.
Proof.
  intros Hmd Hm Hc. unfold bundle_metadata.
  repeat apply set_representable; auto.
Qed.

(** *** What a returned report was built from *)

Lemma validate_true_inv (output : dict) :
  GPT5Inference.validate_output output = Ok true ->
  exists resolution sources rationale r,
    dict_lookup output (py "resolution") = Some resolution
    /\ dict_lookup output (py "sources") = Some sources
    /\ dict_lookup output (py "rationale") = Some rationale
    /\ resolution = JDict r
    /\ dict_contains r (py "value") = true
    /\ dict_contains r (py "confidence") = true.
Proof.
  unfold GPT5Inference.validate_output, GPT5Inference.required_fields.
  cbn [forallb GPT5Inference.getitem]. rewrite andb_true_r.
  unfold dict_contains at 1 2 3.
  destruct (dict_lookup output (py "resolution")) as [res|];
    [|cbn; discriminate].
  destruct (dict_lookup output (py "sources")) as [src|];
    [|cbn; discriminate].
  destruct (dict_lookup output (py "rationale")) as [rat|];
    [|cbn; discriminate].
  cbn [andb negb of_option bind].
  destruct res as [|b|z|r|s|l|items];
    cbn [GPT5Inference.str_in GPT5Inference.getitem bind]; try discriminate.
  - destruct (str_contains s (py "value")); cbn [bind negb orb];
      [|discriminate].
    destruct (str_contains s (py "confidence")); cbn [bind negb orb];
      discriminate.
  - destruct (existsb _ l); cbn [bind negb orb]; [|discriminate].
    destruct (existsb _ l); cbn [bind negb orb]; discriminate.
  - destruct (dict_contains items (py "value")) eqn:Hv; cbn [bind negb orb];
      [|discriminate].
    destruct (dict_contains items (py "confidence")) eqn:Hc;
      cbn [bind negb orb]; [|discriminate].
    intros _. exists (JDict items), src, rat, items. repeat split; assumption.
Qed.

Lemma validate_value_true (output : json) :
  TEEReporter.validate_output_value output = Ok true ->
  exists d, output = JDict d /\ GPT5Inference.validate_output d = Ok true.
Proof.
  destruct output as [|b|z|r|s|l|d];
    cbn [TEEReporter.validate_output_value GPT5Inference.str_in bind];
    try discriminate.
  - repeat (destruct (str_contains s _); cbn [negb bind]; try discriminate).
  - repeat (destruct (existsb _ l); cbn [negb bind]; try discriminate).
  - eauto.
Qed.

Lemma upload_returned_hash (store : pystr -> WalrusCLI.completed)
    (bundle : json) (blob_id blob_hash : pystr) :
  WalrusCLI.upload_to_walrus store bundle = Returned (blob_id, blob_hash) ->
  WalrusUploader.hash_bundle bundle = Ok blob_hash.
Proof.
  unfold WalrusCLI.upload_to_walrus.
  destruct (store _); [|discriminate].
  destruct (WalrusCLI.first_blob_id _) as [[|c s]|]; try discriminate.
  destruct (WalrusUploader.hash_bundle bundle); [|discriminate].
  intros H. now injection H as _ <-.
Qed.

(** The facts a returned report rests on, in the order the code
    establishes them. *)
Lemma create_resolution_report_inv (self : TEEReporter.t) (e : TEEReporter.env)
    (market_id category : pystr) (round_number : Z) (report : dict) :
  TEEReporter.create_resolution_report self e market_id category round_number
  = Returned report ->
  exists r md output inference_input blob_id blob_hash tee_proof prompt_hash
         schema_hash resolution sources rationale,
    TEEReporter.inference_result e = JDict r
    /\ dict_lookup r (py "metadata") = Some (JDict md)
    /\ dict_lookup r (py "output") = Some (JDict output)
    /\ dict_lookup r (py "input") = Some inference_input
    /\ GPT5Inference.validate_output output = Ok true
    /\ (let bundle :=
          JDict (WalrusUploader.create_evidence_bundle
                   inference_input (JDict output)
                   (bundle_metadata md (TEEReporter.report_now e)
                      market_id category)) in
        WalrusUploader.hash_bundle bundle = Ok blob_hash
        /\ if TEEReporter.enable_walrus_upload self
           then WalrusCLI.upload_to_walrus (TEEReporter.walrus_store e) bundle
                = Returned (blob_id, blob_hash)
           else TEEReporter.simulated_blob_id bundle = Ok blob_id)
    /\ TEESignatureGenerator.create_tee_proof
         (TEEReporter.tee_signer self) (TEEReporter.tee_env e)
         inference_input (JDict output) blob_id blob_hash = Ok tee_proof
    /\ dict_lookup md (py "prompt_hash") = Some prompt_hash
    /\ hash_text (Json.dumps opts_default config.RESOLUTION_SCHEMA)
       = Ok schema_hash
    /\ dict_lookup output (py "resolution") = Some resolution
    /\ dict_lookup output (py "sources") = Some sources
    /\ dict_lookup output (py "rationale") = Some rationale
    /\ report
       = [ (py "round", JInt round_number);
           (py "task", JStr (py "binary"));
           (py "resolution", resolution);
           (py "sources", sources);
           (py "rationale", rationale);
           (py "controls",
            JDict [ (py "model_id", JStr config.GPT5_MODEL);
                    (py "prompt_hash", prompt_hash);
                    (py "parser_hash", JStr TEEReporter.parser_hash);
                    (py "schema_hash", JStr schema_hash) ]);
           (py "tee_proof", JDict tee_proof) ].
Proof.
  unfold TEEReporter.create_resolution_report. intros H.
  apply lift_bind_returned in H as (md0 & Hmd & H).
  apply lift_bind_returned in H as (tokens & Htok & H).
  apply lift_bind_returned in H as (output0 & Hout & H).
  apply lift_bind_returned in H as (is_valid & Hvalid & H).
  destruct is_valid; cbn [negb] in H; [|discriminate].
  apply lift_bind_returned in H as (md & Hmap & H).
  apply lift_bind_returned in H as (inference_input & Hin & H).
  apply obind_returned in H as ([blob_id blob_hash] & Hids & H).
  cbn [fst snd] in H.
  apply lift_bind_returned in H as (tee_proof & Hproof & H).
  apply lift_bind_returned in H as (prompt_hash & Hprompt & H).
  apply lift_bind_returned in H as (schema_hash & Hschema & H).
  apply lift_bind_returned in H as (resolution & Hres & H).
  apply lift_bind_returned in H as (sources & Hsrc & H).
  apply lift_bind_returned in H as (rationale & Hrat & H).
  injection H as <-.
  apply getitem_dict in Hmd as (r & Hr & Hmd).
  destruct md0; cbn [TEEReporter.mapping] in Hmap; try discriminate Hmap.
  apply Ok_inj in Hmap. subst items.
  apply validate_value_true in Hvalid as (output & -> & Hvalid).
  rewrite Hr in Hout, Hin.
  apply getitem_dict in Hout as (r1 & Hr1 & Hout). injection Hr1 as <-.
  apply getitem_dict in Hin as (r2 & Hr2 & Hin). injection Hr2 as <-.
  apply getitem_dict in Hprompt as (m1 & Hm1 & Hprompt). injection Hm1 as <-.
  apply getitem_dict in Hres as (o1 & Ho1 & Hres). injection Ho1 as <-.
  apply getitem_dict in Hsrc as (o2 & Ho2 & Hsrc). injection Ho2 as <-.
  apply getitem_dict in Hrat as (o3 & Ho3 & Hrat). injection Ho3 as <-.
  exists r, md, output, inference_input, blob_id, blob_hash, tee_proof,
    prompt_hash, schema_hash, resolution, sources, rationale.
  repeat (split; [assumption || reflexivity|]).
  split; [|repeat (split; [assumption || reflexivity|]); reflexivity].
  fold (bundle_metadata md (TEEReporter.report_now e) market_id category)
    in Hids.
  cbv zeta. destruct (TEEReporter.enable_walrus_upload self).
  - split; [now apply upload_returned_hash in Hids | exact Hids].
  - apply lift_bind_returned in Hids as (id & Hid & Hids).
    apply lift_bind_returned in Hids as (h & Hh & Hids).
    injection Hids as <- <-. split; assumption.
Qed.

Lemma firstn_forall {A} (P : A -> Prop) (n : nat) (l : list A) :
  Forall P l -> Forall P (firstn n l).
Proof.
  intros H. revert n. induction H as [|x l Hx _ IH]; intros [|n];
    cbn [firstn]; constructor; auto.
Qed.

Lemma firstn_forallb {A} (f : A -> bool) (n : nat) (l : list A) :
  forallb f l = true -> forallb f (firstn n l) = true.
Proof.
  revert n. induction l as [|x l IH]; intros [|n] H; cbn [firstn forallb] in *;
    try reflexivity.
  apply andb_true_iff in H as [Hx Hl]. now rewrite Hx, IH.
Qed.

Lemma simulated_blob_id_shape (bundle : json) (blob_id : pystr) :
  TEEReporter.simulated_blob_id bundle = Ok blob_id ->
  startswith blob_id (py "SIMULATED_") = true
  /\ length blob_id = 42%nat
  /\ forallb is_hex_lower (skipn 10 blob_id) = true
  /\ well_formed_text blob_id = true.
Proof.
  unfold TEEReporter.simulated_blob_id. intros H.
  apply bind_ok in H as (data & Hdata & H). apply Ok_inj in H. subst blob_id.
  split; [apply startswith_app|]. split.
  - rewrite length_app, length_firstn. unfold sha256_hex.
    rewrite hex_length, sha256_length. reflexivity.
  - split.
    + change (skipn 10 (py "SIMULATED_" ++ ?t)) with t.
      apply firstn_forallb, hex_lower, sha256_bytes.
    + apply ascii_well_formed, Forall_app. split; [ascii_closed|].
      apply firstn_forall, hex_ascii, sha256_bytes.
Qed.

(** X21. A report is returned only for an output that passed
    [validate_output], and its [resolution], [sources] and [rationale]
    are the entries of that output, unchanged. *)
Theorem report_requires_valid_output (self : TEEReporter.t)
    (e : TEEReporter.env) (market_id category : pystr) (round_number : Z)
    (report : dict) :
  TEEReporter.create_resolution_report self e market_id category round_number
  = Returned report ->
  exists output,
    GPT5Inference.getitem (TEEReporter.inference_result e) (py "output")
    = Ok (JDict output)
    /\ GPT5Inference.validate_output output = Ok true
    /\ dict_lookup report (py "resolution")
       = dict_lookup output (py "resolution")
    /\ dict_lookup report (py "sources") = dict_lookup output (py "sources")
    /\ dict_lookup report (py "rationale")
       = dict_lookup output (py "rationale").
Proof.
  intros H. apply create_resolution_report_inv in H
    as (r & md & output & input & blob_id & blob_hash & proof & ph & sh
        & res & src & rat & Hr & Hmd & Hout & Hin & Hvalid & _ & _ & _ & _
        & Hres & Hsrc & Hrat & ->).
  exists output. rewrite Hr. cbn [GPT5Inference.getitem]. rewrite Hout.
  rewrite Hres, Hsrc, Hrat. repeat split; assumption || reflexivity.
Qed.

(** X22. A returned report has the layout the schema asks for: its keys
    are the schema's required list, in that order, [round] is the round
    number, [task] is [binary], the keys of [controls] and of
    [tee_proof] are the required lists of their schemas, and
    [resolution] is a mapping with the keys its schema requires. *)
Theorem report_matches_schema (self : TEEReporter.t)
    (e : TEEReporter.env) (market_id category : pystr) (round_number : Z)
    (report : dict) :
  TEEReporter.create_resolution_report self e market_id category round_number
  = Returned report ->
  keys report = schema_required config.RESOLUTION_SCHEMA
  /\ dict_lookup report (py "round") = Some (JInt round_number)
  /\ dict_lookup report (py "task") = Some (JStr (py "binary"))
  /\ (exists controls,
        dict_lookup report (py "controls") = Some (JDict controls)
        /\ keys controls
           = schema_required
               (schema_property config.RESOLUTION_SCHEMA (py "controls"))
        /\ dict_lookup controls (py "model_id") = Some (JStr config.GPT5_MODEL))
  /\ (exists tee_proof,
        dict_lookup report (py "tee_proof") = Some (JDict tee_proof)
        /\ keys tee_proof
           = schema_required
               (schema_property config.RESOLUTION_SCHEMA (py "tee_proof")))
  /\ (exists resolution,
        dict_lookup report (py "resolution") = Some (JDict resolution)
        /\ forallb (dict_contains resolution)
             (schema_required
                (schema_property config.RESOLUTION_SCHEMA (py "resolution")))
           = true).
Proof.
  intros H. apply create_resolution_report_inv in H
    as (r & md & output & input & blob_id & blob_hash & proof & ph & sh
        & res & src & rat & Hr & Hmd & Hout & Hin & Hvalid & _ & Hproof & _ & _
        & Hres & Hsrc & Hrat & ->).
  apply create_tee_proof_inv in Hproof
    as (h_in & h_out & d & sg & att & _ & _ & _ & _ & ->).
  destruct (validate_true_inv _ Hvalid)
    as (res' & _ & _ & rr & Hres' & _ & _ & -> & Hv & Hc).
  rewrite Hres in Hres'. injection Hres' as ->.
  split; [reflexivity|]. split; [reflexivity|]. split; [reflexivity|].
  split; [eexists; repeat split; reflexivity|].
  split; [eexists; repeat split; reflexivity|].
  exists rr. split; [reflexivity|].
  change (schema_required _) with [py "value"; py "confidence"].
  cbn [forallb]. now rewrite Hv, Hc.
Qed.

(** X23. A returned report is bound to its evidence: the bundle is
    built from the input and the output of the inference and from the
    inference metadata, in which the time of the report, the market id
    and the category are set (replacing entries of the same name); the
    bundle's timestamp is the time of the report; the proof's
    [blob_hash] is [hash_bundle] of that bundle, its [h_in] and [h_out]
    are the hashes of that input and output; and without an upload the
    [blob_id] is [SIMULATED_] followed by 32 hexadecimal digits of the
    bundle's SHA-256. *)
Theorem report_binds_evidence (self : TEEReporter.t)
    (e : TEEReporter.env) (market_id category : pystr) (round_number : Z)
    (report : dict) :
  TEEReporter.create_resolution_report self e market_id category round_number
  = Returned report ->
  exists r md output inference_input tee_proof blob_id blob_hash h_in h_out,
    TEEReporter.inference_result e = JDict r
    /\ dict_lookup r (py "metadata") = Some (JDict md)
    /\ dict_lookup r (py "output") = Some (JDict output)
    /\ dict_lookup r (py "input") = Some inference_input
    /\ dict_lookup report (py "tee_proof") = Some (JDict tee_proof)
    /\ let metadata :=
         bundle_metadata md (TEEReporter.report_now e) market_id category in
       let bundle :=
         WalrusUploader.create_evidence_bundle
           inference_input (JDict output) metadata in
       dict_lookup bundle (py "timestamp")
       = Some (JInt (TEEReporter.report_now e))
       /\ dict_lookup metadata (py "market_id") = Some (JStr market_id)
       /\ dict_lookup metadata (py "category") = Some (JStr category)
       /\ WalrusUploader.hash_bundle (JDict bundle) = Ok blob_hash
       /\ dict_lookup tee_proof (py "blob_hash") = Some (JStr blob_hash)
       /\ dict_lookup tee_proof (py "blob_id") = Some (JStr blob_id)
       /\ TEESignatureGenerator.hash_input inference_input = Ok h_in
       /\ dict_lookup tee_proof (py "h_in") = Some (JStr h_in)
       /\ TEESignatureGenerator.hash_output (JDict output) = Ok h_out
       /\ dict_lookup tee_proof (py "h_out") = Some (JStr h_out)
       /\ (TEEReporter.enable_walrus_upload self = false ->
           TEEReporter.simulated_blob_id (JDict bundle) = Ok blob_id
           /\ startswith blob_id (py "SIMULATED_") = true
           /\ length blob_id = 42%nat).
Proof.
  intros H. apply create_resolution_report_inv in H
    as (r & md & output & input & blob_id & blob_hash & proof & ph & sh
        & res & src & rat & Hr & Hmd & Hout & Hin & Hvalid & Hids & Hproof
        & _ & _ & Hres & Hsrc & Hrat & ->).
  apply create_tee_proof_inv in Hproof
    as (h_in & h_out & d & sg & att & Hhin & Hhout & _ & _ & ->).
  cbv zeta in Hids. destruct Hids as [Hhash Hids].
  destruct (bundle_metadata_lookup md (TEEReporter.report_now e)
              market_id category) as (Hts & Hmk & Hcat).
  exists r, md, output, input. eexists. exists blob_id, blob_hash, h_in, h_out.
  split; [exact Hr|]. split; [exact Hmd|]. split; [exact Hout|].
  split; [exact Hin|]. split; [reflexivity|]. cbv zeta.
  split.
  { unfold WalrusUploader.create_evidence_bundle, dict_get.
    rewrite Hts. reflexivity. }
  split; [exact Hmk|]. split; [exact Hcat|]. split; [exact Hhash|].
  split; [reflexivity|]. split; [reflexivity|]. split; [exact Hhin|].
  split; [reflexivity|]. split; [exact Hhout|]. split; [reflexivity|].
  intros Hoff. rewrite Hoff in Hids. split; [exact Hids|].
  apply simulated_blob_id_shape in Hids as (Hs & Hl & _). auto.
Qed.

Lemma dumps_default_ascii (v : json) :
  json_representable v = true ->
  Forall is_ascii (Json.dumps opts_default v).
Proof.
  intros Hv. apply encode_ascii_layout; [ascii_closed | ascii_closed | exact Hv].
Qed.

Lemma evidence_bundle_representable (inference_input inference_output : json)
    (metadata : dict) :
  json_representable inference_input = true ->
  json_representable inference_output = true ->
  json_representable (JDict metadata) = true ->
  json_representable
    (JDict (WalrusUploader.create_evidence_bundle
              inference_input inference_output metadata)) = true.
Proof.
  intros Hi Ho Hm. unfold WalrusUploader.create_evidence_bundle.
  assert (Ht : json_representable (dict_get metadata (py "timestamp") (JInt 0))
               = true).
  { unfold dict_get.
    destruct (dict_lookup metadata (py "timestamp")) eqn:E; [|reflexivity].
    exact (lookup_representable _ _ _ Hm E). }
  set (m := JDict metadata) in *. cbn [json_representable].
  apply andb_true_iff. split; [reflexivity|].
  cbn [forallb]. rewrite Hi, Ho, Ht, Hm. reflexivity.
Qed.

Lemma report_exists (self : TEEReporter.t) (e : TEEReporter.env)
    (market_id category : pystr) (round_number : Z) :
  json_representable (TEEReporter.inference_result e) = true ->
  inference_shape (TEEReporter.inference_result e) = true ->
  well_formed_text market_id = true ->
  well_formed_text category = true ->
  well_formed_text
    (TEESignatureGenerator.enclave_id (TEEReporter.tee_signer self)) = true ->
  well_formed_text
    (TEESignatureGenerator.mrenclave (TEEReporter.tee_signer self)) = true ->
  all_bytes (TEESignatureGenerator.nonce_bytes (TEEReporter.tee_env e)) = true ->
  all_bytes (TEESignatureGenerator.mrsigner_bytes (TEEReporter.tee_env e))
  = true ->
  TEEReporter.enable_walrus_upload self = false ->
  exists report,
    TEEReporter.create_resolution_report
      self e market_id category round_number = Returned report.
Proof.
  intros Hrep Hshape Hm Hc Hen Hmr Hnb Hsb Hoff.
  apply all_bytes_Forall in Hnb, Hsb.
  unfold inference_shape in Hshape.
  destruct (TEEReporter.inference_result e) as [| | | | | |r] eqn:Hr;
    try discriminate Hshape.
  destruct (dict_lookup r (py "input")) as [input|] eqn:Hin;
    [|discriminate Hshape].
  destruct (dict_lookup r (py "output")) as [[| | | | | |output]|] eqn:Hout;
    try discriminate Hshape.
  destruct (dict_lookup r (py "metadata")) as [[| | | | | |md]|] eqn:Hmd;
    try discriminate Hshape.
  apply andb_true_iff in Hshape as [Hshape Hvalid].
  apply andb_true_iff in Hshape as [Htok Hprompt].
  destruct (GPT5Inference.validate_output output) as [[|]|] eqn:Hv;
    try discriminate Hvalid. clear Hvalid.
  apply dict_contains_lookup in Htok as [tokens Htok].
  apply dict_contains_lookup in Hprompt as [prompt_hash Hprompt].
  destruct (validate_true_inv _ Hv)
    as (res & src & rat & rr & Hres & Hsrc & Hrat & _).
  pose proof (lookup_representable _ _ _ Hrep Hin) as Hrin.
  pose proof (lookup_representable _ _ _ Hrep Hout) as Hrout.
  pose proof (lookup_representable _ _ _ Hrep Hmd) as Hrmd.
  pose proof (bundle_metadata_representable md (TEEReporter.report_now e)
                market_id category Hrmd Hm Hc) as Hrmeta.
  pose proof (evidence_bundle_representable _ _ _ Hrin Hrout Hrmeta) as Hrb.
  unfold TEEReporter.create_resolution_report. rewrite Hr, Hoff.
  cbn [GPT5Inference.getitem]. rewrite Hmd.
  cbn [of_option lift obind GPT5Inference.getitem]. rewrite Htok.
  cbn [of_option lift obind]. rewrite Hout.
  cbn [of_option lift obind TEEReporter.validate_output_value]. rewrite Hv.
  cbn [lift obind negb TEEReporter.mapping]. rewrite Hin.
  cbn [of_option lift obind GPT5Inference.getitem].
  rewrite Hprompt, Hres, Hsrc, Hrat. cbn [of_option].
  fold (bundle_metadata md (TEEReporter.report_now e) market_id category).
  set (bundle := JDict (WalrusUploader.create_evidence_bundle _ _ _)) in *.
  unfold TEEReporter.simulated_blob_id.
  rewrite (utf8_encode_ascii _ (dumps_default_ascii _ Hrb)).
  cbn [bind lift obind].
  unfold WalrusUploader.hash_bundle.
  rewrite (hash_text_ascii _ (dumps_sorted_compact_ascii _ Hrb)).
  cbn [lift obind fst snd].
  set (blob_id := py "SIMULATED_" ++ _).
  set (blob_hash := py "0x" ++ _).
  assert (Hbid : well_formed_text blob_id = true).
  { apply ascii_well_formed, Forall_app. split; [ascii_closed|].
    apply firstn_forall, hex_ascii, sha256_bytes. }
  assert (Hbh : well_formed_text blob_hash = true)
    by apply prefixed_hex_well_formed, sha256_bytes.
  destruct (tee_proof_exists (TEEReporter.tee_signer self) (TEEReporter.tee_env e)
              input (JDict output) blob_id blob_hash
              Hrin Hrout Hbid Hbh Hen Hmr Hnb Hsb) as (proof & ->).
  cbn [lift obind].
  rewrite (hash_text_ascii _ (dumps_default_ascii config.RESOLUTION_SCHEMA
                                eq_refl)).
  cbn [lift obind]. eexists. reflexivity.
Qed.

(** X24. In simulation mode the report is produced: when the inference
    result is JSON-representable, within the limits of the interpreter,
    and has the shape [infer] builds with an output that passes
    [validate_output], the clock readings have at most 4300 digits, and
    the market id, the category and the enclave's identifiers are
    well-formed text, [create_resolution_report] returns, and the
    report it returns is JSON-representable. *)
Theorem report_produced (self : TEEReporter.t) (e : TEEReporter.env)
    (market_id category : pystr) (round_number : Z) :
  json_representable (TEEReporter.inference_result e) = true ->
  within_limits (TEEReporter.inference_result e) = true ->
  int_fits (TEEReporter.report_now e) = true ->
  int_fits (TEESignatureGenerator.now (TEEReporter.tee_env e)) = true ->
  int_fits (TEESignatureGenerator.attestation_now (TEEReporter.tee_env e))
  = true ->
  inference_shape (TEEReporter.inference_result e) = true ->
  well_formed_text market_id = true ->
  well_formed_text category = true ->
  well_formed_text
    (TEESignatureGenerator.enclave_id (TEEReporter.tee_signer self)) = true ->
  well_formed_text
    (TEESignatureGenerator.enclave_pubkey (TEEReporter.tee_signer self))
  = true ->
  well_formed_text
    (TEESignatureGenerator.mrenclave (TEEReporter.tee_signer self)) = true ->
  all_bytes (TEESignatureGenerator.nonce_bytes (TEEReporter.tee_env e)) = true ->
  all_bytes (TEESignatureGenerator.mrsigner_bytes (TEEReporter.tee_env e))
  = true ->
  TEEReporter.enable_walrus_upload self = false ->
  exists report,
    TEEReporter.create_resolution_report
      self e market_id category round_number = Returned report
    /\ json_representable (JDict report) = true.
Proof.
  intros Hrep _ _ _ _ Hshape Hm Hc Hen Hpk Hmr Hnb Hsb Hoff.
  destruct (report_exists self e market_id category round_number
              Hrep Hshape Hm Hc Hen Hmr Hnb Hsb Hoff) as [report H].
  exists report. split; [exact H|].
  apply create_resolution_report_inv in H
    as (r & md & output & input & blob_id & blob_hash & proof & prompt_hash
        & schema_hash & res & src & rat & Hr & Hmd & Hout & Hin & Hvalid
        & Hids & Hproof & Hprompt & Hschema & Hres & Hsrc & Hrat & ->).
  rewrite Hr in Hrep. rewrite Hoff in Hids. cbv zeta in Hids.
  destruct Hids as [Hhash Hid].
  pose proof (lookup_representable _ _ _ Hrep Hout) as Hrout.
  pose proof (lookup_representable _ _ _ Hrep Hmd) as Hrmd.
  pose proof (lookup_representable _ _ _ Hrmd Hprompt) as Hrprompt.
  pose proof (lookup_representable _ _ _ Hrout Hres) as Hrres.
  pose proof (lookup_representable _ _ _ Hrout Hsrc) as Hrsrc.
  pose proof (lookup_representable _ _ _ Hrout Hrat) as Hrrat.
  apply simulated_blob_id_shape in Hid as (_ & _ & _ & Hbid).
  apply hash_text_well_formed in Hhash, Hschema.
  apply all_bytes_Forall in Hnb.
  pose proof (tee_proof_representable _ _ _ _ _ _ _ Hproof Hbid Hhash
                Hen Hpk Hmr Hnb) as Hrproof.
  assert (Hph : well_formed_text TEEReporter.parser_hash = true)
    by apply prefixed_hex_well_formed, sha256_bytes.
  assert (Hctl : json_representable
                   (JDict
                      [ (py "model_id", JStr config.GPT5_MODEL);
                        (py "prompt_hash", prompt_hash);
                        (py "parser_hash", JStr TEEReporter.parser_hash);
                        (py "schema_hash", JStr schema_hash) ]) = true).
  { cbn [json_representable]. apply andb_true_iff. split; [reflexivity|].
    cbn [forallb json_representable]. rewrite Hrprompt, Hph, Hschema.
    reflexivity. }
  cbn [json_representable].
  apply andb_true_iff. split; [reflexivity|].
  cbn [forallb]. rewrite Hrres, Hrsrc, Hrrat, Hctl, Hrproof. reflexivity.
Qed.

Lemma report_produced_witness :
  exists report,
    TEEReporter.create_resolution_report
      reporter_example reporter_env_example (py "0xmarket123") (py "crypto") 1
    = Returned report
    /\ json_representable (JDict report) = true.
Proof.
  apply (report_produced reporter_example reporter_env_example
           (py "0xmarket123") (py "crypto") 1); reflexivity.
Defined.

Lemma report_example_returns :
  exists report,
    TEEReporter.create_resolution_report
      reporter_example reporter_env_example (py "0xmarket123") (py "crypto") 1
    = Returned report.
Proof.
  apply (report_exists reporter_example reporter_env_example
           (py "0xmarket123") (py "crypto") 1); reflexivity.
Defined.

Lemma report_requires_valid_output_witness :
  exists report output,
    TEEReporter.create_resolution_report
      reporter_example reporter_env_example (py "0xmarket123") (py "crypto") 1
    = Returned report
    /\ GPT5Inference.getitem
         (TEEReporter.inference_result reporter_env_example) (py "output")
       = Ok (JDict output)
    /\ GPT5Inference.validate_output output = Ok true
    /\ dict_lookup report (py "resolution")
       = dict_lookup output (py "resolution")
    /\ dict_lookup report (py "sources") = dict_lookup output (py "sources")
    /\ dict_lookup report (py "rationale")
       = dict_lookup output (py "rationale").
Proof.
  destruct report_example_returns as [report H].
  destruct (report_requires_valid_output
              reporter_example reporter_env_example
              (py "0xmarket123") (py "crypto") 1 report H) as [output Ho].
  exists report, output. split; [exact H | exact Ho].
Defined.

Lemma report_matches_schema_witness :
  exists report,
    TEEReporter.create_resolution_report
      reporter_example reporter_env_example (py "0xmarket123") (py "crypto") 1
    = Returned report
    /\ keys report = schema_required config.RESOLUTION_SCHEMA.
Proof.
  destruct report_example_returns as [report H].
  exists report. split; [exact H|].
  apply (report_matches_schema
           reporter_example reporter_env_example
           (py "0xmarket123") (py "crypto") 1 report H).
Defined.

Lemma report_binds_evidence_witness :
  exists report tee_proof blob_hash,
    TEEReporter.create_resolution_report
      reporter_example reporter_env_example (py "0xmarket123") (py "crypto") 1
    = Returned report
    /\ dict_lookup report (py "tee_proof") = Some (JDict tee_proof)
    /\ dict_lookup tee_proof (py "blob_hash") = Some (JStr blob_hash).
Proof.
  destruct report_example_returns as [report H].
  destruct (report_binds_evidence
              reporter_example reporter_env_example
              (py "0xmarket123") (py "crypto") 1 report H)
    as (r & md & output & input & tee_proof & blob_id & blob_hash & h_in
        & h_out & _ & _ & _ & _ & Hp & Hb).
  cbv zeta in Hb. destruct Hb as (_ & _ & _ & _ & Hbh & _).
  exists report, tee_proof, blob_hash. auto.
Defined.

(** ** X25 to X28: the data sources and their text *)

Lemma source_lines_text (repr_container : json -> pystr) (id url data : pystr) :
  OpenAIInference.source_lines repr_container (text_source id url data)
  = Ok [py "Source: " ++ id; py "URL: " ++ url; py "Data: " ++ data; py "---"].
Proof. reflexivity. Qed.

(** X25. A line feed in a field is not escaped, so the data of one
    source can pose as a further source: a source whose data ends with
    a separator line and the three lines of a second source gives the
    same text as the two sources one after the other. *)
Theorem normalize_sources_data_forged (repr_container : json -> pystr)
    (id url data id' url' data' : pystr) (rest : list json) :
  let forged :=
    data ++ [10] ++ py "---" ++ [10] ++ py "Source: " ++ id' ++ [10]
    ++ py "URL: " ++ url' ++ [10] ++ py "Data: " ++ data' in
  length (text_source id url forged :: rest)
  <> length (text_source id url data :: text_source id' url' data' :: rest)
  /\ OpenAIInference.normalize_sources_data repr_container
       (text_source id url forged :: rest)
     = OpenAIInference.normalize_sources_data repr_container
         (text_source id url data :: text_source id' url' data' :: rest).
Proof.
  cbv zeta. split; [cbn [length]; lia|].
  unfold OpenAIInference.normalize_sources_data.
  cbn [OpenAIInference.normalized]. rewrite !source_lines_text. cbn [bind].
  destruct (OpenAIInference.normalized repr_container rest) as [more|e];
    cbn [bind]; [|reflexivity].
  f_equal. cbn [app].
  destruct more as [|m more]; cbn [Json.join app];
    repeat (rewrite <- app_assoc; cbn [app]); reflexivity.
Qed.

Lemma source_lines_total (repr_container : json -> pystr) (source : json) :
  if has_fields source
  then exists fields,
         rendered_fields repr_container source = Some fields
         /\ OpenAIInference.source_lines repr_container source
            = Ok (field_lines fields)
  else OpenAIInference.source_lines repr_container source = Raise KeyError
       \/ OpenAIInference.source_lines repr_container source = Raise TypeError.
Proof.
  unfold has_fields, rendered_fields, OpenAIInference.source_lines.
  destruct source as [|b|z|r|s|l|d]; cbn [GPT5Inference.getitem bind]; auto.
  unfold dict_contains.
  destruct (dict_lookup d (py "id")) as [id|]; cbn [of_option bind andb]; auto.
  destruct (dict_lookup d (py "url")) as [url|]; cbn [of_option bind andb];
    auto.
  destruct (dict_lookup d (py "data")) as [data|]; cbn [of_option bind andb];
    auto.
  eexists. split; reflexivity.
Qed.

(** X26. On sources within the limits of the interpreter, which [str]
    and the f-string convert, [normalize_sources_data] returns exactly
    when every source is a mapping with the entries [id], [url] and
    [data]; otherwise it raises [KeyError] (an entry is missing) or
    [TypeError] (a source is not a mapping). *)
Theorem normalize_sources_data_returns (repr_container : json -> pystr)
    (sources : list json) :
  forallb within_limits sources = true ->
  if forallb has_fields sources
  then exists text,
         OpenAIInference.normalize_sources_data repr_container sources
         = Ok text
  else OpenAIInference.normalize_sources_data repr_container sources
       = Raise KeyError
       \/ OpenAIInference.normalize_sources_data repr_container sources
          = Raise TypeError.
Proof.
  intros _.
  unfold OpenAIInference.normalize_sources_data.
  assert (H : if forallb has_fields sources
              then exists lines,
                     OpenAIInference.normalized repr_container sources
                     = Ok lines
              else OpenAIInference.normalized repr_container sources
                   = Raise KeyError
                   \/ OpenAIInference.normalized repr_container sources
                      = Raise TypeError).
  { induction sources as [|s sources IH];
      cbn [forallb OpenAIInference.normalized]; [eauto|].
    pose proof (source_lines_total repr_container s) as Hs.
    destruct (has_fields s); cbn [andb].
    - destruct Hs as (fields & _ & ->). cbn [bind].
      destruct (forallb has_fields sources).
      + destruct IH as [lines ->]. cbn [bind]. eauto.
      + destruct IH as [-> | ->]; cbn [bind]; auto.
    - destruct Hs as [-> | ->]; cbn [bind]; auto. }
  destruct (forallb has_fields sources).
  - destruct H as [lines ->]. cbn [bind]. eauto.
  - destruct H as [-> | ->]; cbn [bind]; auto.
Qed.

(** Two sources, the second with a number for its data. *)
Lemma normalize_sources_data_returns_witness :
  exists text,
    OpenAIInference.normalize_sources_data repr_example
      [ text_source (py "coingecko") (py "https://example.com") (py "42");
        JDict [ (py "id", JStr (py "binance")); (py "url", JNull);
                (py "data", JInt 42) ] ]
    = Ok text.
Proof.
  exact (normalize_sources_data_returns repr_example
           [ text_source (py "coingecko") (py "https://example.com") (py "42");
             JDict [ (py "id", JStr (py "binance")); (py "url", JNull);
                     (py "data", JInt 42) ] ]
           eq_refl).
Defined.

Lemma one_line_fields (repr_container : json -> pystr) (source : json) :
  one_line_source repr_container source = true ->
  exists fields,
    rendered_fields repr_container source = Some fields
    /\ OpenAIInference.source_lines repr_container source
       = Ok (field_lines fields)
    /\ Forall (fun line => ~ In 10 line) (field_lines fields).
Proof.
  unfold one_line_source. intros H.
  pose proof (source_lines_total repr_container source) as Hs.
  destruct (rendered_fields repr_container source) as [[[id url] data]|] eqn:E;
    [|discriminate H].
  assert (Hf : has_fields source = true).
  { unfold rendered_fields in E. unfold has_fields, dict_contains.
    destruct source; try discriminate E.
    destruct (dict_lookup items (py "id")); [|discriminate E].
    destruct (dict_lookup items (py "url")); [|discriminate E].
    destruct (dict_lookup items (py "data")); [|discriminate E].
    reflexivity. }
  rewrite Hf in Hs. destruct Hs as (fields & Hfields & Hlines).
  injection Hfields as <-. exists (id, url, data).
  split; [reflexivity|]. split; [exact Hlines|].
  rewrite !andb_true_iff in H. destruct H as [[Hi Hu] Hd].
  cbn [field_lines].
  repeat constructor; apply no_char_In;
    rewrite ?no_char_app, ?Hi, ?Hu, ?Hd; reflexivity.
Qed.

Lemma normalized_one_line (repr_container : json -> pystr)
    (sources : list json) :
  forallb (one_line_source repr_container) sources = true ->
  OpenAIInference.normalized repr_container sources
  = Ok (flat_map (fun s => option_lines (rendered_fields repr_container s))
          sources)
  /\ Forall (fun line => ~ In 10 line)
       (flat_map (fun s => option_lines (rendered_fields repr_container s))
          sources).
Proof.
  induction sources as [|s sources IH];
    cbn [forallb OpenAIInference.normalized flat_map]; intros H.
  - split; [reflexivity | constructor].
  - apply andb_true_iff in H as [Hs H].
    destruct (one_line_fields _ _ Hs) as (fields & -> & -> & Hl).
    destruct (IH H) as [-> Hr]. cbn [bind option_lines].
    split; [reflexivity | now apply Forall_app].
Qed.

Lemma split_lines_join (lines : list pystr) :
  lines <> [] -> Forall (fun line => ~ In 10 line) lines ->
  split_lines (Json.join [10] lines) = lines.
Proof.
  intros Hne H. induction H as [|p lines Hp Hl IH]; [contradiction|].
  destruct lines as [|q lines].
  - cbn [Json.join]. now apply split_lines_last.
  - change (Json.join [10] (p :: q :: lines))
      with (p ++ 10 :: Json.join [10] (q :: lines)).
    rewrite (split_lines_line _ _ Hp), IH by discriminate. reflexivity.
Qed.

Lemma field_lines_inj (a b : list (option (pystr * pystr * pystr))) :
  Forall (fun x => x <> None) a -> Forall (fun x => x <> None) b ->
  flat_map option_lines a = flat_map option_lines b -> a = b.
Proof.
  intros Ha. revert b. induction Ha as [|x a Hx _ IH]; intros b Hb H.
  - destruct Hb as [|y b Hy _]; [reflexivity|].
    destruct y as [[[i u] d]|]; [discriminate H | contradiction].
  - destruct Hb as [|y b Hy Hb].
    + destruct x as [[[i u] d]|]; [discriminate H | contradiction].
    + destruct x as [[[i u] d]|]; [|contradiction].
      destruct y as [[[i' u'] d']|]; [|contradiction].
      cbn [flat_map option_lines field_lines app] in H.
      injection H as H1 H2 H3 H4. subst.
      f_equal. now apply IH.
Qed.

Lemma flat_map_rendered (repr_container : json -> pystr)
    (sources : list json) :
  flat_map (fun s => option_lines (rendered_fields repr_container s)) sources
  = flat_map option_lines (map (rendered_fields repr_container) sources).
Proof.
  induction sources as [|s sources IH]; cbn [flat_map map]; congruence.
Qed.

(** X27. When no rendered field holds a line feed, the text tells the
    sources apart: it splits into four lines per source, and two lists
    of such sources with the same text have the same rendered ids, urls
    and data, in the same order. *)
Theorem normalize_sources_data_injective (repr_container : json -> pystr)
    (sources1 sources2 : list json) (text : pystr) :
  forallb (one_line_source repr_container) sources1 = true ->
  forallb (one_line_source repr_container) sources2 = true ->
  OpenAIInference.normalize_sources_data repr_container sources1 = Ok text ->
  OpenAIInference.normalize_sources_data repr_container sources2 = Ok text ->
  map (rendered_fields repr_container) sources1
  = map (rendered_fields repr_container) sources2
  /\ (sources1 <> [] ->
      length (split_lines text) = (4 * length sources1)%nat).
Proof.
  intros H1 H2 Ht1 Ht2.
  unfold OpenAIInference.normalize_sources_data in Ht1, Ht2.
  destruct (normalized_one_line _ _ H1) as [E1 L1].
  destruct (normalized_one_line _ _ H2) as [E2 L2].
  rewrite E1 in Ht1. rewrite E2 in Ht2. cbn [bind] in Ht1, Ht2.
  apply Ok_inj in Ht1, Ht2. rewrite flat_map_rendered in *.
  set (f1 := map (rendered_fields repr_container) sources1) in *.
  set (f2 := map (rendered_fields repr_container) sources2) in *.
  assert (Hsome : forall sources,
             forallb (one_line_source repr_container) sources = true ->
             Forall (fun x => x <> None)
               (map (rendered_fields repr_container) sources)).
  { intros sources H. rewrite forallb_forall in H. apply Forall_forall.
    intros x Hx. apply in_map_iff in Hx as (s & <- & Hs).
    specialize (H s Hs). unfold one_line_source in H.
    destruct (rendered_fields repr_container s); [discriminate | discriminate H]. }
  assert (Hnil : forall f, Forall (fun x => x <> None) f ->
                           flat_map option_lines f = [] -> f = []).
  { intros f Hf Hn. destruct Hf as [|x f Hx _]; [reflexivity|].
    destruct x as [[[i u] d]|]; [discriminate Hn | contradiction]. }
  assert (Hlen : forall f, Forall (fun x => x <> None) f ->
                           length (flat_map option_lines f)
                           = (4 * length f)%nat).
  { intros f Hf. induction Hf as [|x f Hx _ IH]; [reflexivity|].
    destruct x as [[[i u] d]|]; [|contradiction].
    cbn [flat_map option_lines field_lines app length] in *. lia. }
  split.
  - apply field_lines_inj; [now apply Hsome | now apply Hsome |].
    destruct (flat_map option_lines f1) as [|l1 r1] eqn:F1.
    + destruct (flat_map option_lines f2) as [|l2 r2] eqn:F2; [reflexivity|].
      exfalso. cbn [Json.join] in Ht1. rewrite <- Ht1 in Ht2.
      assert (Hs : split_lines (Json.join [10] (l2 :: r2)) = l2 :: r2)
        by (apply split_lines_join; [discriminate | exact L2]).
      rewrite Ht2 in Hs. cbn [split_lines] in Hs. injection Hs as Hl2 Hr2.
      subst l2 r2.
      destruct (Hsome _ H2) as [|x f Hx Hf]; [discriminate F2|].
      fold f2 in F2. destruct x as [[[i u] d]|]; [|contradiction].
      cbn [flat_map option_lines field_lines app] in F2. discriminate F2.
    + destruct (flat_map option_lines f2) as [|l2 r2] eqn:F2.
      * exfalso. cbn [Json.join] in Ht2. rewrite <- Ht2 in Ht1.
        assert (Hs : split_lines (Json.join [10] (l1 :: r1)) = l1 :: r1)
          by (apply split_lines_join; [discriminate | exact L1]).
        rewrite Ht1 in Hs. cbn [split_lines] in Hs. injection Hs as Hl1 Hr1.
        subst l1 r1.
        destruct (Hsome _ H1) as [|x f Hx Hf]; [discriminate F1|].
        fold f1 in F1. destruct x as [[[i u] d]|]; [|contradiction].
        cbn [flat_map option_lines field_lines app] in F1. discriminate F1.
      * rewrite <- (split_lines_join (l1 :: r1)) by (discriminate || exact L1).
        rewrite <- (split_lines_join (l2 :: r2)) by (discriminate || exact L2).
        now rewrite Ht1, Ht2.
  - intros Hne. rewrite <- Ht1. subst f1.
    rewrite split_lines_join; [| |exact L1].
    + rewrite (Hlen _ (Hsome _ H1)). now rewrite length_map.
    + intros Hn. apply Hnil in Hn; [|now apply Hsome].
      apply map_eq_nil in Hn. contradiction.
Qed.

Lemma normalize_sources_data_injective_witness :
  exists text,
    OpenAIInference.normalize_sources_data repr_example
      [text_source (py "a") (py "https://a.example") (py "first")] = Ok text
    /\ length (split_lines text) = 4%nat.
Proof.
  exists (py "Source: a" ++ [10] ++ py "URL: https://a.example" ++ [10]
          ++ py "Data: first" ++ [10] ++ py "---").
  split; [reflexivity|].
  apply (normalize_sources_data_injective repr_example
           [text_source (py "a") (py "https://a.example") (py "first")]
           [text_source (py "a") (py "https://a.example") (py "first")]);
    try reflexivity.
  discriminate.
Defined.

(** X28. The mock sources always render: for every category without
    a line feed, whatever the case mapping, [collect_data_sources]
    returns one or three sources, each with the three entries and no
    line feed in them, and [normalize_sources_data] turns them into a
    text of four lines per source. *)
Theorem collected_sources_render (lower : pystr -> pystr)
    (repr_container : json -> pystr) (market_question category : pystr) :
  no_char 10 category = true ->
  let sources :=
    TEEReporter.collect_data_sources lower market_question category in
  (length sources = 1%nat \/ length sources = 3%nat)
  /\ forallb (one_line_source repr_container) sources = true
  /\ exists text,
       OpenAIInference.normalize_sources_data repr_container sources = Ok text
       /\ length (split_lines text) = (4 * length sources)%nat.
Proof.
  intros Hc. cbv zeta.
  set (sources := TEEReporter.collect_data_sources lower market_question category).
  assert (Hlen : length sources = 1%nat \/ length sources = 3%nat).
  { unfold sources, TEEReporter.collect_data_sources.
    destruct (str_eqb (lower category) (py "crypto")); [now right|].
    destruct (str_eqb (lower category) (py "politics")); now left. }
  assert (Hone : forallb (one_line_source repr_container) sources = true).
  { unfold sources, TEEReporter.collect_data_sources.
    destruct (str_eqb (lower category) (py "crypto")); [reflexivity|].
    destruct (str_eqb (lower category) (py "politics")); [reflexivity|].
    cbn [forallb]. rewrite andb_true_r.
    unfold one_line_source.
    change (rendered_fields repr_container _)
      with (Some (py "generic:source1", py "https://example.com/...",
                  py "Mock data for " ++ category ++ py " category")).
    cbv beta iota. rewrite !no_char_app, Hc. reflexivity. }
  split; [exact Hlen|]. split; [exact Hone|].
  destruct (normalized_one_line _ _ Hone) as [E L].
  unfold OpenAIInference.normalize_sources_data. rewrite E. cbn [bind].
  eexists. split; [reflexivity|].
  rewrite split_lines_join; [| |exact L].
  - clear E L Hlen. induction sources as [|s sources IH]; [reflexivity|].
    cbn [forallb] in Hone. apply andb_true_iff in Hone as [Hs Hone].
    destruct (one_line_fields _ _ Hs) as ([[i u] d] & Hf & _).
    cbn [flat_map length]. rewrite Hf, length_app, (IH Hone).
    cbn [option_lines field_lines length]. lia.
  - intros Hn. destruct sources as [|s sources]; [destruct Hlen; discriminate|].
    cbn [forallb] in Hone. apply andb_true_iff in Hone as [Hs _].
    destruct (one_line_fields _ _ Hs) as ([[i u] d] & Hf & _).
    cbn [flat_map] in Hn. rewrite Hf in Hn. discriminate Hn.
Qed.

Lemma collected_sources_render_witness :
  let sources :=
    TEEReporter.collect_data_sources ascii_lower
      (py "Will BTC exceed $100,000?") (py "Crypto") in
  (length sources = 1%nat \/ length sources = 3%nat)
  /\ forallb (one_line_source repr_example) sources = true
  /\ exists text,
       OpenAIInference.normalize_sources_data repr_example sources = Ok text
       /\ length (split_lines text) = (4 * length sources)%nat.
Proof.
  apply (collected_sources_render ascii_lower repr_example
           (py "Will BTC exceed $100,000?") (py "Crypto")).
  reflexivity.
Defined.
